(* ===== verification/_CoqProject ===== *)
-Q . S2P
Prelude.v
PyDict.v
PySort.v
PyStr.v
PyObj.v
Profile.v
Ranking.v
Engine.v
Legacy.v
Streamlit.v
Helpers.v
VenueManager.v
Explorer.v
Script.v
Users.v
UserViews.v
App.v
