(* ===== verification/Prelude.v ===== *)
(** * Affinari match engine: a verification development

    The program (five Python files under [src/]) matches a requester
    preference profile against venue profiles and ranks the venues,
    lets a user keep a profile and scenario templates, and lets a vendor
    edit the venues.  Its data are JSON files; its pages are Streamlit
    scripts, run from top to bottom at every interaction.

    ** Parts of the program and where they are modelled

    - [src/bu1.py], [match_score] (lines 11-31): the three-stage scorer
      (required-tag gate, scalar dot product, categorical overlap
      bonus).  [Engine.v], Module [Engine]: the code statement by
      statement ([tag_gate], [scalar_step], [categorical_step],
      [match_score]) and the reference score of the specification
      ([score_spec]).
    - [src/bu1.py], the matching block of [user_scenario_view] (lines
      126-143): score every venue, drop the disqualified ones, sort by
      score descending, show the top three.  [Ranking.v], written
      against the interface [Scorer] (a typeclass), which [Engine.v] and
      [Legacy.v] instantiate.
    - [src/bu1.py], user profiles (lines 36-51): [Users.v], Module
      [Users]: [get_user_list], [load_user_profile],
      [save_user_profile], [create_new_user] on the directories of the
      store.
    - [src/bu1.py], the views (lines 56-147): [UserViews.v], Module
      [UserViews]: [user_preferences_view], [user_scenario_view] (the
      template select box [choose_template], the form [scenario_form],
      [save_template], then the matching block of [Ranking.v]) and
      [user_templates_view].
    - [src/bu1.py], the script (lines 152-206): [App.v], Module [App]:
      [main] is one run: role, user selection or creation
      ([create_user_page]), the menu of a user ([user_menu]), the vendor
      page ([vendor_view], the venue manager of [VenueManager.v]).
    - The user side reads and writes files as it goes.  [Script.v] has
      the computations it is written in: [io A], a function from the
      [world] (the files and the page shown so far) to a value or an
      exception and the world left, so that what was written before an
      exception stays written.
    - [src/affinari_match.py]: the flat command-line variant (session
      profile = clamp (base + modifier), dot product, full ranking).
      [Legacy.v], Module [Legacy].
    - [src/streamlit_app.py]: the same variant as a page, the modifier
      coming from sliders.  [Explorer.v], Module [Explorer].
    - [src/venue_manager.py]: the venue editing view.  [VenueManager.v],
      Module [VenueManager]: one run of [venue_management_view] as a
      function of the widget state of the run ([Streamlit.ui]) and the
      files ([Helpers.store]); the run returns the files it leaves, the
      messages it shows and whether it asks for a rerun.
    - [src/helpers.py]: the JSON loaders.  [Helpers.v], Module [Helpers],
      over a typed store of the files ([store]: the four top-level
      files, the default profile, and one directory per user with its
      profile and its templates), each file a [file] record (path,
      read, write, writable) with the laws of a file system
      ([FileLaws], [Independent]).
    - The Python and Streamlit substrate the code runs on: [PyDict.v]
      (insertion-ordered [dict], with its finite-map view as a stdpp
      [gmap]), [PySort.v] ([sorted], stable), [PyStr.v] ([str] order,
      [replace], [title], [strip]), [PyObj.v] (references to objects: a
      heap, allocation, update in place), [Streamlit.v] (widgets of one
      run), [Profile.v] (the profile record and its invariants).

    ** Modelling conventions

    - Python [float] and [int] scores are exact rationals [Q]; equality
      of scores is [Qeq], written [≡] through stdpp's [Equiv] class.
      Floating-point rounding is not modelled; [round(x, 2)] rounds the
      rational, half to even.  A theorem that equates a score with a
      closed form, or bounds it, is a statement on the exact values, to
      which the floats of a run are close.  Addition of floats is not
      associative, so no theorem compares two sums taken in different
      orders: where the development states that two runs give the same
      score ([Engine.match_score_venue_order]), the two runs do the
      same operations on the same operands in the same order and the
      equality is [=], proved without a law of arithmetic.  The flat
      scorer uses [sum()], a left fold before Python 3.12 and a
      compensated sum from then on.
    - A Python [dict] is an association list in insertion order with
      unique keys ([PyDict.dict_wf]); iteration order is list order.
    - An exception is a value: [result A] is [Ok a] or [Raise e].
      Loops whose body can raise are [foldM]; every loop is a fold over
      a finite list, so no fuel is needed and every model is a total
      function.
    - [st.rerun()] ends the run.  In [Script.v] it raises
      [RerunException], as it does in Streamlit; the venue manager,
      whose reruns are its last statements, returns [Rerun] as the
      ending of its run, and [App.vendor_view] turns that ending into
      the exception.
    - Tag flags stay integers ([Z]), as the code compares them with
      [== 1].
    - A file holds JSON of the shape the program expects, or does not
      exist; a profile is a record of three optional sections, so keys
      other than [scalars], [tags] and [categoricals] and the order of
      the three in the file are not represented.
    - A widget is identified by its [key] when the call gives one and
      by its label otherwise; the widget state of a run ([Streamlit.ui])
      holds the values the user has set in the browser.  A widget
      raises [StreamlitAPIException] for a default it does not offer.
    - [os.listdir] returns the users in the order they were made.
    - Strings are byte strings; letters and white space are ASCII.

    ** What the theorems show

    - [Engine.v]: [match_score] returns on every input and returns the
      reference score (refinement); it never divides by zero;
      disqualification is exactly a missing required tag; bounds of the
      categorical bonus and of the score; the score does not depend on
      how the venue is written down ([venue_same], with its [Proper]
      instance); a venue that shares nothing with the requester scores
      0.
    - [Ranking.v]: the ranking is the stable descending sort of the
      qualifying pairs and the only list with that property; only
      qualifying venues are listed; the top three shown are the best;
      the loop raises exactly when a score raises.
    - [Legacy.v], [Explorer.v]: the session profile is clamped to the
      unit interval; the flat score is the scalar stage of the sectioned
      scorer; both programs rank every venue; the page is the script on
      the slider values; they fail exactly on a missing file.
    - [VenueManager.v]: the run on the heap of venue objects equals a
      heap-free view ([view_refines]); Save, Delete and a blank name do
      what the view says, and nothing but [venues.json] is written; the
      venues file stays well formed; the view returns exactly on the
      venues its form can open; saving under another name overwrites
      the old entry too.

    - [Users.v]: creating a user stores the default profile and lists
      the user last; without a default profile it raises and leaves a
      user that has no profile.
    - [UserViews.v]: Save Preferences stores whole numbers from 0 to 10
      where the scenario form stores tenths, and the preferences view
      raises on what it has stored; the session profile of a scenario
      is well formed and its matches are the best three qualifying
      venues; a template saved and opened again is the session profile
      that was saved.
    - [App.v]: a venue saved on the vendor page is what the next
      scenario is matched against; a scenario shown by the application
      has the matches of its session profile; a new
      name makes a user and an existing name is refused; a creation
      that fails for want of the default profile makes the user page
      raise from then on; a run raises nothing but a missing file, a
      widget exception or the rerun.  The last is proved piece by piece:
      [raises_within] (here) and [raises_only] ([Script.v]) say what a
      result and a computation may raise, each widget, loader and view
      has its lemma in the hint database [raises], and the tactic
      [raises] composes them along the binds of a script.

    ** Not modelled

    - JSON text (parsing, printing, malformed files), files of a
      templates directory that are not [.json], number formatting in
      messages, page layout (expanders, columns, page configuration),
      duplicate widget identifiers, and binary floating point.

    ** This file

    The shared prelude: the [result] monad and [foldM] with its loop
    lemmas, what a result may raise, rational-number instances, Python's [min], [max], [round],
    truth and true division, sums of rationals, the development's
    tactics and the [py] hint database. *)

From Stdlib Require Export QArith Qabs Qround Lqa.
From stdpp Require Export base tactics option list strings gmap sorting.

Declare Scope py_scope.
Delimit Scope py_scope with py.
Create HintDb py discriminated.
Create Rewrite HintDb pyrw.

(** ** Exceptions as values *)

Inductive exn : Type :=
| ZeroDivisionError
| KeyError (key : string)
| FileNotFoundError (path : string)
| StreamlitAPIException (msg : string)
| RerunException.

Inductive result (A : Type) : Type :=
| Ok (a : A)
| Raise (e : exn).
Arguments Ok {A} a.
Arguments Raise {A} e.

#[export] Instance exn_eq_dec : EqDecision exn.
Proof. solve_decision. Defined.

#[export] Instance result_ret : MRet result := @Ok.
#[export] Instance result_bind : MBind result := λ A B f m,
  match m with Ok a => f a | Raise e => Raise e end.
#[export] Instance result_fmap : FMap result := λ A B f m,
  match m with Ok a => Ok (f a) | Raise e => Raise e end.

Definition is_ok {A} (r : result A) : bool :=
  match r with Ok _ => true | Raise _ => false end.

(** Monadic left fold: a [for] loop whose body may raise. *)
Fixpoint foldM {A B} (f : B → A → result B) (b : B) (l : list A) : result B :=
  match l with
  | [] => Ok b
  | a :: l' => b' ← f b a; foldM f b' l'
  end.

(** Two results agree when both raise the same exception or both return
    equivalent values. *)
Inductive result_equiv_rel {A} (R : relation A) : relation (result A) :=
| Ok_equiv a b : R a b → result_equiv_rel R (Ok a) (Ok b)
| Raise_equiv e : result_equiv_rel R (Raise e) (Raise e).

#[export] Instance result_equiv `{Equiv A} : Equiv (result A) :=
  result_equiv_rel (≡).

(** ** Rational numbers as scores *)

#[export] Instance Q_equiv : Equiv Q := Qeq.
#[export] Instance string_equiv : Equiv string := (=).

#[export] Instance Qeq_decision (x y : Q) : Decision (x == y)%Q := Qeq_dec x y.
#[export] Instance Qle_decision (x y : Q) : Decision (x <= y)%Q.
Proof. destruct (Qlt_le_dec y x); [right | left]; lra. Defined.
#[export] Instance Qlt_decision (x y : Q) : Decision (x < y)%Q.
Proof. destruct (Qlt_le_dec x y); [left | right]; lra. Defined.

(** [int] to [float] conversion of a length or a set size. *)
Definition Qnat (n : nat) : Q := inject_Z (Z.of_nat n).

(** Python's [a / b] on two non-negative integers. *)
Definition py_truediv (a b : nat) : result Q :=
  match b with
  | O => Raise ZeroDivisionError
  | S _ => Ok (Qnat a / Qnat b)%Q
  end.

(** Python's two-argument [min] and [max]: the first argument wins ties. *)
Definition py_min (a b : Q) : Q := if decide (b < a)%Q then b else a.
Definition py_max (a b : Q) : Q := if decide (a < b)%Q then b else a.

(** Truth value of a list: non-empty. *)
Definition truthy {A} (l : list A) : bool :=
  match l with [] => false | _ :: _ => true end.

(** Sum of a list of rationals. *)
Fixpoint sumQ (l : list Q) : Q :=
  match l with
  | [] => 0
  | x :: l' => x + sumQ l'
  end%Q.

(** [int(x)] on a number: truncation towards zero. *)
Definition py_int (x : Q) : Z :=
  if decide (0 <= x)%Q then Qfloor x else (- Qfloor (- x))%Z.

(** [round(x, ndigits)]: to the nearest multiple of [10 ^ -ndigits], a
    tie to the even one.  On a [float] Python rounds the binary value
    the float holds; the model rounds the rational. *)
Definition round_div (n d : Z) : Z :=
  let f := (n / d)%Z in
  let r := (n mod d)%Z in
  if (2 * r <? d)%Z then f
  else if (d <? 2 * r)%Z then (f + 1)%Z
  else if Z.even f then f else (f + 1)%Z.

Definition round_half_even (x : Q) : Z := round_div (Qnum x) (Zpos (Qden x)).

Definition py_round (x : Q) (ndigits : nat) : Q :=
  Qmake (round_half_even (x * inject_Z (10 ^ Z.of_nat ndigits)))
        (Z.to_pos (10 ^ Z.of_nat ndigits)).

(** ** Tactics *)

(** Unfold the [Equiv] wrappers around [Qeq] so that [lra] sees them. *)
Ltac unfold_Qequiv :=
  repeat match goal with
  | H : @equiv Q _ _ _ |- _ => change (@equiv Q Q_equiv) with Qeq in H
  | |- context [@equiv Q _] => change (@equiv Q Q_equiv) with Qeq
  end.

Ltac qlra := unfold_Qequiv; lra.

(** Decide a closed decidable proposition by evaluation. *)
Ltac decide_compute :=
  match goal with
  | |- ?P => apply (bool_decide_unpack P); vm_compute; exact I
  end.

(** Case analysis on the tests of [py_min], [py_max] and on [decide]. *)
Ltac case_py := unfold py_min, py_max in *; repeat case_decide.

(** ** Lemmas on [result] *)

Section result_lemmas.
Context {A B : Type}.
Implicit Types (r : result A) (f : A → result B).

Lemma bind_Ok_inv r f b :
  r ≫= f = Ok b ↔ ∃ a, r = Ok a ∧ f a = Ok b.
Proof.
  destruct r as [a|e]; simpl.
  - split; [eauto | by intros (? & [= <-] & ?)].
  - split; [done | by intros (? & ? & ?)].
Qed.

Lemma bind_Raise_inv r f e :
  r ≫= f = Raise e ↔ r = Raise e ∨ ∃ a, r = Ok a ∧ f a = Raise e.
Proof.
  destruct r as [a|e']; simpl.
  - split; [eauto | by intros [? | (? & [= <-] & ?)]].
  - split; [intros [= ->]; by left | by intros [[= ->] | (? & ? & ?)]].
Qed.

Lemma fmap_Ok_inv (g : A → B) r b :
  g <$> r = Ok b ↔ ∃ a, r = Ok a ∧ b = g a.
Proof.
  destruct r as [a|e]; simpl.
  - split; [intros [= <-]; eauto | by intros (? & [= <-] & ->)].
  - split; [done | by intros (? & ? & ?)].
Qed.

Lemma is_ok_true r : is_ok r = true ↔ ∃ a, r = Ok a.
Proof. destruct r; simpl; split; eauto; (done || by intros [? ?]). Qed.

End result_lemmas.

Lemma foldM_cons {A B} (f : B → A → result B) b a l :
  foldM f b (a :: l) = f b a ≫= λ b', foldM f b' l.
Proof. done. Qed.

Lemma foldM_app {A B} (f : B → A → result B) b l1 l2 :
  foldM f b (l1 ++ l2) = foldM f b l1 ≫= λ b', foldM f b' l2.
Proof.
  revert b. induction l1 as [|a l1 IH]; intros b; simpl; [done|].
  destruct (f b a); simpl; [apply IH | done].
Qed.

(** A loop whose body never raises runs to completion and computes the
    pure left fold. *)
(** Two loops over the same list whose bodies agree step by step. *)
Lemma foldl_ext_all {A B} (f g : B → A → B) l b :
  (∀ b a, f b a = g b a) → foldl f b l = foldl g b l.
Proof.
  intros Hfg. revert b. induction l as [|a l IH]; intros b; simpl; [done|].
  by rewrite Hfg, IH.
Qed.

Lemma foldM_ext_all {A B} (f g : B → A → result B) l b :
  (∀ b a, f b a = g b a) → foldM f b l = foldM g b l.
Proof.
  intros Hfg. revert b. induction l as [|a l IH]; intros b; simpl; [done|].
  rewrite Hfg. destruct (g b a); simpl; [apply IH | done].
Qed.

Lemma truthy_list_to_set `{Countable A} (l l' : list A) :
  list_to_set (C:=gset A) l = list_to_set l' → truthy l = truthy l'.
Proof.
  destruct l as [|x l], l' as [|y l']; simpl; try done; intros Heq.
  - assert (y ∈ (∅ : gset A)) as []%not_elem_of_empty.
    rewrite Heq. apply elem_of_union_l, elem_of_singleton. done.
  - assert (x ∈ (∅ : gset A)) as []%not_elem_of_empty.
    rewrite <- Heq. apply elem_of_union_l, elem_of_singleton. done.
Qed.

Lemma foldM_pure {A B} (f : B → A → result B) (g : B → A → B) l b :
  (∀ b a, a ∈ l → f b a = Ok (g b a)) →
  foldM f b l = Ok (foldl g b l).
Proof.
  revert b. induction l as [|a l IH]; intros b Hf; simpl; [done|].
  rewrite Hf by left. simpl. apply IH. intros; apply Hf. by right.
Qed.

(** A loop whose body returns on every element returns. *)
Lemma foldM_total {A B} (f : B → A → result B) l b :
  (∀ b a, a ∈ l → ∃ b', f b a = Ok b') → ∃ r, foldM f b l = Ok r.
Proof.
  revert b. induction l as [|a l IH]; intros b Hf; simpl; [eauto|].
  destruct (Hf b a) as [b' ->]; [left|]. simpl.
  apply IH. intros; apply Hf. by right.
Qed.

(** A loop invariant: a property every turn keeps holds at the end. *)
Lemma foldM_invariant {A B} (P : B → Prop) (f : B → A → result B) l b r :
  (∀ b a b', a ∈ l → P b → f b a = Ok b' → P b') →
  P b → foldM f b l = Ok r → P r.
Proof.
  revert b. induction l as [|a l IH]; intros b Hf Hb; simpl; [by intros [= <-]|].
  destruct (f b a) as [b'|] eqn:E; simpl; [|done].
  apply IH; [|by eapply Hf; [left|..]]. intros ??? Hin. apply Hf. by right.
Qed.

(** A loop whose turns return under an invariant returns, and the
    invariant holds at the end. *)
Lemma foldM_total_invariant {A B} (P : B → Prop) (f : B → A → result B) l b :
  (∀ b a, a ∈ l → P b → ∃ b', f b a = Ok b' ∧ P b') →
  P b → ∃ r, foldM f b l = Ok r ∧ P r.
Proof.
  revert b. induction l as [|a l IH]; intros b Hf Hb; simpl; [eauto|].
  destruct (Hf b a) as (b' & -> & Hb'); [left|done|]. simpl.
  apply IH; [|done]. intros ?? Hin. apply Hf. by right.
Qed.

(** A loop with a turn that raises whatever it is given raises. *)
(** A result that raises nothing outside [P], and a loop of such
    bodies. *)
Definition raises_within {A} (P : exn → Prop) (r : result A) : Prop :=
  ∀ e, r = Raise e → P e.

Lemma raises_within_Ok {A} (P : exn → Prop) (a : A) : raises_within P (Ok a).
Proof. by intros e. Qed.

Lemma raises_within_Raise {A} (P : exn → Prop) e : P e → raises_within (A:=A) P (Raise e).
Proof. by intros He e' [= <-]. Qed.

Lemma raises_within_bind {A B} (P : exn → Prop) (r : result A) (f : A → result B) :
  raises_within P r → (∀ a, raises_within P (f a)) → raises_within P (r ≫= f).
Proof.
  intros Hr Hf e. destruct r as [a|e']; simpl; [apply (Hf a)|].
  intros [= <-]. by apply Hr.
Qed.

Lemma raises_within_foldM {A B} (P : exn → Prop) (f : B → A → result B) l b :
  (∀ b a, raises_within P (f b a)) → raises_within P (foldM f b l).
Proof.
  intros Hf. revert b. induction l as [|a l IH]; intros b; simpl.
  - apply raises_within_Ok.
  - apply raises_within_bind; [apply Hf | apply IH].
Qed.

(** What a run of the program raises when it does: a file that is
    missing, a widget that refuses its default, or the rerun. *)
Definition expected (e : exn) : Prop :=
  match e with
  | FileNotFoundError _ | StreamlitAPIException _ | RerunException => True
  | ZeroDivisionError | KeyError _ => False
  end.

Lemma expected_FileNotFoundError p : expected (FileNotFoundError p).
Proof. done. Qed.

Lemma expected_StreamlitAPIException msg : expected (StreamlitAPIException msg).
Proof. done. Qed.

Lemma expected_RerunException : expected RerunException.
Proof. done. Qed.

Create HintDb raises discriminated.
#[export] Hint Resolve raises_within_Ok raises_within_Raise raises_within_bind
  raises_within_foldM expected_FileNotFoundError expected_StreamlitAPIException
  expected_RerunException : raises.

Lemma foldM_Raise_exists {A B} (f : B → A → result B) l b a :
  a ∈ l → (∀ b, ∃ e, f b a = Raise e) → ∃ e, foldM f b l = Raise e.
Proof.
  intros Hin Hf. revert b. induction l as [|a' l IH]; intros b; [by apply elem_of_nil in Hin|].
  simpl. apply elem_of_cons in Hin as [<-|Hin].
  - destruct (Hf b) as [e ->]. eauto.
  - destruct (f b a') as [b'|e]; simpl; eauto.
Qed.

(** A loop raises where its first failing turn raises. *)
Lemma foldM_Raise_inv {A B} (f : B → A → result B) l b e :
  foldM f b l = Raise e → ∃ b' a, a ∈ l ∧ f b' a = Raise e.
Proof.
  revert b. induction l as [|a l IH]; intros b; simpl; [done|].
  destruct (f b a) as [b'|e'] eqn:E; simpl.
  - intros (b2 & a2 & ? & ?)%IH. exists b2, a2. split; [by right|done].
  - intros [= ->]. exists b, a. split; [left|done].
Qed.

#[export] Instance result_equiv_equivalence `{Equiv A} :
  Equivalence (≡@{A}) → Equivalence (≡@{result A}).
Proof.
  intros HA. split.
  - intros [a|e]; by constructor.
  - intros ?? [a b Hab|e]; by constructor.
  - intros ??? [a b Hab|e]; inversion 1; subst; constructor. by etrans.
Qed.

#[export] Instance Ok_proper `{Equiv A} : Proper ((≡) ==> (≡)) (@Ok A).
Proof. by constructor. Qed.

Lemma Ok_equiv_inv `{Equiv A} (a b : A) : Ok a ≡ Ok b → a ≡ b.
Proof. by inversion 1. Qed.

(** ** Lemmas on rationals *)

#[export] Instance Q_equivalence : Equivalence (≡@{Q}).
Proof. unfold equiv, Q_equiv. apply Q_Setoid. Qed.

#[export] Instance Qplus_proper : Proper ((≡) ==> (≡) ==> (≡)) Qplus.
Proof. exact Qplus_comp. Qed.
#[export] Instance Qmult_proper : Proper ((≡) ==> (≡) ==> (≡)) Qmult.
Proof. exact Qmult_comp. Qed.
#[export] Instance Qle_proper : Proper ((≡) ==> (≡) ==> iff) Qle.
Proof. exact Qle_comp. Qed.
#[export] Instance Qlt_proper : Proper ((≡) ==> (≡) ==> iff) Qlt.
Proof. exact Qlt_compat. Qed.

#[export] Instance Qle_preorder : PreOrder Qle.
Proof. split; [intros x; apply Qle_refl | intros x y z; apply Qle_trans]. Qed.

Lemma Qnat_nonneg n : (0 <= Qnat n)%Q.
Proof.
  unfold Qnat. change 0%Q with (inject_Z 0). rewrite <- Zle_Qle. lia.
Qed.

Lemma Qnat_pos n : (0 < n)%nat → (0 < Qnat n)%Q.
Proof.
  unfold Qnat. change 0%Q with (inject_Z 0). rewrite <- Zlt_Qlt. lia.
Qed.

Lemma Qnat_le n m : (n ≤ m)%nat → (Qnat n <= Qnat m)%Q.
Proof. unfold Qnat. rewrite <- Zle_Qle. lia. Qed.

(** A ratio of a count to a positive bound above it lies in [[0, 1]]. *)
Lemma Qnat_ratio_bounds n m :
  (0 < m)%nat → (n ≤ m)%nat → (0 <= Qnat n / Qnat m <= 1)%Q.
Proof.
  intros Hm Hn.
  pose proof (Qnat_pos m Hm) as Hpos. pose proof (Qnat_nonneg n) as Hn0.
  pose proof (Qnat_le n m Hn) as Hle. split.
  - apply Qle_shift_div_l; [done | lra].
  - apply Qle_shift_div_r; [done | lra].
Qed.

Lemma Qnat_ratio_pos n m :
  (0 < m)%nat → (0 < n)%nat → (0 < Qnat n / Qnat m)%Q.
Proof.
  intros Hm Hn. apply Qlt_shift_div_l; [by apply Qnat_pos|].
  pose proof (Qnat_pos n Hn). lra.
Qed.

Lemma Qnat_ratio_self n : (0 < n)%nat → (Qnat n / Qnat n == 1)%Q.
Proof.
  intros Hn. pose proof (Qnat_pos n Hn). field. lra.
Qed.

Lemma Qnat_ratio_one a b : (0 < b)%nat → (Qnat a / Qnat b == 1)%Q → a = b.
Proof.
  intros Hb H. pose proof (Qnat_pos b Hb).
  assert (Qnat a == Qnat b)%Q as Hab.
  { transitivity (Qnat a / Qnat b * Qnat b)%Q; [field; lra | rewrite H; lra]. }
  unfold Qnat, Qeq in Hab. simpl in Hab. lia.
Qed.

Lemma py_truediv_Ok a b :
  (0 < b)%nat → py_truediv a b = Ok (Qnat a / Qnat b)%Q.
Proof. destruct b; [lia | done]. Qed.

Lemma py_truediv_zero a : py_truediv a 0 = Raise ZeroDivisionError.
Proof. done. Qed.

(** [max(0.0, min(1.0, x))] lands in the unit interval. *)
Lemma py_clamp_bounds x : (0 <= py_max 0 (py_min 1 x) <= 1)%Q.
Proof. case_py; lra. Qed.

Lemma py_clamp_id x : (0 <= x <= 1)%Q → (py_max 0 (py_min 1 x) == x)%Q.
Proof. case_py; lra. Qed.

Lemma truthy_length {A} (l : list A) : truthy l = true ↔ (0 < length l)%nat.
Proof. destruct l; simpl; split; (done || lia). Qed.

Lemma truthy_false {A} (l : list A) : truthy l = false ↔ l = [].
Proof. by destruct l. Qed.

(** ** Sets built from lists *)

(** [len(set(l)) <= len(l)]. *)
Lemma size_list_to_set_le `{Countable A} (l : list A) :
  (size (list_to_set (C:=gset A) l) ≤ length l)%nat.
Proof.
  induction l as [|x l IH]; simpl; [done|].
  rewrite size_union_alt, size_singleton.
  assert (size (list_to_set l ∖ {[x]} : gset A) ≤ size (list_to_set l : gset A))
    by (apply subseteq_size; intros y [? _]%elem_of_difference; done).
  lia.
Qed.

(** [len(set(l)) == len(l)] only when [l] has no repeats. *)
Lemma size_list_to_set_NoDup `{Countable A} (l : list A) :
  size (list_to_set (C:=gset A) l) = length l → NoDup l.
Proof.
  induction l as [|x l IH]; simpl; [constructor|]. intros Hsize.
  pose proof (size_list_to_set_le l) as Hle.
  destruct (decide (x ∈ l)) as [Hin|Hnot].
  - assert ({[x]} ∪ list_to_set l = (list_to_set l : gset A)) as Heq
      by by apply subseteq_union_1_L, singleton_subseteq_l, elem_of_list_to_set.
    rewrite Heq in Hsize. lia.
  - rewrite size_union, size_singleton in Hsize
      by by apply disjoint_singleton_l; rewrite elem_of_list_to_set.
    constructor; [done|]. apply IH. lia.
Qed.

(** ** Sums *)

Lemma sumQ_app l1 l2 : (sumQ (l1 ++ l2) == sumQ l1 + sumQ l2)%Q.
Proof. induction l1 as [|x l1 IH]; simpl; [lra | rewrite IH; lra]. Qed.

Lemma sumQ_nonneg l : Forall (λ x, 0 <= x)%Q l → (0 <= sumQ l)%Q.
Proof. induction 1; simpl; lra. Qed.

Lemma sumQ_zero l : Forall (λ x, x == 0)%Q l → (sumQ l == 0)%Q.
Proof. induction 1 as [|x l Hx _ IH]; simpl; [done|]. rewrite Hx, IH. lra. Qed.

Lemma sumQ_upper l : Forall (λ x, x <= 1)%Q l → (sumQ l <= Qnat (length l))%Q.
Proof.
  induction 1 as [|x l Hx _ IH]; simpl; [by apply Qnat_nonneg|].
  unfold Qnat in *. rewrite Nat2Z.inj_succ, <- Z.add_1_r, inject_Z_plus.
  change (inject_Z 1) with 1%Q. lra.
Qed.

Lemma sumQ_Permutation l1 l2 : l1 ≡ₚ l2 → (sumQ l1 == sumQ l2)%Q.
Proof. induction 1; simpl; lra. Qed.

(** A left fold that adds a term per element computes the start value
    plus the sum of the terms: the accumulator loops of the scorers. *)
Lemma foldl_add_sumQ {A} (f : A → Q) (l : list A) (acc : Q) :
  (foldl (λ s a, s + f a)%Q acc l == acc + sumQ (f <$> l))%Q.
Proof.
  revert acc. induction l as [|a l IH]; intros acc; csimpl; [lra|].
  rewrite IH. lra.
Qed.

Lemma result_equiv_Ok_r `{Equiv A} (r : result A) (a : A) :
  r ≡ Ok a ↔ ∃ b, r = Ok b ∧ b ≡ a.
Proof.
  split; [inversion 1; eauto | intros (b & -> & Hb); by constructor].
Qed.

(** A loop whose body adds a term to the score, may raise, and in fact
    never does: it returns the start value plus the sum of the terms. *)
Lemma foldM_add_sumQ {A} (f : Q → A → result Q) (g : A → Q) l acc :
  (∀ s a, a ∈ l → f s a ≡ Ok (s + g a)%Q) →
  foldM f acc l ≡ Ok (acc + sumQ (g <$> l))%Q.
Proof.
  revert acc. induction l as [|a l IH]; intros acc Hf; csimpl.
  { constructor. qlra. }
  assert (f acc a ≡ Ok (acc + g a)%Q) as Ha by (apply Hf; left).
  apply result_equiv_Ok_r in Ha as (q & -> & Hq). simpl.
  rewrite IH by (intros; apply Hf; by right).
  constructor. unfold_Qequiv. rewrite Hq. lra.
Qed.

(** ** Truncation *)

#[export] Instance py_int_proper : Proper ((≡) ==> (=)) py_int.
Proof.
  intros x y Hxy. unfold py_int. unfold equiv, Q_equiv in Hxy.
  repeat case_decide; try lra; by rewrite Hxy.
Qed.

Lemma py_int_inject_Z z : py_int (inject_Z z) = z.
Proof.
  unfold py_int. case_decide.
  - apply Qfloor_Z.
  - rewrite <- inject_Z_opp, Qfloor_Z. lia.
Qed.

Lemma py_int_times z k : py_int (inject_Z z * (k # 1)) = (z * k)%Z.
Proof.
  change (k # 1) with (inject_Z k). by rewrite <- inject_Z_mult, py_int_inject_Z.
Qed.

Lemma py_int_nonneg x :
  (0 <= x)%Q → (0 ≤ py_int x)%Z ∧ (inject_Z (py_int x) <= x < inject_Z (py_int x) + 1)%Q.
Proof.
  intros Hx. unfold py_int. rewrite decide_True by done.
  pose proof (Qfloor_le x). pose proof (Qlt_floor x) as Hlt.
  rewrite inject_Z_plus in Hlt. split; [|by split].
  assert (Qfloor 0 <= Qfloor x)%Z by by apply Qfloor_resp_le. by simpl in *.
Qed.

(** Truncation of a number below an integer bound. *)
Lemma py_int_le x z : (0 <= x)%Q → (x <= inject_Z z)%Q → (py_int x ≤ z)%Z.
Proof.
  intros Hx Hz. destruct (py_int_nonneg x Hx) as [_ [Hle _]].
  assert (inject_Z (py_int x) <= inject_Z z)%Q as H by lra.
  by rewrite <- Zle_Qle in H.
Qed.

Lemma py_int_ge x z : (inject_Z z <= x)%Q → (0 <= x)%Q → (z ≤ py_int x)%Z.
Proof.
  intros Hz Hx. unfold py_int. rewrite decide_True by done.
  rewrite <- (Qfloor_Z z). by apply Qfloor_resp_le.
Qed.

(** A whole number of tenths from 0 to 10 is in the unit interval. *)
Lemma tenths_unit_interval z : (0 ≤ z ≤ 10)%Z → (0 <= inject_Z z / 10 <= 1)%Q.
Proof.
  intros Hz. unfold Qle, Qdiv, Qmult, Qinv, inject_Z. simpl. lia.
Qed.

(** ** Rounding *)

Lemma round_div_error n d :
  (0 < d → 2 * d * round_div n d - d <= 2 * n <= 2 * d * round_div n d + d)%Z.
Proof.
  intros Hd. unfold round_div.
  pose proof (Z.div_mod n d ltac:(lia)) as Hdm.
  pose proof (Z.mod_pos_bound n d Hd) as Hr.
  destruct (Z.ltb_spec (2 * (n mod d)) d); [nia|].
  destruct (Z.ltb_spec d (2 * (n mod d))); [nia|].
  destruct (Z.even (n / d)); nia.
Qed.

Lemma round_div_exact z d : (0 < d)%Z → round_div (z * d) d = z.
Proof.
  intros Hd. unfold round_div. rewrite Z.div_mul, Z.mod_mul by lia.
  by destruct (Z.ltb_spec (2 * 0) d); [|lia].
Qed.

Lemma round_half_even_error x :
  (inject_Z (round_half_even x) - (1 # 2) <= x
   <= inject_Z (round_half_even x) + (1 # 2))%Q.
Proof.
  destruct x as [n d]. unfold round_half_even. cbn [Qnum Qden].
  pose proof (round_div_error n (Zpos d) ltac:(lia)).
  unfold Qle, Qminus, Qplus, Qopp, inject_Z; cbn [Qnum Qden]. lia.
Qed.

(** Rounding moves a number by at most half a unit of the last digit
    kept. *)
Lemma py_round_error x n :
  (Qabs (py_round x n - x) <= 1 # (2 * Z.to_pos (10 ^ Z.of_nat n)))%Q.
Proof.
  unfold py_round.
  assert (Hp : (0 < 10 ^ Z.of_nat n)%Z) by (apply Z.pow_pos_nonneg; lia).
  set (p := (10 ^ Z.of_nat n)%Z) in *.
  pose proof (round_half_even_error (x * inject_Z p)) as [H1 H2].
  set (z := round_half_even (x * inject_Z p)) in *.
  apply Qabs_Qle_condition.
  destruct x as [a b].
  unfold Qle, Qminus, Qplus, Qopp, Qmult, inject_Z in *; cbn [Qnum Qden] in *.
  rewrite ?Pos2Z.inj_mul, ?Z2Pos.id in * by lia.
  split; nia.
Qed.

(** A number with no more digits than are kept is not moved. *)
Lemma py_round_exact z n :
  (py_round (z # Z.to_pos (10 ^ Z.of_nat n)) n == z # Z.to_pos (10 ^ Z.of_nat n))%Q.
Proof.
  unfold py_round, round_half_even.
  assert (Hp : (0 < 10 ^ Z.of_nat n)%Z) by (apply Z.pow_pos_nonneg; lia).
  unfold Qmult, inject_Z. cbn [Qnum Qden].
  rewrite Pos.mul_1_r, Z2Pos.id, round_div_exact by done. reflexivity.
Qed.

#[export] Hint Resolve Qnat_nonneg Qnat_pos Qnat_le sumQ_nonneg : py.
#[export] Hint Rewrite @truthy_length : pyrw.
