(* ===== verification/PyDict.v ===== *)
(** * Python's built-in [dict]

    A [dict] keeps its keys in insertion order and holds each key once.
    The model is an association list in that order; [dict_wf] is the
    uniqueness of keys.  Every operation the program uses is here:
    [d.get(k)], [d.get(k, default)], [d[k] = v], [d.pop(k, None)],
    [d.setdefault(k, v)], [k in d], iteration over keys and items.

    The abstract view of a dict is the finite map [to_gmap d]; the
    lemmas [to_gmap_get], [to_gmap_set] and [to_gmap_pop] show that the
    list operations implement lookup, insert and delete of that map.
    Two well-formed dicts with the same lookups are permutations of one
    another ([dict_ext_Permutation]), which is what makes a scorer
    independent of key order. *)

From S2P Require Import Prelude.

Abbreviation dict V := (list (string * V)).

Section dict_ops.
Context {V : Type}.
Implicit Types (d : dict V) (k : string) (v : V).

(** [d.get(k)]: [None] when the key is absent. *)
Fixpoint dict_get k d : option V :=
  match d with
  | [] => None
  | (k', v) :: d' => if decide (k = k') then Some v else dict_get k d'
  end.

(** [d.get(k, dflt)]. *)
Definition dict_get_default k (dflt : V) d : V := default dflt (dict_get k d).

(** [d[k] = v]: an existing key keeps its position, a new key goes last. *)
Fixpoint dict_set k v d : dict V :=
  match d with
  | [] => [(k, v)]
  | (k', v') :: d' =>
      if decide (k = k') then (k, v) :: d' else (k', v') :: dict_set k v d'
  end.

(** [d.pop(k, None)], result discarded. *)
Definition dict_pop k d : dict V := filter (λ kv, kv.1 ≠ k) d.

(** [d.keys()] / iteration over [d], in insertion order. *)
Definition dict_keys d : list string := d.*1.

(** [d.setdefault(k, v)] as the dict afterwards: an absent key is added
    with [v], a present key is left alone. *)
Definition dict_setdefault k v d : dict V :=
  match dict_get k d with
  | Some _ => d
  | None => dict_set k v d
  end.

(** [d[k]]: raises [KeyError] when the key is absent. *)
Definition dict_index k d : result V :=
  match dict_get k d with
  | Some v => Ok v
  | None => Raise (KeyError k)
  end.

(** [k in d]. *)
Definition dict_contains k d : bool := bool_decide (k ∈ dict_keys d).

(** Keys are unique. *)
Definition dict_wf d : Prop := NoDup (dict_keys d).

(** The finite map a dict denotes. *)
Definition to_gmap d : gmap string V := list_to_map d.

(** Same lookups: equality of dicts up to key order. *)
Definition dict_same d1 d2 : Prop := ∀ k, dict_get k d1 = dict_get k d2.

#[export] Instance dict_wf_dec d : Decision (dict_wf d).
Proof. unfold dict_wf. apply _. Defined.

(** ** Lookup after update *)

Lemma dict_get_set_eq k v d : dict_get k (dict_set k v d) = Some v.
Proof.
  induction d as [|[k' v'] d IH]; simpl; repeat case_decide; simpl;
    repeat case_decide; congruence.
Qed.

Lemma dict_get_set_ne k k' v d :
  k ≠ k' → dict_get k' (dict_set k v d) = dict_get k' d.
Proof.
  intros Hne. induction d as [|[k0 v0] d IH]; simpl; repeat case_decide;
    simpl; repeat case_decide; congruence.
Qed.

Lemma dict_get_set k k' v d :
  dict_get k' (dict_set k v d) = if decide (k = k') then Some v else dict_get k' d.
Proof.
  case_decide; [subst; apply dict_get_set_eq | by apply dict_get_set_ne].
Qed.

Lemma dict_get_pop_eq k d : dict_get k (dict_pop k d) = None.
Proof.
  unfold dict_pop. induction d as [|[k' v'] d IH]; [done|].
  rewrite filter_cons. simpl. repeat case_decide; simpl;
    repeat case_decide; congruence.
Qed.

Lemma dict_get_pop_ne k k' d :
  k ≠ k' → dict_get k' (dict_pop k d) = dict_get k' d.
Proof.
  intros Hne. unfold dict_pop. induction d as [|[k0 v0] d IH]; [done|].
  rewrite filter_cons. simpl. repeat case_decide; simpl;
    repeat case_decide; congruence.
Qed.

(** ** Indexing *)

Lemma dict_index_Ok k v d : dict_index k d = Ok v ↔ dict_get k d = Some v.
Proof. unfold dict_index. destruct (dict_get k d); split; congruence. Qed.

Lemma dict_index_Raise k d e :
  dict_index k d = Raise e ↔ dict_get k d = None ∧ e = KeyError k.
Proof.
  unfold dict_index. destruct (dict_get k d); split;
    [done | by intros [] | by intros [= <-] | by intros [_ ->]].
Qed.

(** ** Membership *)

Lemma dict_get_None k d : dict_get k d = None ↔ k ∉ dict_keys d.
Proof.
  unfold dict_keys. induction d as [|[k' v'] d IH]; simpl.
  - split; [intros _; apply not_elem_of_nil | done].
  - rewrite not_elem_of_cons. case_decide; [|tauto].
    split; [done | tauto].
Qed.

Lemma dict_get_is_Some k d : is_Some (dict_get k d) ↔ k ∈ dict_keys d.
Proof.
  rewrite <- not_eq_None_Some, dict_get_None.
  split; [apply dec_stable | tauto].
Qed.

Lemma dict_index_key k d : k ∈ dict_keys d → ∃ v, dict_index k d = Ok v.
Proof.
  intros [v Hv]%dict_get_is_Some. exists v. by apply dict_index_Ok.
Qed.

Lemma dict_get_Some_elem k v d : dict_get k d = Some v → (k, v) ∈ d.
Proof.
  induction d as [|[k' v'] d IH]; simpl; [done|].
  case_decide; [intros [= ->]; subst; left | right; auto].
Qed.

Lemma dict_elem_get k v d : dict_wf d → (k, v) ∈ d → dict_get k d = Some v.
Proof.
  unfold dict_wf, dict_keys. induction d as [|[k' v'] d IH]; simpl.
  - by intros _ ?%elem_of_nil.
  - rewrite NoDup_cons. intros [Hk' Hd] [[= -> ->]|Hin]%elem_of_cons.
    + by rewrite decide_True.
    + rewrite decide_False; [auto|]. intros ->. apply Hk'.
      by apply (list_elem_of_fmap_2 fst) in Hin.
Qed.

Lemma dict_contains_get k d : dict_contains k d = bool_decide (is_Some (dict_get k d)).
Proof. unfold dict_contains. apply bool_decide_ext. by rewrite dict_get_is_Some. Qed.

(** ** Keys and well-formedness are preserved *)

Lemma dict_keys_set k v d :
  dict_keys (dict_set k v d) =
  if decide (k ∈ dict_keys d) then dict_keys d else dict_keys d ++ [k].
Proof.
  unfold dict_keys. induction d as [|[k' v'] d IH]; csimpl; [done|].
  destruct (decide (k = k')) as [->|Hne]; csimpl.
  - rewrite decide_True; [done | left].
  - rewrite IH. destruct (decide (k ∈ d.*1)).
    + rewrite decide_True; [done | by right].
    + rewrite decide_False; [done | by rewrite not_elem_of_cons].
Qed.

Lemma dict_keys_pop k d : dict_keys (dict_pop k d) = filter (λ k', k' ≠ k) (dict_keys d).
Proof.
  unfold dict_keys, dict_pop. induction d as [|[k' v'] d IH]; [done|].
  rewrite fmap_cons, !filter_cons. simpl. case_decide; csimpl; by rewrite <- IH.
Qed.

Lemma dict_set_Forall (P : string * V → Prop) k v d :
  P (k, v) → Forall P d → Forall P (dict_set k v d).
Proof.
  intros Hv. induction 1 as [|[k' v'] d Hx Hd IH]; simpl; [by repeat constructor|].
  case_decide; by constructor.
Qed.

Lemma dict_get_default_Forall (P : V → Prop) k dflt d :
  P dflt → Forall (λ kv, P kv.2) d → P (dict_get_default k dflt d).
Proof.
  intros Hd Hall. unfold dict_get_default.
  destruct (dict_get k d) as [v|] eqn:E; simpl; [|done].
  apply dict_get_Some_elem in E. by apply (proj1 (Forall_forall _ _) Hall (k, v)).
Qed.

Lemma dict_get_default_set k k' v dflt d :
  dict_get_default k' dflt (dict_set k v d)
  = if decide (k = k') then v else dict_get_default k' dflt d.
Proof. unfold dict_get_default. rewrite dict_get_set. by case_decide. Qed.

Lemma dict_pop_Forall (P : string * V → Prop) k d :
  Forall P d → Forall P (dict_pop k d).
Proof.
  rewrite !Forall_forall. intros H x [_ ?]%list_elem_of_filter. auto.
Qed.

Lemma dict_wf_nil : dict_wf ([] : dict V).
Proof. constructor. Qed.

Lemma dict_wf_set k v d : dict_wf d → dict_wf (dict_set k v d).
Proof.
  unfold dict_wf. rewrite dict_keys_set. case_decide; [done|].
  intros Hd. apply NoDup_app. split_and!; [done | | apply NoDup_singleton].
  intros x Hx ->%list_elem_of_singleton. done.
Qed.

Lemma dict_wf_pop k d : dict_wf d → dict_wf (dict_pop k d).
Proof. unfold dict_wf. rewrite dict_keys_pop. apply NoDup_filter. Qed.

Lemma dict_wf_setdefault k v d : dict_wf d → dict_wf (dict_setdefault k v d).
Proof. unfold dict_setdefault. case_match; [done | apply dict_wf_set]. Qed.

Lemma dict_wf_cons k v d :
  dict_wf ((k, v) :: d) ↔ (k ∉ dict_keys d) ∧ dict_wf d.
Proof. unfold dict_wf, dict_keys. simpl. apply NoDup_cons. Qed.

Lemma dict_get_setdefault k k' v d :
  dict_get k' (dict_setdefault k v d) =
  match dict_get k' d with
  | Some w => Some w
  | None => if decide (k = k') then Some v else None
  end.
Proof.
  unfold dict_setdefault. destruct (dict_get k d) as [w|] eqn:Hk.
  - destruct (dict_get k' d) eqn:Hk'; [done|].
    case_decide; [congruence | done].
  - rewrite dict_get_set. case_decide; subst; [by rewrite Hk|].
    by destruct (dict_get k' d).
Qed.

(** Writing the value a key already has changes nothing. *)
Lemma dict_set_same k v d : dict_get k d = Some v → dict_set k v d = d.
Proof.
  induction d as [|[k' v'] d IH]; simpl; [done|].
  case_decide; [intros [= ->]; by subst | intros; f_equal; auto].
Qed.

Lemma dict_set_set k v v' d : dict_set k v' (dict_set k v d) = dict_set k v' d.
Proof.
  induction d as [|[k' w] d IH]; simpl; repeat (case_decide; simpl);
    congruence.
Qed.

Lemma dict_pop_set k v d : dict_pop k (dict_set k v d) = dict_pop k d.
Proof.
  unfold dict_pop. induction d as [|[k' v'] d IH]; simpl.
  - by rewrite filter_cons_False by (simpl; auto).
  - case_decide; subst.
    + by rewrite !filter_cons_False by (simpl; auto).
    + by rewrite !filter_cons_True, IH by (simpl; auto).
Qed.

Lemma dict_pop_set_ne k k' v d :
  k ≠ k' → dict_pop k (dict_set k' v d) = dict_set k' v (dict_pop k d).
Proof.
  intros Hne. unfold dict_pop. induction d as [|[k2 v2] d IH]; simpl.
  - by rewrite filter_cons_True by (simpl; auto).
  - case_decide; subst.
    + rewrite !filter_cons_True by (simpl; auto). simpl. by rewrite decide_True.
    + destruct (decide (k2 = k)) as [->|].
      * by rewrite !filter_cons_False by (simpl; auto).
      * rewrite !filter_cons_True by (simpl; auto). simpl.
        by rewrite decide_False, IH.
Qed.

Lemma dict_pop_absent k d : k ∉ dict_keys d → dict_pop k d = d.
Proof.
  unfold dict_pop, dict_keys. induction d as [|[k' v'] d IH]; [done|].
  simpl. rewrite not_elem_of_cons. intros [Hne Hd].
  rewrite filter_cons_True by (simpl; congruence). f_equal; auto.
Qed.

Lemma dict_length_set k v d :
  length (dict_set k v d) = if decide (k ∈ dict_keys d) then length d else S (length d).
Proof.
  pose proof (f_equal length (dict_keys_set k v d)) as H.
  unfold dict_keys in *. rewrite length_fmap in H. rewrite H.
  case_decide; rewrite ?length_app, length_fmap; simpl; lia.
Qed.

(** ** The dict as a finite map *)

Lemma to_gmap_get k d : to_gmap d !! k = dict_get k d.
Proof.
  unfold to_gmap. induction d as [|[k' v'] d IH]; simpl; [done|].
  case_decide; subst; [by rewrite lookup_insert_eq|].
  by rewrite lookup_insert_ne.
Qed.

Lemma to_gmap_set k v d : to_gmap (dict_set k v d) = <[k:=v]> (to_gmap d).
Proof.
  apply map_eq; intros k'. rewrite to_gmap_get, dict_get_set, lookup_insert.
  case_decide; [done | by rewrite to_gmap_get].
Qed.

Lemma to_gmap_pop k d : to_gmap (dict_pop k d) = delete k (to_gmap d).
Proof.
  apply map_eq; intros k'. rewrite to_gmap_get, lookup_delete.
  destruct (decide (k = k')) as [->|Hne].
  - apply dict_get_pop_eq.
  - by rewrite dict_get_pop_ne, to_gmap_get.
Qed.

Lemma to_gmap_dom d : dom (to_gmap d) = list_to_set (dict_keys d).
Proof.
  apply set_eq; intros k.
  by rewrite elem_of_dom, to_gmap_get, dict_get_is_Some, elem_of_list_to_set.
Qed.

Lemma dict_same_to_gmap d1 d2 : dict_same d1 d2 ↔ to_gmap d1 = to_gmap d2.
Proof.
  split.
  - intros H. apply map_eq; intros k. by rewrite !to_gmap_get.
  - intros H k. by rewrite <- !to_gmap_get, H.
Qed.

(** Well-formed dicts with the same lookups list the same items, in
    possibly different orders. *)
Lemma dict_ext_Permutation d1 d2 :
  dict_wf d1 → dict_wf d2 → dict_same d1 d2 → d1 ≡ₚ d2.
Proof.
  intros H1 H2 Hsame. apply NoDup_Permutation.
  - by apply (NoDup_fmap_1 fst).
  - by apply (NoDup_fmap_1 fst).
  - intros [k v]. split; intros Hin; apply dict_get_Some_elem.
    + rewrite <- Hsame. by apply dict_elem_get.
    + rewrite Hsame. by apply dict_elem_get.
Qed.

Lemma dict_Permutation_same d1 d2 :
  dict_wf d1 → d1 ≡ₚ d2 → dict_same d1 d2.
Proof.
  intros H1 Hp k. assert (dict_wf d2) as H2.
  { unfold dict_wf, dict_keys in *. by rewrite <- Hp. }
  destruct (dict_get k d1) as [v|] eqn:E1.
  - symmetry. apply dict_elem_get; [done|]. rewrite <- Hp.
    by apply dict_get_Some_elem.
  - symmetry. apply dict_get_None. apply dict_get_None in E1.
    unfold dict_keys in *. by rewrite <- Hp.
Qed.

(** Assigning to a key the dict lacks appends the item. *)
Lemma dict_set_fresh k v d : k ∉ dict_keys d → dict_set k v d = d ++ [(k, v)].
Proof.
  unfold dict_keys. induction d as [|[k' v'] d IH]; csimpl; [done|].
  rewrite not_elem_of_cons. intros [Hne Hk].
  rewrite decide_False by done. by rewrite IH.
Qed.

(** Assigning the items of a list with fresh, distinct keys one by one
    appends the list. *)
Lemma foldl_dict_set_fresh (l acc : dict V) :
  dict_wf (acc ++ l) → foldl (λ a kv, dict_set kv.1 kv.2 a) acc l = acc ++ l.
Proof.
  revert acc. induction l as [|[k v] l IH]; intros acc Hwf; simpl.
  { by rewrite app_nil_r. }
  assert (k ∉ dict_keys acc) as Hk.
  { unfold dict_wf, dict_keys in Hwf. rewrite fmap_app in Hwf.
    apply NoDup_app in Hwf as (_ & Hdis & _). intros Hin.
    apply (Hdis k Hin). left. }
  rewrite dict_set_fresh by done. rewrite IH; rewrite <- app_assoc; done.
Qed.

(** A loop over the keys of a dict that indexes the dict at each key
    never raises [KeyError]; on a well-formed dict it is the loop over
    the items. *)
Lemma foldM_keys_index {B} (f : B → string → V → B) d (b : B) :
  dict_wf d →
  foldM (λ acc k, v ← dict_index k d; Ok (f acc k v)) b (dict_keys d)
  = Ok (foldl (λ acc kv, f acc kv.1 kv.2) b d).
Proof.
  intros Hwf. unfold dict_keys.
  assert (∀ l acc, l ⊆ d →
    foldM (λ acc k, v ← dict_index k d; Ok (f acc k v)) acc (l.*1)
    = Ok (foldl (λ acc kv, f acc kv.1 kv.2) acc l)) as Hgen; [|by apply Hgen].
  induction l as [|[k v] l IH]; intros acc Hsub; csimpl; [done|].
  rewrite (proj2 (dict_index_Ok k v d)); simpl.
  - apply IH. intros x Hx. apply Hsub. by right.
  - apply dict_elem_get; [done|]. apply Hsub. left.
Qed.

(** A key of a well-formed dict can be moved to the front. *)
Lemma dict_pop_Permutation k v d :
  dict_wf d → dict_get k d = Some v → d ≡ₚ (k, v) :: dict_pop k d.
Proof.
  induction d as [|[k' v'] d IH]; simpl; [done|].
  rewrite dict_wf_cons. intros [Hk' Hwf]. unfold dict_pop.
  rewrite filter_cons. simpl. fold (dict_pop k d).
  case_decide as Hk; subst.
  - intros [= ->]. rewrite decide_False by (by intros []).
    by rewrite (dict_pop_absent k' d).
  - intros Hget. rewrite decide_True by done.
    by rewrite (IH Hwf Hget) at 1; rewrite Permutation_swap.
Qed.

(** A dict whose every lookup fails is empty. *)
Lemma dict_get_all_None d : (∀ k, dict_get k d = None) → d = [].
Proof.
  destruct d as [|[k v] d]; [done|]. intros H. specialize (H k).
  simpl in H. by rewrite decide_True in H.
Qed.

End dict_ops.

(** A dict comprehension over the items of a well-formed dict is a map
    over its items. *)
Lemma dict_comprehension {V W} (h : string → V → W) (d : dict V) :
  dict_wf d →
  foldl (λ acc kv, dict_set kv.1 (h kv.1 kv.2) acc) [] d
  = (λ kv, (kv.1, h kv.1 kv.2)) <$> d.
Proof.
  intros Hwf.
  pose proof (foldl_dict_set_fresh ((λ kv, (kv.1, h kv.1 kv.2)) <$> d) [])
    as Happ. simpl in Happ.
  rewrite <- Happ; [by rewrite foldl_fmap|].
  unfold dict_wf, dict_keys in *. by rewrite <- list_fmap_compose.
Qed.

(** A sum over the items of a dict depends only on the lookups: on
    neither the order of the keys nor, when the summand respects a
    relation on values, the representatives of the values. *)
Lemma sumQ_dict_related {V} (R : relation V) (f : string * V → Q) d1 d2 :
  (∀ k v v', R v v' → (f (k, v) == f (k, v'))%Q) →
  dict_wf d1 → dict_wf d2 →
  (∀ k, option_Forall2 R (dict_get k d1) (dict_get k d2)) →
  (sumQ (f <$> d1) == sumQ (f <$> d2))%Q.
Proof.
  intros Hf. revert d2. induction d1 as [|[k v] d1 IH]; intros d2 Hwf1 Hwf2 Hsame.
  - rewrite (dict_get_all_None d2); [done|].
    intros k. specialize (Hsame k). by inversion Hsame.
  - apply dict_wf_cons in Hwf1 as [Hk Hwf1].
    pose proof (Hsame k) as Hkk. simpl in Hkk. rewrite decide_True in Hkk by done.
    inversion Hkk as [v0 v' Hvv' Heq Hget|]; subst. symmetry in Hget.
    rewrite (sumQ_Permutation (f <$> d2) (f <$> (k, v') :: dict_pop k d2))
      by (by rewrite <- dict_pop_Permutation).
    csimpl. rewrite (Hf k v v' Hvv'), (IH (dict_pop k d2)); [done..| |].
    + by apply dict_wf_pop.
    + intros k'. specialize (Hsame k'). simpl in Hsame.
      destruct (decide (k' = k)) as [->|Hne].
      * rewrite dict_get_pop_eq. apply dict_get_None in Hk. rewrite Hk. constructor.
      * by rewrite dict_get_pop_ne.
Qed.

#[export] Instance dict_same_equivalence {V} : Equivalence (@dict_same V).
Proof.
  split; [by intros ?? | by intros ??? k | intros ???? Hyz k].
  unfold dict_same in *. congruence.
Qed.

#[export] Instance dict_get_proper {V} k : Proper (dict_same ==> (=)) (@dict_get V k).
Proof. intros ?? H. apply H. Qed.

#[export] Instance dict_get_default_proper {V} k dflt :
  Proper (dict_same ==> (=)) (@dict_get_default V k dflt).
Proof. intros ?? H. unfold dict_get_default. by rewrite (H k). Qed.

#[export] Instance dict_set_proper {V} k v :
  Proper (dict_same ==> dict_same) (@dict_set V k v).
Proof. intros ?? H k'. rewrite !dict_get_set. case_decide; [done | apply H]. Qed.

#[export] Instance dict_pop_proper {V} k :
  Proper (dict_same ==> dict_same) (@dict_pop V k).
Proof.
  intros ?? H k'. destruct (decide (k = k')) as [->|?].
  - by rewrite !dict_get_pop_eq.
  - rewrite !dict_get_pop_ne by done. apply H.
Qed.

(** ** A loop that fills a dict field by field

    Each turn reads the current value under a key, asks [field] for the
    new one and assigns it.  When [field] gives back what it is offered
    once it has accepted it, the loop leaves under every key of the list
    what [field] makes of the value the key had at the start, and leaves
    the other keys alone. *)

Section rows.
Context {S V X : Type} (get : S → dict V) (set : string → V → S → S).
Context (key : X → string) (field : X → option V → result V).
Context (row : S → X → result S).
Context (get_set : ∀ k v s, get (set k v s) = dict_set k v (get s)).
Context (row_eq : ∀ s x,
  row s x = (v ← field x (dict_get (key x) (get s)); Ok (set (key x) v s))).
Context (field_idemp : ∀ x o v, field x o = Ok v → field x (Some v) = Ok v).

Lemma foldM_rows_other l s s' k :
  foldM row s l = Ok s' → k ∉ key <$> l → dict_get k (get s') = dict_get k (get s).
Proof.
  revert s. induction l as [|x l IH]; intros s; csimpl; [by intros [= <-]|].
  rewrite row_eq. intros (s1 & (v & Hv & [= <-])%bind_Ok_inv & Hs')%bind_Ok_inv.
  intros [Hk Hl]%not_elem_of_cons.
  by rewrite (IH _ Hs' Hl), get_set, dict_get_set_ne.
Qed.

Lemma foldM_rows_get l s s' x :
  (∀ y z, y ∈ l → z ∈ l → key y = key z → y = z) →
  foldM row s l = Ok s' → x ∈ l →
  ∃ v, field x (dict_get (key x) (get s)) = Ok v
     ∧ dict_get (key x) (get s') = Some v.
Proof.
  revert s. induction l as [|x0 l IH]; intros s Huniq; csimpl;
    [by intros _ ?%elem_of_nil|].
  rewrite row_eq. intros (s1 & (v0 & Hv0 & [= <-])%bind_Ok_inv & Hs')%bind_Ok_inv.
  assert (Hl : ∀ y z, y ∈ l → z ∈ l → key y = key z → y = z)
    by (intros y z ??; apply Huniq; by right).
  intros Hx. assert (x ∈ l ∨ (x = x0 ∧ key x0 ∉ key <$> l)) as [Hin|[-> Hnot]].
  { apply elem_of_cons in Hx as [->|?]; [|by left].
    destruct (decide (key x0 ∈ key <$> l)) as [(y & Hy & ?)%list_elem_of_fmap|?];
      [left|by right].
    by rewrite (Huniq x0 y) by (done || by left || by right). }
  - destruct (IH _ Hl Hs' Hin) as (v & Hv & Hget). exists v. split; [|done].
    rewrite get_set, dict_get_set in Hv. case_decide as Hk; [|done].
    assert (x = x0) as -> by (apply Huniq; [by right|by left|done]).
    rewrite (field_idemp _ _ _ Hv0) in Hv. by injection Hv as <-.
  - exists v0. split; [done|].
    by rewrite (foldM_rows_other _ _ _ _ Hs' Hnot), get_set, dict_get_set_eq.
Qed.

End rows.

(** ** A loop that builds a dict item by item

    Each turn computes a value from an item of a list and assigns it
    under the key of the item.  With keys that are new and different
    from one another the loop appends one entry per item, in order. *)

Section build.
Context {S V W : Type} (get : S → dict W) (set : string → W → S → S).
Context (g : string * V → result W) (row : S → string * V → result S).
Context (get_set : ∀ k w s, get (set k w s) = dict_set k w (get s)).
Context (row_eq : ∀ s kv, row s kv = (w ← g kv; Ok (set kv.1 w s))).

(** The entries built from the items. *)
Definition built (l' : dict W) (l : dict V) : Prop :=
  Forall2 (λ kv' kv, kv'.1 = kv.1 ∧ g kv = Ok kv'.2) l' l.

Lemma foldM_build l s s' :
  NoDup (dict_keys (get s) ++ l.*1) → foldM row s l = Ok s' →
  ∃ l', get s' = get s ++ l' ∧ built l' l.
Proof.
  revert s. induction l as [|[k v] l IH]; intros s Hnd; simpl.
  { intros [= <-]. exists []. split; [by rewrite app_nil_r|constructor]. }
  rewrite row_eq. intros (s1 & (w & Hw & [= <-])%bind_Ok_inv & Hs')%bind_Ok_inv.
  simpl in *.
  assert (k ∉ dict_keys (get s)) as Hfresh.
  { apply NoDup_app in Hnd as (_ & Hdisj & _). intros Hin.
    apply (Hdisj k Hin). left. }
  destruct (IH (set k w s)) as (l' & Hl' & Hb); [|done|].
  { rewrite get_set, dict_set_fresh by done. unfold dict_keys in *.
    by rewrite fmap_app, <- app_assoc. }
  exists ((k, w) :: l'). split; [|by constructor].
  by rewrite Hl', get_set, dict_set_fresh, <- app_assoc.
Qed.

Lemma built_keys l' l : built l' l → dict_keys l' = dict_keys l.
Proof.
  unfold dict_keys. induction 1 as [|[k' w] [k v] l' l [Hk _] _ IH]; csimpl; [done|].
  simpl in Hk. by rewrite Hk, IH.
Qed.

End build.

Lemma built_Forall {V W} (g : string * V → result W) (P : string * W → Prop) l' l :
  built g l' l → (∀ kv w, kv ∈ l → g kv = Ok w → P (kv.1, w)) → Forall P l'.
Proof.
  induction 1 as [|[k' w'] [k v] l' l [Hk Hg] _ IH]; intros HP; constructor.
  - simpl in *. subst. apply (HP (k, v)); [left|done].
  - apply IH. intros kv w Hin. apply HP. by right.
Qed.

Lemma built_total {V W} (g : string * V → result W) l' l kv :
  built g l' l → kv ∈ l → ∃ w, g kv = Ok w.
Proof.
  induction 1 as [|[k' w'] [k v] l' l [Hk Hg] _ IH]; [by intros ?%elem_of_nil|].
  intros [->|Hin]%elem_of_cons; eauto.
Qed.

(** Under a key of the list, what is built holds the value of its item. *)
Lemma built_get {V W} (g : string * V → result W) l' l k v w :
  built g l' l → dict_wf l → (k, v) ∈ l → g (k, v) = Ok w → dict_get k l' = Some w.
Proof.
  induction 1 as [|[k' w'] [k0 v0] l' l [Hk Hg] _ IH]; [by intros _ ?%elem_of_nil|].
  simpl in *. subst k'. intros [Hnot Hwf]%NoDup_cons [[= -> ->]|Hin]%elem_of_cons Hw.
  - rewrite decide_True by done. congruence.
  - rewrite decide_False; [by apply IH|]. intros ->. apply Hnot.
    by apply (list_elem_of_fmap_2 fst) in Hin.
Qed.

(** Two loops whose turns agree build the same dict. *)
Lemma built_agree {V W} (g g' : string * V → result W) l1 l2 l :
  built g l1 l → built g' l2 l →
  (∀ kv w, kv ∈ l → g kv = Ok w → g' kv = Ok w) → l2 = l1.
Proof.
  intros H1. revert l2. induction H1 as [|[k1 w1] [k v] l1 l [Hk Hg] _ IH];
    intros l2 H2 Hgg; inversion H2 as [|[k2 w2] ? l2' ? [Hk2 Hg2] H2']; subst; [done|].
  simpl in *. rewrite (Hgg (k, v) w1) in Hg2 by (done || left).
  injection Hg2 as <-. subst. f_equal. apply IH; [done|].
  intros kv w Hin. apply Hgg. by right.
Qed.

(** Built from itself, a dict is what is built. *)
Lemma built_same {W} (g : string * W → result W) (l' l : dict W) :
  built g l' l → Forall (λ kv, g kv = Ok kv.2) l → l' = l.
Proof.
  induction 1 as [|[k' w'] [k w] l' l [Hk Hg] _ IH]; [done|].
  intros [Hw Hl]%Forall_cons. simpl in *. rewrite Hw in Hg.
  injection Hg as <-. subst. f_equal. auto.
Qed.

#[export] Hint Resolve dict_wf_nil dict_wf_set dict_wf_pop dict_wf_setdefault : py.
#[export] Hint Rewrite @dict_get_set_eq @dict_get_pop_eq : pyrw.
#[export] Hint Rewrite @dict_get_set_ne @dict_get_pop_ne using done : pyrw.
