(* ===== verification/PySort.v ===== *)
(** * Python's built-in [sorted]

    [sorted(l, key=f, reverse=r)] is a stable sort: the result is a
    permutation of [l], ordered by key (descending when [r] is true), and
    elements whose keys compare equal keep the order they had in [l].
    These three facts determine the result ([stable_sort_unique]), so any
    stable algorithm returns the list [sort_stable] computes; the model
    uses insertion into the sorted tail.

    [R x y] reads "x may stand before y"; it is a total preorder on the
    elements (for a descending sort by key, [key y <= key x]). *)

From S2P Require Import Prelude.

Section stable_sort.
Context {A : Type} (R : relation A) `{!∀ x y, Decision (R x y)}.
Implicit Types (x y : A) (l : list A).

(** Insert [x], which stood before every element of [l], at the first
    position it may take. *)
Fixpoint insert_stable x l : list A :=
  match l with
  | [] => [x]
  | y :: l' => if decide (R x y) then x :: y :: l' else y :: insert_stable x l'
  end.

Definition sort_stable l : list A := foldr insert_stable [] l.

(** [x] and [y] compare equal. *)
Definition tied x y : Prop := R x y ∧ R y x.

(** The elements of [l] tied with [x], in the order [l] has them. *)
Definition ties x l : list A := filter (tied x) l.

(** What a stable sort of [l] returns. *)
Record stable_sort_of l (l' : list A) : Prop := {
  sso_perm : l' ≡ₚ l;
  sso_sorted : StronglySorted R l';
  sso_stable : ∀ x, ties x l' = ties x l;
}.

(** ** Insertion *)

Lemma insert_stable_Permutation x l : insert_stable x l ≡ₚ x :: l.
Proof.
  induction l as [|y l IH]; simpl; [done|].
  case_decide; [done|]. by rewrite IH, Permutation_swap.
Qed.

Lemma insert_stable_length x l : length (insert_stable x l) = S (length l).
Proof. by rewrite insert_stable_Permutation. Qed.

Lemma insert_stable_elem x y l : y ∈ insert_stable x l ↔ y = x ∨ y ∈ l.
Proof. by rewrite insert_stable_Permutation, elem_of_cons. Qed.

Lemma insert_stable_sorted `{!Transitive R, !Total R} x l :
  StronglySorted R l → StronglySorted R (insert_stable x l).
Proof.
  induction 1 as [|y l Hl IH Hy]; simpl; [by repeat constructor|].
  case_decide as Hxy.
  - constructor; [by constructor|]. constructor; [done|].
    eapply Forall_impl; [done|]. intros z Hz. by etrans.
  - constructor; [done|]. apply Forall_forall. intros z.
    rewrite insert_stable_elem. intros [->|Hz].
    + by destruct (total R x y).
    + by eapply Forall_forall in Hy.
Qed.

(** Inserting in front of a list that [x] may precede is [cons]. *)
Lemma insert_stable_head x l :
  Forall (R x) l → insert_stable x l = x :: l.
Proof. destruct 1; simpl; [done | by rewrite decide_True]. Qed.

(** Insertion puts [x] before every element tied with it. *)
Lemma ties_insert_stable `{!Transitive R} z x l :
  ties z (insert_stable x l) = ties z (x :: l).
Proof.
  unfold ties. induction l as [|y l IH]; simpl; [done|].
  case_decide as Hxy; [done|].
  rewrite (filter_cons _ y), IH, !filter_cons.
  destruct (decide (tied z y)) as [[Hzy Hyz]|]; [|done].
  destruct (decide (tied z x)) as [[Hzx Hxz]|]; [|done].
  destruct Hxy. by trans z.
Qed.

(** ** The sort *)

Lemma sort_stable_Permutation l : sort_stable l ≡ₚ l.
Proof.
  induction l as [|x l IH]; simpl; [done|].
  by rewrite insert_stable_Permutation, IH.
Qed.

Lemma sort_stable_length l : length (sort_stable l) = length l.
Proof. by rewrite sort_stable_Permutation. Qed.

Lemma sort_stable_elem x l : x ∈ sort_stable l ↔ x ∈ l.
Proof. by rewrite sort_stable_Permutation. Qed.

Lemma sort_stable_sorted `{!Transitive R, !Total R} l :
  StronglySorted R (sort_stable l).
Proof.
  induction l; simpl; [constructor | by apply insert_stable_sorted].
Qed.

Lemma sort_stable_ties `{!Transitive R} x l :
  ties x (sort_stable l) = ties x l.
Proof.
  induction l as [|y l IH]; simpl; [done|].
  rewrite ties_insert_stable. unfold ties in *. by rewrite !filter_cons, IH.
Qed.

Lemma sort_stable_spec `{!Transitive R, !Total R} l :
  stable_sort_of l (sort_stable l).
Proof.
  split; [apply sort_stable_Permutation | apply sort_stable_sorted |].
  intros x. apply sort_stable_ties.
Qed.

(** A sorted list is left as it is. *)
Lemma sort_stable_sorted_id l : StronglySorted R l → sort_stable l = l.
Proof.
  induction 1 as [|x l Hl IH Hx]; simpl; [done|].
  rewrite IH. by apply insert_stable_head.
Qed.

Lemma sort_stable_idemp `{!Transitive R, !Total R} l :
  sort_stable (sort_stable l) = sort_stable l.
Proof. apply sort_stable_sorted_id, sort_stable_sorted. Qed.

(** ** Uniqueness of the stable sort *)

(** Two sorted lists with the same elements and the same order among
    tied elements are equal. *)
Lemma stable_sorted_eq `{!Total R} l1 l2 :
  StronglySorted R l1 → StronglySorted R l2 → l1 ≡ₚ l2 →
  (∀ x, ties x l1 = ties x l2) → l1 = l2.
Proof.
  assert (∀ x, R x x) as Hrefl by (intros x; by destruct (total R x x)).
  intros Hs1. revert l2.
  induction Hs1 as [|x1 l1 Hs1 IH Hx1]; intros l2 Hs2 Hp Ht.
  { by apply Permutation_nil_l in Hp. }
  destruct Hs2 as [|x2 l2 Hs2 Hx2].
  { by apply Permutation_nil_r in Hp. }
  assert (R x1 x2) as H12.
  { assert (x2 ∈ x1 :: l1) as [->|Hin]%elem_of_cons by (rewrite Hp; left);
      [done | by eapply Forall_forall in Hx1]. }
  assert (R x2 x1) as H21.
  { assert (x1 ∈ x2 :: l2) as [->|Hin]%elem_of_cons by (rewrite <- Hp; left);
      [done | by eapply Forall_forall in Hx2]. }
  assert (x1 = x2) as <-.
  { specialize (Ht x1). unfold ties, tied in Ht.
    rewrite !filter_cons, !decide_True in Ht by done. congruence. }
  f_equal. apply IH; [done | by apply Permutation_cons_inv in Hp |].
  intros z. specialize (Ht z). unfold ties in *.
  rewrite !filter_cons in Ht. case_decide; congruence.
Qed.

Theorem stable_sort_unique `{!Transitive R, !Total R} l l' :
  stable_sort_of l l' → l' = sort_stable l.
Proof.
  intros [Hp Hs Ht]. apply stable_sorted_eq; [done | apply sort_stable_sorted | |].
  - by rewrite sort_stable_Permutation.
  - intros x. by rewrite sort_stable_ties.
Qed.

(** ** Prefixes of a sorted list *)

(** Every element of the first [n] may precede every element left out. *)
Lemma sorted_take_drop n l x y :
  StronglySorted R l → x ∈ take n l → y ∈ drop n l → R x y.
Proof.
  intros Hs. rewrite <- (take_drop n l) in Hs.
  by apply StronglySorted_app_1_elem_of.
Qed.

End stable_sort.

(** ** [sorted] with a rational key *)

(** The order [sorted(.., key=key, reverse=reverse)] sorts by. *)
Definition key_order {A} (key : A → Q) (reverse : bool) : relation A :=
  λ x y, if reverse then (key y <= key x)%Q else (key x <= key y)%Q.

#[export] Instance key_order_dec {A} (key : A → Q) reverse x y :
  Decision (key_order key reverse x y).
Proof. unfold key_order. destruct reverse; apply _. Defined.

Definition sorted_by_key {A} (key : A → Q) (reverse : bool) (l : list A) : list A :=
  sort_stable (key_order key reverse) l.

#[export] Instance key_order_trans {A} (key : A → Q) reverse :
  Transitive (key_order key reverse).
Proof. intros x y z. unfold key_order. destruct reverse; lra. Qed.

#[export] Instance key_order_total {A} (key : A → Q) reverse :
  Total (key_order key reverse).
Proof. intros x y. unfold key_order. destruct reverse; lra. Qed.

Lemma tied_key_order {A} (key : A → Q) reverse x y :
  tied (key_order key reverse) x y ↔ (key x == key y)%Q.
Proof. unfold tied, key_order. destruct reverse; lra. Qed.

#[export] Hint Resolve sort_stable_sorted sort_stable_Permutation : py.
