(* ===== verification/PyStr.v ===== *)
(** * Python strings

    The [str] operations the views call: comparison (the order [sorted]
    uses on names), [replace] of one character, [title], [strip] and
    truth.  Strings are sequences of bytes; letters and white space are
    the ASCII ones, so a name with letters or spaces outside ASCII is
    ordered correctly (UTF-8 keeps code-point order) and is otherwise
    left unchanged by [title] and [strip]. *)

From Stdlib Require Import Ascii String ZifyBool.
From S2P Require Import Prelude PySort.

(** ** Characters *)

Definition code (a : ascii) : nat := nat_of_ascii a.

Definition is_upper (a : ascii) : bool := (65 <=? code a) && (code a <=? 90).
Definition is_lower (a : ascii) : bool := (97 <=? code a) && (code a <=? 122).
Definition is_cased (a : ascii) : bool := is_upper a || is_lower a.

(** [str.isspace] on ASCII: tab to carriage return, the four separators
    and the space. *)
Definition is_space (a : ascii) : bool :=
  ((9 <=? code a) && (code a <=? 13)) || ((28 <=? code a) && (code a <=? 32)).

Definition upper (a : ascii) : ascii :=
  if is_lower a then ascii_of_nat (code a - 32) else a.
Definition lower (a : ascii) : ascii :=
  if is_upper a then ascii_of_nat (code a + 32) else a.

(** ** Operations *)

(** [bool(s)]: a string is true when it is not empty. *)
Definition str_truthy (s : string) : bool :=
  match s with EmptyString => false | String _ _ => true end.

(** [s.replace(old, new)] for one-character [old] and [new]. *)
Fixpoint replace_char (old new : ascii) (s : string) : string :=
  match s with
  | EmptyString => EmptyString
  | String a s' =>
      String (if decide (a = old) then new else a) (replace_char old new s')
  end.

(** [s.title()]: a cased character is put in upper case when the
    character before it is not cased, in lower case when it is. *)
Fixpoint title_from (previous_is_cased : bool) (s : string) : string :=
  match s with
  | EmptyString => EmptyString
  | String a s' =>
      String (if previous_is_cased then lower a else upper a)
             (title_from (is_cased a) s')
  end.

Definition title (s : string) : string := title_from false s.

Fixpoint lstrip (s : string) : string :=
  match s with
  | EmptyString => EmptyString
  | String a s' => if is_space a then lstrip s' else s
  end.

Fixpoint rstrip (s : string) : string :=
  match s with
  | EmptyString => EmptyString
  | String a s' =>
      let r := rstrip s' in
      if is_space a && negb (str_truthy r) then EmptyString else String a r
  end.

(** [s.strip()]. *)
Definition strip (s : string) : string := rstrip (lstrip s).

(** The widget label of a trait, tag or category:
    [name.replace('_', ' ').title()]. *)
Definition label_of (name : string) : string :=
  title (replace_char "_" " " name).

(** ** The order on strings *)

(** [s <= t] in Python: lexicographic on the characters. *)
Fixpoint str_leb (s t : string) : bool :=
  match s, t with
  | EmptyString, _ => true
  | String _ _, EmptyString => false
  | String a s', String b t' =>
      (code a <? code b) || ((code a =? code b) && str_leb s' t')
  end.

Definition str_le : relation string := λ s t, str_leb s t = true.

#[export] Instance str_le_dec s t : Decision (str_le s t).
Proof. unfold str_le. apply _. Defined.

(** [sorted(names)]. *)
Definition sorted_str (names : list string) : list string :=
  sort_stable str_le names.

(** ** Characters: lemmas *)

Lemma code_inj a b : code a = code b → a = b.
Proof.
  unfold code. intros H.
  by rewrite <- (ascii_nat_embedding a), <- (ascii_nat_embedding b), H.
Qed.

Lemma code_lt a : code a < 256.
Proof. apply nat_ascii_bounded. Qed.

Lemma code_ascii_of_nat n : n < 256 → code (ascii_of_nat n) = n.
Proof. apply nat_ascii_embedding. Qed.

Lemma code_upper a : is_lower a = true → code (upper a) = code a - 32.
Proof.
  unfold upper. intros ->. apply code_ascii_of_nat. pose proof (code_lt a). lia.
Qed.

Lemma code_lower a : is_upper a = true → code (lower a) = code a + 32.
Proof.
  unfold lower, is_upper. intros H. rewrite H. apply code_ascii_of_nat. lia.
Qed.

Lemma is_cased_upper a : is_cased (upper a) = is_cased a.
Proof.
  destruct (is_lower a) eqn:Hl; [|by unfold upper; rewrite Hl].
  unfold is_cased, is_upper at 1, is_lower at 1. rewrite (code_upper a Hl), Hl.
  unfold is_lower in Hl. rewrite orb_true_r. lia.
Qed.

Lemma is_cased_lower a : is_cased (lower a) = is_cased a.
Proof.
  destruct (is_upper a) eqn:Hu; [|by unfold lower; rewrite Hu].
  unfold is_cased, is_upper at 1, is_lower at 1. rewrite (code_lower a Hu), Hu.
  unfold is_upper in Hu. rewrite orb_true_l. lia.
Qed.

Lemma lower_idemp a : lower (lower a) = lower a.
Proof.
  destruct (is_upper a) eqn:Hu; [|by unfold lower; rewrite !Hu].
  unfold lower at 1. unfold is_upper at 1. rewrite (code_lower a Hu).
  unfold is_upper in Hu.
  by replace ((65 <=? code a + 32) && (code a + 32 <=? 90)) with false by lia.
Qed.

Lemma upper_idemp a : upper (upper a) = upper a.
Proof.
  destruct (is_lower a) eqn:Hl; [|by unfold upper; rewrite !Hl].
  unfold upper at 1. unfold is_lower at 1. rewrite (code_upper a Hl).
  unfold is_lower in Hl.
  by replace ((97 <=? code a - 32) && (code a - 32 <=? 122)) with false by lia.
Qed.

Lemma is_space_not_cased a : is_space a = true → is_cased a = false.
Proof. unfold is_space, is_cased, is_upper, is_lower. lia. Qed.

(** ** [replace] and [title] *)

Lemma replace_char_length old new s :
  String.length (replace_char old new s) = String.length s.
Proof. induction s; simpl; congruence. Qed.

Lemma replace_char_absent old new s :
  old ≠ new → old ∉ list_ascii_of_string (replace_char old new s).
Proof.
  intros Hne. induction s as [|a s IH]; simpl; [apply not_elem_of_nil|].
  rewrite not_elem_of_cons. split; [|done]. case_decide; congruence.
Qed.

Lemma title_from_length b s : String.length (title_from b s) = String.length s.
Proof. revert b. induction s; intros; simpl; [done|]. by rewrite IHs. Qed.

Lemma title_from_idemp b s : title_from b (title_from b s) = title_from b s.
Proof.
  revert b. induction s as [|a s IH]; intros b; simpl; [done|].
  destruct b; rewrite ?is_cased_lower, ?is_cased_upper, ?lower_idemp,
    ?upper_idemp, IH; done.
Qed.

Lemma label_of_length name : String.length (label_of name) = String.length name.
Proof. unfold label_of, title. by rewrite title_from_length, replace_char_length. Qed.

(** ** [strip] *)

Lemma str_truthy_false s : str_truthy s = false ↔ s = EmptyString.
Proof. by destruct s. Qed.

Lemma lstrip_head s a s' : lstrip s = String a s' → is_space a = false.
Proof.
  induction s as [|b s IH]; simpl; [done|].
  destruct (is_space b) eqn:Hb; [done|]. by intros [= -> ->].
Qed.

Lemma lstrip_id a s : is_space a = false → lstrip (String a s) = String a s.
Proof. simpl. by intros ->. Qed.

Lemma lstrip_idemp s : lstrip (lstrip s) = lstrip s.
Proof.
  destruct (lstrip s) as [|a s'] eqn:E; [done|].
  apply lstrip_id. by eapply lstrip_head.
Qed.

Lemma rstrip_empty_iff s :
  rstrip s = EmptyString ↔ Forall (λ a, is_space a = true) (list_ascii_of_string s).
Proof.
  induction s as [|a s IH]; simpl; [by split|].
  rewrite Forall_cons, <- IH.
  destruct (is_space a), (rstrip s); simpl; intuition congruence.
Qed.

Lemma rstrip_head a s :
  is_space a = false → rstrip (String a s) = String a (rstrip s).
Proof. simpl. by intros ->. Qed.

Lemma rstrip_idemp s : rstrip (rstrip s) = rstrip s.
Proof.
  induction s as [|a s IH]; simpl; [done|].
  destruct (is_space a) eqn:Ha, (rstrip s) as [|b r] eqn:Hr; simpl in *;
    rewrite ?Ha; simpl; try done.
  - by rewrite IH.
  - by rewrite IH.
Qed.

Lemma lstrip_empty_iff s :
  lstrip s = EmptyString ↔ Forall (λ a, is_space a = true) (list_ascii_of_string s).
Proof.
  induction s as [|a s IH]; simpl; [by split|].
  rewrite Forall_cons. destruct (is_space a); intuition congruence.
Qed.

Lemma lstrip_suffix s : suffix (list_ascii_of_string (lstrip s)) (list_ascii_of_string s).
Proof.
  induction s as [|a s IH]; simpl; [done|].
  destruct (is_space a); [by apply suffix_cons_r|done].
Qed.

Lemma strip_empty_iff s :
  strip s = EmptyString ↔ Forall (λ a, is_space a = true) (list_ascii_of_string s).
Proof.
  unfold strip. rewrite rstrip_empty_iff. split.
  - intros H. induction s as [|a s IH]; simpl in *; [done|].
    destruct (is_space a) eqn:Ha; [by constructor; auto|].
    simpl in H. apply Forall_cons in H as [? _]. congruence.
  - intros H. destruct (lstrip_suffix s) as [pre Hpre].
    rewrite Hpre in H. by apply Forall_app in H as [_ ?].
Qed.

Lemma strip_head s a s' : strip s = String a s' → is_space a = false.
Proof.
  unfold strip. destruct (lstrip s) as [|b r] eqn:E; [done|].
  pose proof (lstrip_head _ _ _ E) as Hb. rewrite (rstrip_head _ _ Hb).
  by intros [= -> _].
Qed.

Lemma strip_idemp s : strip (strip s) = strip s.
Proof.
  unfold strip. destruct (lstrip s) as [|b r] eqn:E; [done|].
  pose proof (lstrip_head _ _ _ E) as Hb.
  rewrite (rstrip_head _ _ Hb), (lstrip_id _ _ Hb), <- (rstrip_head _ _ Hb).
  apply rstrip_idemp.
Qed.

(** ** The order *)

#[export] Instance str_le_refl : Reflexive str_le.
Proof.
  intros s. unfold str_le. induction s as [|a s IH]; simpl; [done|].
  rewrite IH, Nat.eqb_refl. apply orb_true_r.
Qed.

#[export] Instance str_le_trans : Transitive str_le.
Proof.
  unfold str_le. intros s. induction s as [|a s IH]; intros [|b t] [|c u];
    simpl; try done.
  intros H1 H2.
  destruct (Nat.ltb_spec (code a) (code b)), (Nat.ltb_spec (code b) (code c)),
    (Nat.eqb_spec (code a) (code b)), (Nat.eqb_spec (code b) (code c));
    simpl in *; try done; try lia;
    repeat match goal with
    | |- (?x <? ?y) || _ = true =>
        destruct (Nat.ltb_spec x y); [done|]; simpl
    | |- (?x =? ?y) && _ = true =>
        destruct (Nat.eqb_spec x y); [simpl|lia]
    end; eauto.
Qed.

#[export] Instance str_le_total : Total str_le.
Proof.
  unfold str_le. intros s. induction s as [|a s IH]; intros [|b t]; simpl; auto.
  destruct (Nat.ltb_spec (code a) (code b)), (Nat.ltb_spec (code b) (code a)),
    (Nat.eqb_spec (code a) (code b)), (Nat.eqb_spec (code b) (code a));
    simpl; auto; lia.
Qed.

#[export] Instance str_le_antisymm : AntiSymm (=) str_le.
Proof.
  unfold str_le. intros s. induction s as [|a s IH]; intros [|b t]; simpl;
    try done.
  destruct (Nat.ltb_spec (code a) (code b)), (Nat.ltb_spec (code b) (code a)),
    (Nat.eqb_spec (code a) (code b)), (Nat.eqb_spec (code b) (code a));
    simpl; try lia; try done.
  intros. f_equal; [by apply code_inj|by apply IH].
Qed.

Lemma sorted_str_Permutation names : sorted_str names ≡ₚ names.
Proof. apply sort_stable_Permutation. Qed.

Lemma sorted_str_sorted names : StronglySorted str_le (sorted_str names).
Proof. apply sort_stable_sorted; apply _. Qed.

Lemma sorted_str_elem name names : name ∈ sorted_str names ↔ name ∈ names.
Proof. by rewrite sorted_str_Permutation. Qed.

Lemma sorted_str_NoDup names : NoDup names → NoDup (sorted_str names).
Proof. by rewrite sorted_str_Permutation. Qed.

(** A sorted rearrangement of the names is the list [sorted] returns. *)
Lemma sorted_str_unique names l :
  l ≡ₚ names → StronglySorted str_le l → l = sorted_str names.
Proof.
  intros Hp Hs. apply (StronglySorted_unique str_le); [done| |].
  - apply sorted_str_sorted.
  - by rewrite sorted_str_Permutation.
Qed.

#[export] Hint Rewrite replace_char_length title_from_length label_of_length : pyrw.
#[export] Hint Resolve sorted_str_sorted sorted_str_Permutation : py.
