(* ===== verification/PyObj.v ===== *)
(** * Python objects behind references

    A Python dict of dicts holds references: [venues.get(name)] returns
    the object stored under [name], not a copy, and a statement that
    changes it is seen through every name that refers to it.

    The model is a heap of objects ([list A], a location is an index),
    a dict from names to locations, and the JSON text a dict of objects
    is written as ([dump_objects]): each name with the current content
    of the object it refers to.  [represents] ties the three together,
    and the lemmas of this file say what the dumped dict is after an
    allocation, an update in place, an assignment of a reference and a
    [pop]. *)

From S2P Require Import Prelude PyDict.

Abbreviation loc := nat.

Section heap.
Context {A : Type} `{!Inhabited A}.
Implicit Types (h : list A) (l : loc) (d : dict loc) (data : dict A).

(** A new object. *)
Definition alloc h (a : A) : list A * loc := (h ++ [a], length h).

(** One statement [x = f(x, arg)] on the object at [l], which may
    raise. *)
Definition at_loc {X} l (f : A → X → result A) h (arg : X) : result (list A) :=
  a ← f (h !!! l) arg; Ok (<[l := a]> h).

(** [json.load] of an object of objects: one new object per entry. *)
Definition load_objects h data : list A * dict loc :=
  (h ++ data.*2, zip data.*1 (seq (length h) (length data))).

(** [json.dump] of a dict of references. *)
Definition dump_objects h d : dict A := (λ kl, (kl.1, h !!! kl.2)) <$> d.

(** [d] with heap [h] is the dict of objects [data]: no object is stored
    under two names. *)
Record represents h d data : Prop := {
  rep_dump : dump_objects h d = data;
  rep_bound : Forall (λ kl, kl.2 < length h) d;
  rep_NoDup : NoDup d.*2;
}.

(** ** Dumping *)

Lemma dump_objects_keys h d : dict_keys (dump_objects h d) = dict_keys d.
Proof. unfold dict_keys, dump_objects. by rewrite <- list_fmap_compose. Qed.

Lemma dump_objects_get h d k :
  dict_get k (dump_objects h d) = (λ l, h !!! l) <$> dict_get k d.
Proof.
  induction d as [|[k' l] d IH]; csimpl; [done|]. by case_decide.
Qed.

Lemma dump_objects_set h d k l :
  dump_objects h (dict_set k l d) = dict_set k (h !!! l) (dump_objects h d).
Proof.
  induction d as [|[k' l'] d IH]; csimpl; [done|].
  case_decide; csimpl; by rewrite ?IH.
Qed.

Lemma dump_objects_pop h d k :
  dump_objects h (dict_pop k d) = dict_pop k (dump_objects h d).
Proof.
  unfold dict_pop. induction d as [|[k' l'] d IH]; csimpl; [done|].
  rewrite !filter_cons. simpl. case_decide; csimpl; by rewrite IH.
Qed.

(** An update of an object no name refers to is not seen. *)
Lemma dump_objects_insert_fresh h d l a :
  l ∉ d.*2 → dump_objects (<[l := a]> h) d = dump_objects h d.
Proof.
  induction d as [|[k l'] d IH]; csimpl; [done|].
  rewrite not_elem_of_cons. intros [Hne Hnot].
  by rewrite IH, list_lookup_total_insert_ne.
Qed.

(** An update in place is an assignment under the one name that refers
    to the object. *)
Lemma dump_objects_insert h d k l a :
  NoDup d.*2 → l < length h → dict_get k d = Some l →
  dump_objects (<[l := a]> h) d = dict_set k a (dump_objects h d).
Proof.
  intros Hnd Hl. induction d as [|[k' l'] d IH]; csimpl; [done|].
  apply NoDup_cons in Hnd as [Hnot Hnd]. case_decide as Hk.
  - intros [= ->]. subst k'.
    by rewrite list_lookup_total_insert_eq, dump_objects_insert_fresh.
  - intros Hget. rewrite IH, list_lookup_total_insert_ne; [done| |done..].
    intros ->. apply Hnot. clear -Hget.
    induction d as [|[k2 l2] d IH]; csimpl in *; [done|].
    case_decide; simplify_eq; [left|right; auto].
Qed.

Lemma dump_objects_app h h' d :
  Forall (λ kl, kl.2 < length h) d → dump_objects (h ++ h') d = dump_objects h d.
Proof.
  induction 1 as [|[k l] d Hl _ IH]; csimpl; [done|].
  by rewrite IH, lookup_total_app_l.
Qed.

(** ** Loading *)

Lemma load_objects_dump h data :
  dump_objects (h ++ data.*2) (zip data.*1 (seq (length h) (length data))) = data.
Proof.
  revert h. induction data as [|[k a] data IH]; intros h; csimpl; [done|].
  rewrite lookup_total_app_r, Nat.sub_diag by lia. simpl. f_equal.
  specialize (IH (h ++ [a])). rewrite length_app, Nat.add_1_r in IH.
  by rewrite <- app_assoc in IH.
Qed.

Lemma load_objects_locs h data :
  (zip data.*1 (seq (length h) (length data))).*2 = seq (length h) (length data).
Proof. apply snd_zip. by rewrite length_fmap, length_seq. Qed.

(** A dict just loaded shares no object between two names. *)
Lemma load_objects_represents data :
  represents (load_objects [] data).1 (load_objects [] data).2 data.
Proof.
  unfold load_objects. simpl. split.
  - apply (load_objects_dump []).
  - apply Forall_forall. intros [k l] Hin.
    apply (list_elem_of_fmap_2 snd) in Hin. rewrite (load_objects_locs []) in Hin.
    apply elem_of_seq in Hin. rewrite length_fmap. simpl in *. lia.
  - rewrite (load_objects_locs []). apply NoDup_seq.
Qed.

Lemma represents_get h d data k :
  represents h d data → dict_get k data = (λ l, h !!! l) <$> dict_get k d.
Proof. intros [<- _ _]. apply dump_objects_get. Qed.

Lemma represents_get_bound h d data k l :
  represents h d data → dict_get k d = Some l → l < length h.
Proof.
  intros [_ Hb _] Hget. apply dict_get_Some_elem in Hget.
  by apply (proj1 (Forall_forall _ _) Hb (k, l)).
Qed.

(** A new object is not in the dict until it is assigned. *)
Lemma represents_alloc h d data a :
  represents h d data →
  dump_objects (alloc h a).1 d = data ∧ ((alloc h a).2 ∉ d.*2)
  ∧ (alloc h a).2 < length (alloc h a).1.
Proof.
  intros [Hd Hb _]. unfold alloc. simpl. split_and!.
  - by rewrite dump_objects_app.
  - intros (kl & Heq & Hin)%list_elem_of_fmap.
    apply (proj1 (Forall_forall _ _) Hb) in Hin. lia.
  - rewrite length_app. simpl. lia.
Qed.

(** A loop of statements on one object is the loop on its content. *)
Lemma foldM_at_loc {X} l (f : A → X → result A) h (args : list X) :
  l < length h →
  foldM (at_loc l f) h args = (a ← foldM f (h !!! l) args; Ok (<[l := a]> h)).
Proof.
  intros Hl. revert h Hl. induction args as [|x args IH]; intros h Hl; simpl.
  - by rewrite list_insert_id by by apply list_lookup_lookup_total_lt.
  - unfold at_loc at 2. destruct (f (h !!! l) x) as [a|e]; simpl; [|done].
    rewrite IH by by rewrite length_insert.
    rewrite list_lookup_total_insert_eq by done.
    destruct (foldM f a args); simpl; [|done]. by rewrite list_insert_insert_eq.
Qed.

End heap.
