(* ===== verification/Profile.v ===== *)
(** * Profiles

    A profile is the JSON object the program passes around: three
    optional sections, each a dict.  The code never indexes a section
    directly; it reads [profile.get("scalars", {})], so a missing section
    behaves as an empty one ([section]).

    [profile_wf] states the invariants of the data model: unique keys,
    scalar values in the unit interval, tag flags 0 or 1.  It is
    decidable, and [profile_wfb] computes it. *)

From S2P Require Import Prelude PyDict.

Record Profile : Type := mkProfile {
  scalars : option (dict Q);
  tags : option (dict Z);
  categoricals : option (dict (list string));
}.

(** [profile.get(name, {})]. *)
Definition section {V} (s : option (dict V)) : dict V := default [] s.

(** [{"scalars": {}, "tags": {}, "categoricals": {}}]. *)
Definition empty_profile : Profile :=
  {| scalars := Some []; tags := Some []; categoricals := Some [] |}.

Definition unit_interval (x : Q) : Prop := (0 <= x <= 1)%Q.
Definition tag_flag (z : Z) : Prop := z = 0%Z ∨ z = 1%Z.

Record profile_wf (p : Profile) : Prop := {
  wf_scalar_keys : dict_wf (section (scalars p));
  wf_tag_keys : dict_wf (section (tags p));
  wf_categorical_keys : dict_wf (section (categoricals p));
  wf_scalar_range : Forall (λ kv, unit_interval kv.2) (section (scalars p));
  wf_tag_flags : Forall (λ kv, tag_flag kv.2) (section (tags p));
}.

#[export] Instance unit_interval_dec x : Decision (unit_interval x).
Proof. unfold unit_interval. apply _. Defined.
#[export] Instance tag_flag_dec z : Decision (tag_flag z).
Proof. unfold tag_flag. apply _. Defined.

Definition profile_wfb (p : Profile) : bool :=
  bool_decide (dict_wf (section (scalars p)))
  && bool_decide (dict_wf (section (tags p)))
  && bool_decide (dict_wf (section (categoricals p)))
  && forallb (λ kv, bool_decide (unit_interval kv.2)) (section (scalars p))
  && forallb (λ kv, bool_decide (tag_flag kv.2)) (section (tags p)).

(** [profile.setdefault("scalars", {})[trait] = value], and the same
    statement for the other two sections: a missing section is created,
    the key is added or overwritten. *)
Definition set_scalar (trait : string) (value : Q) (p : Profile) : Profile :=
  {| scalars := Some (dict_set trait value (section (scalars p)));
     tags := tags p; categoricals := categoricals p |}.

Definition set_tag (tag : string) (value : Z) (p : Profile) : Profile :=
  {| scalars := scalars p;
     tags := Some (dict_set tag value (section (tags p)));
     categoricals := categoricals p |}.

Definition set_categorical (cat : string) (selected : list string) (p : Profile)
    : Profile :=
  {| scalars := scalars p; tags := tags p;
     categoricals := Some (dict_set cat selected (section (categoricals p))) |}.

#[export] Instance Profile_inhabited : Inhabited Profile := populate empty_profile.

Lemma section_None {V} : section (None : option (dict V)) = [].
Proof. done. Qed.

Lemma section_Some {V} (d : dict V) : section (Some d) = d.
Proof. done. Qed.

Lemma forallb_bool_decide {A} (P : A → Prop) `{!∀ x, Decision (P x)} (l : list A) :
  forallb (λ x, bool_decide (P x)) l = true ↔ Forall P l.
Proof.
  rewrite forallb_forall, Forall_forall.
  split; intros Hall x Hx.
  - apply list_elem_of_In in Hx. by apply Hall, bool_decide_eq_true in Hx.
  - apply bool_decide_eq_true, Hall. by apply list_elem_of_In.
Qed.

Lemma profile_wfb_spec p : profile_wfb p = true ↔ profile_wf p.
Proof.
  unfold profile_wfb.
  rewrite !andb_true_iff, !bool_decide_eq_true, !forallb_bool_decide.
  split; [intros [[[[??]?]?]?]; by split | intros []; by repeat split].
Qed.

#[export] Instance profile_wf_dec p : Decision (profile_wf p).
Proof.
  refine (cast_if (decide (profile_wfb p = true))); by rewrite <- profile_wfb_spec.
Defined.

Lemma empty_profile_wf : profile_wf empty_profile.
Proof. by apply profile_wfb_spec. Qed.

(** ** Assignments keep a profile well formed *)

Lemma set_scalar_wf trait value p :
  unit_interval value → profile_wf p → profile_wf (set_scalar trait value p).
Proof.
  intros Hv []. split; simpl; auto using dict_wf_set, dict_set_Forall.
Qed.

Lemma set_tag_wf tag value p :
  tag_flag value → profile_wf p → profile_wf (set_tag tag value p).
Proof.
  intros Hv []. split; simpl; auto using dict_wf_set, dict_set_Forall.
Qed.

Lemma set_categorical_wf cat selected p :
  profile_wf p → profile_wf (set_categorical cat selected p).
Proof. intros []. split; simpl; auto using dict_wf_set. Qed.

#[export] Hint Resolve empty_profile_wf set_scalar_wf set_tag_wf set_categorical_wf : py.
