(* ===== verification/Ranking.v ===== *)
(** * Ranking venues by score

    The matching loops of the program have one shape: score every venue
    of a dict against the session profile, keep the pairs [(name, score)]
    of the venues that are not disqualified, sort them by score
    descending and show the best ([src/bu1.py], lines 126-143; the flat
    variants in [src/affinari_match.py], lines 41-47, and
    [src/streamlit_app.py], lines 43-47, show all of them).

    The loops are written against the interface [Scorer]: a function
    from a requester and a venue to a score, to [None] (disqualified) or
    to an exception.  [Engine.v] and [Legacy.v] provide the instances. *)

From S2P Require Import Prelude PyDict PySort.

(** What a scorer promises to the ranking loop: a result for every pair;
    [Ok None] is a disqualification, [Raise e] an exception that ends
    the loop. *)
Class Scorer (U V : Type) := score : U → V → result (option Q).

(** A scorer that returns on every input. *)
Class TotalScorer (U V : Type) `{!Scorer U V} :=
  score_total : ∀ u v, ∃ r, score u v = Ok r.

(** What the view shows below "Venue Match Scores": a warning when no
    venue matches, otherwise the number of matches and the lines shown. *)
Inductive display : Type :=
| NoMatches
| Matches (total_matches : nat) (shown : list (string * Q)).

(** [sorted(scores, key=lambda x: x[1], reverse=True)]. *)
Definition rank_scores (scores : list (string * Q)) : list (string * Q) :=
  sorted_by_key snd true scores.

(** The lines from [total_matches = len(scores)] on. *)
Definition show_top (top : nat) (scores : list (string * Q)) : display :=
  let total_matches := length scores in
  if decide (total_matches = 0)%nat then NoMatches
  else
    let scores := rank_scores scores in
    let shown := Nat.min top total_matches in
    Matches total_matches (take shown scores).

(** Score order: [a] may stand before [b]. *)
Definition score_ge (a b : string * Q) : Prop := (b.2 <= a.2)%Q.

Section ranking.
Context {U V : Type} `{!Scorer U V}.
Implicit Types (user : U) (venues : dict V) (scores : list (string * Q)).

(** One turn of [for name, profile in venues.items()]. *)
Definition collect_step user scores (nv : string * V) : result (list (string * Q)) :=
  s ← score user nv.2;
  Ok (match s with
      | Some q => scores ++ [(nv.1, q)]
      | None => scores
      end).

Definition collect_scores user venues : result (list (string * Q)) :=
  foldM (collect_step user) [] venues.

(** The whole block: collect, then show the best three. *)
Definition match_venues user venues : result display :=
  show_top 3 <$> collect_scores user venues.

(** The ranking shown when every match is listed. *)
Definition rank user venues : result (list (string * Q)) :=
  rank_scores <$> collect_scores user venues.

(** Reference: the pairs of the venues that qualify, in venue order. *)
Definition qualified user venues : list (string * Q) :=
  omap (λ nv : string * V,
          match score user nv.2 with
          | Ok (Some q) => Some (nv.1, q)
          | _ => None
          end) venues.

(** The scorer returned for every venue. *)
Definition all_scored user venues : Prop :=
  Forall (λ nv : string * V, is_ok (score user nv.2) = true) venues.

(** Scoring raises [e] at some venue and returned for every venue before
    it. *)
Definition first_raise user venues (e : exn) : Prop :=
  ∃ pre nv post, venues = pre ++ nv :: post ∧ all_scored user pre ∧
                 score user nv.2 = Raise e.

End ranking.

(** ** The sort *)

Lemma rank_scores_Permutation scores : rank_scores scores ≡ₚ scores.
Proof. apply sort_stable_Permutation. Qed.

Lemma rank_scores_length scores : length (rank_scores scores) = length scores.
Proof. apply sort_stable_length. Qed.

Lemma rank_scores_sorted scores : StronglySorted score_ge (rank_scores scores).
Proof. apply (sort_stable_sorted (key_order snd true)). Qed.

Lemma rank_scores_elem x scores : x ∈ rank_scores scores ↔ x ∈ scores.
Proof. apply sort_stable_elem. Qed.

(** Pairs with equal scores keep the order the loop appended them in. *)
Lemma rank_scores_stable q scores :
  filter (λ x, x.2 == q)%Q (rank_scores scores) = filter (λ x, x.2 == q)%Q scores.
Proof.
  pose proof (sort_stable_ties (key_order snd true) ("", q) scores) as Ht.
  unfold ties in Ht. unfold rank_scores, sorted_by_key.
  erewrite (list_filter_iff _ (tied _ ("", q))), Ht; [apply list_filter_iff|];
    intros x; rewrite tied_key_order; simpl; split; intros ->; reflexivity.
Qed.

(** Ranking a ranking changes nothing. *)
Lemma rank_scores_idemp scores :
  rank_scores (rank_scores scores) = rank_scores scores.
Proof. apply (sort_stable_idemp (key_order snd true)). Qed.

(** A list already in descending score order is returned as it is. *)
Lemma rank_scores_sorted_id scores :
  StronglySorted score_ge scores → rank_scores scores = scores.
Proof. apply (sort_stable_sorted_id (key_order snd true)). Qed.

(** ** What is shown *)

Lemma show_top_nil top : show_top top [] = NoMatches.
Proof. done. Qed.

Lemma show_top_NoMatches top scores :
  show_top top scores = NoMatches ↔ scores = [].
Proof.
  unfold show_top. case_decide as Hl; split; try done.
  - intros _. by apply nil_length_inv.
  - intros ->. by destruct Hl.
Qed.

Lemma show_top_Matches top scores total shown :
  show_top top scores = Matches total shown ↔
  scores ≠ [] ∧ total = length scores ∧
  shown = take (Nat.min top total) (rank_scores scores).
Proof.
  unfold show_top. case_decide as Hl.
  - split; [done | intros [Hne _]]. by apply nil_length_inv in Hl.
  - split.
    + intros [= <- <-]. split_and!; [|done..]. by intros ->.
    + by intros (_ & -> & ->).
Qed.

Section shown.
Context (top : nat) (scores : list (string * Q)) (total : nat)
        (shown : list (string * Q)).
Hypothesis Hshow : show_top top scores = Matches total shown.

Lemma shown_length : length shown = Nat.min top (length scores).
Proof using Hshow.
  apply show_top_Matches in Hshow as (_ & -> & ->).
  rewrite length_take, rank_scores_length. lia.
Qed.

Lemma shown_sorted : StronglySorted score_ge shown.
Proof using Hshow.
  apply show_top_Matches in Hshow as (_ & -> & ->).
  pose proof (rank_scores_sorted scores) as Hs.
  rewrite <- (take_drop (top `min` length scores) (rank_scores scores)) in Hs.
  by apply StronglySorted_app_1_l in Hs.
Qed.

(** The lines shown are collected pairs, none shown more often than it
    was collected. *)
Lemma shown_submseteq : shown ⊆+ scores.
Proof.
  apply show_top_Matches in Hshow as (_ & _ & ->).
  rewrite <- (rank_scores_Permutation scores) at 2. apply submseteq_take.
Qed.

Lemma shown_elem x : x ∈ shown → x ∈ scores.
Proof using Hshow.
  apply show_top_Matches in Hshow as (_ & -> & ->).
  intros Hx%subseteq_take. by apply rank_scores_elem.
Qed.

(** No match that is left out scores more than one that is shown. *)
Lemma shown_best x y :
  x ∈ shown → y ∈ scores → y ∉ shown → (y.2 <= x.2)%Q.
Proof using Hshow.
  apply show_top_Matches in Hshow as (_ & -> & ->).
  intros Hx Hy Hny. apply rank_scores_elem in Hy.
  rewrite <- (take_drop (top `min` length scores) (rank_scores scores)) in Hy.
  apply elem_of_app in Hy as [?|Hy]; [done|].
  eapply (sorted_take_drop score_ge); [apply rank_scores_sorted | done..].
Qed.

End shown.

(** ** The collecting loop *)

Section collect.
Context {U V : Type} `{!Scorer U V}.
Implicit Types (user : U) (venues : dict V) (scores : list (string * Q)).

Lemma collect_step_eq user scores nv :
  collect_step user scores nv =
  match score user nv.2 with
  | Ok (Some q) => Ok (scores ++ [(nv.1, q)])
  | Ok None => Ok scores
  | Raise e => Raise e
  end.
Proof. unfold collect_step. by destruct (score user nv.2) as [[q|]|e]. Qed.

Lemma foldM_collect_Ok user venues scores :
  all_scored user venues →
  foldM (collect_step user) scores venues = Ok (scores ++ qualified user venues).
Proof.
  unfold all_scored, qualified. intros Hall. revert scores.
  induction Hall as [|[name v] venues Hv _ IH]; intros scores.
  { simpl. by rewrite app_nil_r. }
  rewrite foldM_cons, collect_step_eq. simpl in *.
  destruct (score user v) as [[q|]|e]; simpl in *; [| |done].
  - by rewrite IH, <- app_assoc.
  - by rewrite IH.
Qed.

Lemma collect_scores_Ok user venues :
  all_scored user venues → collect_scores user venues = Ok (qualified user venues).
Proof. apply (foldM_collect_Ok user venues []). Qed.

Lemma first_raise_nil user e : ¬ first_raise user [] e.
Proof. intros (pre & nv & post & Heq & _). by destruct pre. Qed.

Lemma first_raise_cons user nv venues e :
  first_raise user (nv :: venues) e ↔
  score user nv.2 = Raise e ∨
  (is_ok (score user nv.2) = true ∧ first_raise user venues e).
Proof.
  split.
  - intros ([|p pre] & nv' & post & Heq & Hpre & Hnv); simplify_eq/=; [by left|].
    apply Forall_cons in Hpre as [Hp Hpre]. right. split; [done|].
    by exists pre, nv', post.
  - intros [Hnv | [Hok (pre & nv' & post & -> & Hpre & Hnv)]].
    + exists [], nv, venues. split_and!; [done | constructor | done].
    + exists (nv :: pre), nv', post. split_and!; [done | | done].
      by apply Forall_cons.
Qed.

(** The loop raises exactly when a venue's scoring raises: the first
    such exception, after every venue before it was scored. *)
Lemma foldM_collect_Raise user venues scores e :
  foldM (collect_step user) scores venues = Raise e ↔ first_raise user venues e.
Proof.
  revert scores. induction venues as [|nv venues IH]; intros scores.
  { split; [done | by intros ?%first_raise_nil]. }
  rewrite foldM_cons, collect_step_eq, first_raise_cons.
  destruct (score user nv.2) as [[q|]|e']; simpl; rewrite ?IH;
    intuition congruence.
Qed.

Lemma all_scored_or_raise user venues :
  all_scored user venues ∨ ∃ e, first_raise user venues e.
Proof.
  induction venues as [|nv venues IH]; [left; constructor|].
  destruct (score user nv.2) as [r|e] eqn:Hs.
  - destruct IH as [Hall | [e He]].
    + left. apply Forall_cons. by rewrite Hs.
    + right. exists e. apply first_raise_cons. right. by rewrite Hs.
  - right. exists e. apply first_raise_cons. by left.
Qed.

(** If the loop returns, scoring returned for every venue and the list
    collected is the reference list. *)
Lemma collect_scores_Ok_inv user venues scores :
  collect_scores user venues = Ok scores →
  all_scored user venues ∧ scores = qualified user venues.
Proof.
  intros Hc. destruct (all_scored_or_raise user venues) as [Hall | [e He]].
  - rewrite collect_scores_Ok in Hc by done. by simplify_eq.
  - apply foldM_collect_Raise with (scores := []) in He.
    unfold collect_scores in Hc. congruence.
Qed.

Lemma qualified_nil_iff user venues :
  all_scored user venues →
  qualified user venues = [] ↔
  Forall (λ nv : string * V, score user nv.2 = Ok None) venues.
Proof.
  unfold qualified. induction 1 as [|nv venues Hnv _ IH]; csimpl.
  { split; [constructor | done]. }
  rewrite Forall_cons, <- IH.
  destruct (score user nv.2) as [[q|]|e]; simpl in *; [| |done];
    intuition congruence.
Qed.

Lemma all_None_all_scored user venues :
  Forall (λ nv : string * V, score user nv.2 = Ok None) venues →
  all_scored user venues.
Proof. intros H. eapply Forall_impl; [exact H|]. by intros nv ->. Qed.

Lemma collect_scores_total `{!TotalScorer U V} user venues :
  collect_scores user venues = Ok (qualified user venues).
Proof.
  apply collect_scores_Ok, Forall_forall. intros [name v] _. simpl.
  by destruct (score_total user v) as [r ->].
Qed.

(** With a scorer that never raises, the matching block never raises. *)
Lemma match_venues_within `{!TotalScorer U V} (P : exn → Prop) user venues :
  raises_within P (match_venues user venues).
Proof. unfold match_venues. rewrite collect_scores_total. apply raises_within_Ok. Qed.

(** A pair is collected exactly for a venue that qualifies with that
    score. *)
Lemma elem_of_qualified user venues name q :
  (name, q) ∈ qualified user venues ↔
  ∃ v, (name, v) ∈ venues ∧ score user v = Ok (Some q).
Proof.
  unfold qualified. rewrite list_elem_of_omap. split.
  - intros ([n v] & Hin & Hs). simpl in Hs.
    destruct (score user v) as [[q'|]|] eqn:E; simplify_eq. eauto.
  - intros (v & Hin & Hs). exists (name, v). simpl. by rewrite Hs.
Qed.

(** The names collected are venue names, in venue order. *)
Lemma qualified_names_sublist user venues :
  (qualified user venues).*1 `sublist_of` dict_keys venues.
Proof.
  unfold qualified, dict_keys.
  induction venues as [|[name v] venues IH]; csimpl; [done|].
  destruct (score user v) as [[q|]|]; csimpl;
    [by apply sublist_skip | by apply sublist_cons..].
Qed.

Lemma qualified_length user venues :
  (length (qualified user venues) ≤ length venues)%nat.
Proof.
  rewrite <- (length_fmap fst (qualified _ _)), <- (length_fmap fst venues).
  apply sublist_length, qualified_names_sublist.
Qed.

Lemma qualified_wf user venues : dict_wf venues → dict_wf (qualified user venues).
Proof.
  unfold dict_wf. intros Hwf.
  eapply sublist_NoDup; [done | apply qualified_names_sublist].
Qed.

End collect.

Lemma rank_scores_spec scores :
  stable_sort_of score_ge scores (rank_scores scores).
Proof. apply (sort_stable_spec (key_order snd true)). Qed.

(** ** Properties of the ranking block *)

Section ranking_properties.
Context {U V : Type} `{!Scorer U V}.
Implicit Types (user : U) (venues : dict V) (scores : list (string * Q)).

(** C3: when scoring returns for every venue, the ranking is the stable
    descending sort of the qualifying pairs: a permutation of them, in
    descending score order, with tied venues in the order of the venue
    dict. *)
Theorem rank_is_stable_sort user venues :
  all_scored user venues →
  ∃ l, rank user venues = Ok l
       ∧ stable_sort_of score_ge (qualified user venues) l.
Proof.
  intros Hall. unfold rank. rewrite (collect_scores_Ok _ _ Hall). simpl.
  eexists; split; [done | apply rank_scores_spec].
Qed.

(** C4: the ranking lists exactly the venues that are not disqualified,
    each with the score the scorer gave it. *)
Theorem rank_only_qualified user venues l name q :
  rank user venues = Ok l →
  (name, q) ∈ l ↔ ∃ v, (name, v) ∈ venues ∧ score user v = Ok (Some q).
Proof.
  unfold rank. intros (scores & [_ ->]%collect_scores_Ok_inv & ->)%fmap_Ok_inv.
  by rewrite rank_scores_elem, elem_of_qualified.
Qed.

(** C39: venues with equal scores are ranked in the order of the venue
    dict, not by name: the venues that score [q] appear in the ranking
    in the order the scoring loop met them. *)
Theorem ties_keep_dict_order user venues l q :
  rank user venues = Ok l →
  filter (λ x, x.2 == q)%Q l = filter (λ x, x.2 == q)%Q (qualified user venues).
Proof.
  unfold rank. intros (scores & [_ ->]%collect_scores_Ok_inv & ->)%fmap_Ok_inv.
  apply rank_scores_stable.
Qed.

(** C10: the view warns that no venue matches exactly when every venue
    of the dict is disqualified (an empty dict included). *)
Theorem match_venues_NoMatches_iff user venues :
  match_venues user venues = Ok NoMatches ↔
  Forall (λ nv : string * V, score user nv.2 = Ok None) venues.
Proof.
  unfold match_venues. rewrite fmap_Ok_inv. split.
  - intros (scores & [Hall ->]%collect_scores_Ok_inv & Hs). symmetry in Hs.
    by apply show_top_NoMatches, qualified_nil_iff in Hs.
  - intros Hnone. pose proof (all_None_all_scored _ _ Hnone) as Hall.
    exists []. rewrite collect_scores_Ok by done.
    by rewrite (proj2 (qualified_nil_iff _ _ Hall) Hnone).
Qed.

(** C9: when venues match, the view reports how many qualify and shows
    the first three of the ranking (all of them when fewer): the lines
    shown are collected pairs, none more often than it was collected,
    in descending score order, and no match that is left out scores
    more than one that is shown. *)
Theorem match_venues_shows_best user venues total shown :
  match_venues user venues = Ok (Matches total shown) →
  ∃ scores, collect_scores user venues = Ok scores
    ∧ total = length scores
    ∧ length shown = Nat.min 3 total
    ∧ shown ⊆+ scores
    ∧ StronglySorted score_ge shown
    ∧ ∀ x y, x ∈ shown → y ∈ scores → y ∉ shown → (y.2 <= x.2)%Q.
Proof.
  unfold match_venues. intros (scores & Hc & Hs)%fmap_Ok_inv. symmetry in Hs.
  exists scores. split; [done|].
  pose proof (proj1 (show_top_Matches _ _ _ _) Hs) as (_ & Htot & _).
  split_and!; [done | | | | ].
  - by rewrite (shown_length _ _ _ _ Hs), Htot.
  - by eapply shown_submseteq.
  - by eapply shown_sorted.
  - intros x y. by eapply shown_best.
Qed.

(** The collecting loop raises exactly when scoring some venue
    raises, with the exception of the first venue that fails. *)
Theorem collect_scores_raises_iff user venues e :
  collect_scores user venues = Raise e ↔ first_raise user venues e.
Proof. apply foldM_collect_Raise. Qed.

End ranking_properties.

(** C25: a list that is a permutation of the collected pairs, in
    descending score order and with tied pairs in collection order, is
    the list [rank_scores] returns: every stable sort agrees with it. *)
Theorem rank_scores_unique scores l :
  stable_sort_of score_ge scores l → l = rank_scores scores.
Proof. apply (stable_sort_unique (key_order snd true)). Qed.

Lemma rank_scores_unique_witness :
  [("b", 2); ("a", 1)]%Q = rank_scores [("a", 1); ("b", 2)]%Q.
Proof.
  apply rank_scores_unique. split.
  - apply Permutation_swap.
  - repeat constructor; unfold score_ge; simpl; lra.
  - intros x. unfold ties, tied, score_ge. rewrite !filter_cons, !filter_nil.
    simpl. repeat case_decide; try done; lra.
Defined.

#[export] Hint Resolve rank_scores_sorted rank_scores_Permutation : py.
