(* ===== verification/Engine.v ===== *)
(** * The match engine: [match_score] of [src/bu1.py]

    [match_score(user_profile, venue_profile)] works in three stages:
    - the tag gate returns [None] for a venue that lacks a tag the
      requester requires (flag 1);
    - the scalar loop adds, for each requester trait, weight times the
      venue's value (0 when the venue lacks the trait);
    - the categorical loop adds, for each requester category whose
      selection overlaps the venue's, the share of the selection that
      overlaps.

    [Engine.match_score] follows the code statement by statement; the
    division is Python's, which raises on a zero divisor.  The reference
    definition [Engine.score_spec] states the same result as a sum, and
    [Engine.match_score_refines_spec] proves the two agree; in
    particular the code never divides by zero.  Scores are exact
    rationals; [Engine.venue_same] relates two venues the scorer cannot
    tell apart, and the theorem on it is an equality of the values as
    computed. *)

From S2P Require Import Prelude PyDict PySort Profile Ranking.

Module Engine.

(** ** The code *)

(** [required == 1 and venue_profile.get("tags", {}).get(tag) != 1]. *)
Definition tag_fails (venue_tags : dict Z) (tag : string) (required : Z) : bool :=
  bool_decide (required = 1%Z)
  && negb (bool_decide (dict_get tag venue_tags = Some 1%Z)).

(** The first loop: [false] stands for the early [return None]. *)
Fixpoint tag_gate (user_tags venue_tags : dict Z) : bool :=
  match user_tags with
  | [] => true
  | (tag, required) :: rest =>
      if tag_fails venue_tags tag required then false
      else tag_gate rest venue_tags
  end.

(** [score += v * venue_profile.get("scalars", {}).get(k, 0)]. *)
Definition scalar_step (venue_scalars : dict Q) (score : Q) (kv : string * Q) : Q :=
  (score + kv.2 * dict_get_default kv.1 0 venue_scalars)%Q.

(** [set(user_vals) & set(venue_vals)]. *)
Definition overlap (user_vals venue_vals : list string) : gset string :=
  list_to_set user_vals ∩ list_to_set venue_vals.

(** The body of the categorical loop. *)
Definition categorical_step (venue_cats : dict (list string)) (score : Q)
    (kv : string * list string) : result Q :=
  let venue_vals := dict_get_default kv.1 [] venue_cats in
  if truthy kv.2 && truthy venue_vals then
    let ov := overlap kv.2 venue_vals in
    if bool_decide (ov ≠ ∅) then
      q ← py_truediv (size ov) (length kv.2); Ok (score + q)%Q
    else Ok score
  else Ok score.

Definition match_score (user_profile venue_profile : Profile) : result (option Q) :=
  if tag_gate (section (tags user_profile)) (section (tags venue_profile)) then
    let score := 0%Q in
    let score :=
      foldl (scalar_step (section (scalars venue_profile))) score
            (section (scalars user_profile)) in
    score ← foldM (categorical_step (section (categoricals venue_profile)))
                  score (section (categoricals user_profile));
    Ok (Some score)
  else Ok None.

#[export] Instance engine_scorer : Scorer Profile Profile := match_score.

(** ** The reference definition *)

(** Every tag the requester flags 1 is flagged 1 by the venue. *)
Definition required_met (user_tags venue_tags : dict Z) : Prop :=
  Forall (λ kv, kv.2 = 1%Z → dict_get kv.1 venue_tags = Some 1%Z) user_tags.

#[export] Instance required_met_dec ut vt : Decision (required_met ut vt).
Proof. unfold required_met. apply _. Defined.

(** The dot product of the requester's weights with the venue's values. *)
Definition dot (user_scalars venue_scalars : dict Q) : Q :=
  sumQ ((λ kv, kv.2 * dict_get_default kv.1 0 venue_scalars)%Q <$> user_scalars).

(** The bonus of one category: the number of distinct options both
    sides selected over the length of the requester's selection. *)
Definition bonus (user_vals venue_vals : list string) : Q :=
  match size (overlap user_vals venue_vals) with
  | O => 0
  | S n => Qnat (S n) / Qnat (length user_vals)
  end%Q.

Definition categorical_total (user_cats venue_cats : dict (list string)) : Q :=
  sumQ ((λ kv, bonus kv.2 (dict_get_default kv.1 [] venue_cats)) <$> user_cats).

Definition score_spec (user venue : Profile) : option Q :=
  if decide (required_met (section (tags user)) (section (tags venue))) then
    Some (dot (section (scalars user)) (section (scalars venue))
          + categorical_total (section (categoricals user))
                              (section (categoricals venue)))%Q
  else None.

(** Two venue profiles that answer every lookup alike: the same value
    under every trait and every tag and the same set of options under
    every category, whatever the order of the keys and of the options
    in the file. *)
Definition venue_same (v v' : Profile) : Prop :=
  dict_same (section (scalars v)) (section (scalars v'))
  ∧ dict_same (section (tags v)) (section (tags v'))
  ∧ ∀ cat, list_to_set (C:=gset string)
             (dict_get_default cat [] (section (categoricals v)))
           = list_to_set (dict_get_default cat [] (section (categoricals v'))).

(** ** The tag gate *)

Lemma tag_fails_false vt tag required :
  tag_fails vt tag required = false ↔
  (required = 1%Z → dict_get tag vt = Some 1%Z).
Proof.
  unfold tag_fails. rewrite andb_false_iff, negb_false_iff.
  rewrite bool_decide_eq_false, bool_decide_eq_true.
  destruct (decide (required = 1%Z)); tauto.
Qed.

Lemma tag_gate_required_met ut vt : tag_gate ut vt = true ↔ required_met ut vt.
Proof.
  unfold required_met. induction ut as [|[tag required] ut IH]; simpl.
  - split; [constructor | done].
  - rewrite Forall_cons, <- IH, <- tag_fails_false. simpl.
    destruct (tag_fails vt tag required); intuition congruence.
Qed.

Lemma required_met_elem ut vt :
  required_met ut vt ↔ ∀ tag, (tag, 1%Z) ∈ ut → dict_get tag vt = Some 1%Z.
Proof.
  unfold required_met. rewrite Forall_forall. split.
  - intros H tag Hin. by apply (H (tag, 1%Z)).
  - intros H [tag required] Hin ?; simplify_eq/=. by apply H.
Qed.

(** On a well-formed requester the gate reads the flags by lookup. *)
Lemma required_met_get ut vt :
  dict_wf ut →
  required_met ut vt ↔
  ∀ tag, dict_get tag ut = Some 1%Z → dict_get tag vt = Some 1%Z.
Proof.
  intros Hwf. rewrite required_met_elem. split; intros H tag Hin; apply H.
  - by apply dict_get_Some_elem.
  - by apply dict_elem_get.
Qed.

(** ** The overlap and the bonus *)

Lemma elem_of_overlap x u v : x ∈ overlap u v ↔ x ∈ u ∧ x ∈ v.
Proof.
  unfold overlap. by rewrite elem_of_intersection, !elem_of_list_to_set.
Qed.

Lemma overlap_size_le u v : (size (overlap u v) ≤ length u)%nat.
Proof.
  etrans; [|apply size_list_to_set_le].
  apply subseteq_size. intros x [? _]%elem_of_overlap.
  by apply elem_of_list_to_set.
Qed.

Lemma overlap_empty u v : overlap u v = ∅ ↔ ∀ x, x ∈ u → x ∉ v.
Proof.
  split.
  - intros He x Hu Hv. assert (x ∈ overlap u v) as Hx by (by apply elem_of_overlap).
    rewrite He in Hx. by apply not_elem_of_empty in Hx.
  - intros H. apply set_eq. intros x. rewrite elem_of_overlap. split.
    + intros [Hu Hv]. by destruct (H x Hu).
    + by intros ?%not_elem_of_empty.
Qed.

Lemma overlap_nonempty u v : overlap u v ≠ ∅ ↔ ∃ x, x ∈ u ∧ x ∈ v.
Proof.
  split.
  - intros H. apply set_choose_L in H as [x Hx]. exists x.
    by apply elem_of_overlap.
  - intros (x & Hx) He. apply elem_of_overlap in Hx. rewrite He in Hx.
    by apply not_elem_of_empty in Hx.
Qed.

Lemma overlap_size_pos u v : (0 < size (overlap u v))%nat ↔ ∃ x, x ∈ u ∧ x ∈ v.
Proof.
  rewrite <- overlap_nonempty.
  split.
  - intros Hs He. rewrite He, size_empty in Hs. lia.
  - intros Hne. destruct (size (overlap u v)) eqn:E; [|lia].
    by apply size_empty_iff, leibniz_equiv in E.
Qed.

(** Where the code divides, the divisor is positive. *)
Lemma overlap_divisor_pos u v : overlap u v ≠ ∅ → (0 < length u)%nat.
Proof.
  intros (x & Hx & _)%overlap_nonempty. destruct u; [|simpl; lia].
  by apply elem_of_nil in Hx.
Qed.

Lemma bonus_eq u v :
  overlap u v ≠ ∅ → bonus u v = (Qnat (size (overlap u v)) / Qnat (length u))%Q.
Proof.
  intros Hpos%overlap_nonempty%overlap_size_pos. unfold bonus.
  destruct (size (overlap u v)); [lia | done].
Qed.

Lemma bonus_zero u v : overlap u v = ∅ → bonus u v = 0%Q.
Proof. intros H. unfold bonus. by rewrite H, size_empty. Qed.

Lemma guard_false_overlap (u v : list string) :
  truthy u && truthy v = false → overlap u v = ∅.
Proof.
  rewrite andb_false_iff, !truthy_false. intros [-> | ->];
    apply overlap_empty; intros x; rewrite ?elem_of_nil; tauto.
Qed.

(** ** The loops compute the sums *)

Lemma scalar_loop_dot us vs acc :
  (foldl (scalar_step vs) acc us == acc + dot us vs)%Q.
Proof. apply (foldl_add_sumQ (λ kv, kv.2 * dict_get_default kv.1 0 vs)%Q). Qed.

Lemma categorical_step_bonus vc score kv :
  categorical_step vc score kv
  ≡ Ok (score + bonus kv.2 (dict_get_default kv.1 [] vc))%Q.
Proof.
  unfold categorical_step.
  destruct (truthy kv.2 && truthy _) eqn:Hg.
  - case_bool_decide as Hov.
    + rewrite py_truediv_Ok by (by eapply overlap_divisor_pos). simpl.
      by rewrite bonus_eq.
    + rewrite bonus_zero by done. constructor. qlra.
  - rewrite bonus_zero by (by apply guard_false_overlap). constructor. qlra.
Qed.

Lemma categorical_loop_total vc uc acc :
  foldM (categorical_step vc) acc uc ≡ Ok (acc + categorical_total uc vc)%Q.
Proof. apply foldM_add_sumQ. intros; apply categorical_step_bonus. Qed.

(** ** The venue is read by lookups only *)

#[export] Instance venue_same_equivalence : Equivalence venue_same.
Proof.
  split.
  - by intros v.
  - intros v v' (Hs & Ht & Hc). by split_and!; intros k.
  - intros v1 v2 v3 (Hs & Ht & Hc) (Hs' & Ht' & Hc').
    split_and!; intros k; [by rewrite Hs | by rewrite Ht | by rewrite Hc].
Qed.

Lemma tag_gate_venue ut vt vt' : dict_same vt vt' → tag_gate ut vt = tag_gate ut vt'.
Proof.
  intros Hvt. induction ut as [|[tag required] ut IH]; simpl; [done|].
  unfold tag_fails. by rewrite (Hvt tag), IH.
Qed.

Lemma scalar_step_venue vs vs' score kv :
  dict_same vs vs' → scalar_step vs score kv = scalar_step vs' score kv.
Proof. intros Hvs. unfold scalar_step, dict_get_default. by rewrite (Hvs kv.1). Qed.

Lemma categorical_step_venue vc vc' score kv :
  list_to_set (C:=gset string) (dict_get_default kv.1 [] vc)
  = list_to_set (dict_get_default kv.1 [] vc') →
  categorical_step vc score kv = categorical_step vc' score kv.
Proof.
  intros Hvc. unfold categorical_step, overlap.
  by rewrite (truthy_list_to_set _ _ Hvc), Hvc.
Qed.

(** The two runs do the same operations on the same operands in the
    same order: the equality uses no law of arithmetic. *)
Lemma match_score_venue user venue venue' :
  venue_same venue venue' → match_score user venue = match_score user venue'.
Proof.
  intros (Hs & Ht & Hc). unfold match_score.
  rewrite (tag_gate_venue _ _ _ Ht).
  rewrite (foldl_ext_all _ (scalar_step (section (scalars venue')))) by
    (intros; by apply scalar_step_venue).
  by rewrite (foldM_ext_all _ (categorical_step (section (categoricals venue')))) by
    (intros; by apply categorical_step_venue).
Qed.

#[export] Instance match_score_proper : Proper ((=) ==> venue_same ==> (=)) match_score.
Proof. intros user ? <- venue venue' Hv. by apply match_score_venue. Qed.

(** ** The scorer returns the reference score *)

Lemma match_score_Ok user venue :
  ∃ r, match_score user venue = Ok r ∧ r ≡ score_spec user venue.
Proof.
  unfold match_score, score_spec. destruct (tag_gate _ _) eqn:Hg.
  - rewrite decide_True by (by apply tag_gate_required_met).
    destruct (proj1 (result_equiv_Ok_r _ _)
      (categorical_loop_total (section (categoricals venue))
         (section (categoricals user))
         (foldl (scalar_step (section (scalars venue))) 0%Q
            (section (scalars user))))) as (q & -> & Hq).
    eexists; split; [done|]. constructor. rewrite Hq.
    unfold_Qequiv. rewrite scalar_loop_dot. lra.
  - rewrite decide_False; [by eexists|].
    rewrite <- tag_gate_required_met. congruence.
Qed.

#[export] Instance engine_total : TotalScorer Profile Profile.
Proof. intros u v. destruct (match_score_Ok u v) as (r & ? & _). eauto. Qed.

Lemma match_score_None_iff user venue :
  match_score user venue = Ok None ↔
  ¬ required_met (section (tags user)) (section (tags venue)).
Proof.
  destruct (match_score_Ok user venue) as (r & -> & Hr). unfold score_spec in Hr.
  case_decide; split; intros; simplify_eq; try done; by inversion Hr.
Qed.

Lemma match_score_Some_inv user venue s :
  match_score user venue = Ok (Some s) →
  required_met (section (tags user)) (section (tags venue)) ∧
  (s == dot (section (scalars user)) (section (scalars venue))
       + categorical_total (section (categoricals user))
                           (section (categoricals venue)))%Q.
Proof.
  destruct (match_score_Ok user venue) as (r & -> & Hr). intros [= ->].
  unfold score_spec in Hr. case_decide; inversion Hr; by subst.
Qed.

(** ** Bounds *)

Lemma bonus_bounds u v : (0 <= bonus u v <= 1)%Q.
Proof.
  destruct (decide (overlap u v = ∅)) as [He|Hne].
  - rewrite bonus_zero by done. lra.
  - rewrite bonus_eq by done. apply Qnat_ratio_bounds.
    + by eapply overlap_divisor_pos.
    + apply overlap_size_le.
Qed.

Lemma bonus_pos_iff u v : (0 < bonus u v)%Q ↔ ∃ x, x ∈ u ∧ x ∈ v.
Proof.
  rewrite <- overlap_nonempty. split.
  - intros Hb He. rewrite bonus_zero in Hb by done. lra.
  - intros Hne. rewrite bonus_eq by done. apply Qnat_ratio_pos.
    + by eapply overlap_divisor_pos.
    + by apply overlap_size_pos, overlap_nonempty.
Qed.

(** A selection without repeats that the venue covers scores 1. *)
Lemma bonus_covered u v :
  NoDup u → u ≠ [] → u ⊆ v → (bonus u v == 1)%Q.
Proof.
  intros Hnd Hne Hsub.
  assert (overlap u v = list_to_set u) as Hov.
  { apply set_eq; intros x. rewrite elem_of_overlap, elem_of_list_to_set.
    split; [tauto | intros ?; split; [done | by apply Hsub]]. }
  assert (0 < length u)%nat as Hlen by (destruct u; [done | simpl; lia]).
  assert (overlap u v ≠ ∅) as Hnz.
  { apply overlap_nonempty. destruct u as [|x u]; [done|].
    exists x. split; [left | apply Hsub; left]. }
  rewrite bonus_eq by done. rewrite Hov, size_list_to_set by done.
  by apply Qnat_ratio_self.
Qed.

(** A selection the venue covers scores 1 exactly when it has no
    repeats. *)
Lemma bonus_full_iff u v : u ≠ [] → u ⊆ v → (bonus u v == 1)%Q ↔ NoDup u.
Proof.
  intros Hne Hsub. split; [|by intros; apply bonus_covered].
  assert (overlap u v = list_to_set u) as Hov.
  { apply set_eq; intros x. rewrite elem_of_overlap, elem_of_list_to_set.
    split; [tauto | intros ?; split; [done | by apply Hsub]]. }
  assert (overlap u v ≠ ∅) as Hnz.
  { apply overlap_nonempty. destruct u as [|x u]; [done|].
    exists x. split; [left | apply Hsub; left]. }
  rewrite bonus_eq, Hov by done. intros H%Qnat_ratio_one.
  - by apply size_list_to_set_NoDup.
  - destruct u; [done | simpl; lia].
Qed.

Lemma dot_bounds us vs :
  Forall (λ kv, unit_interval kv.2) us →
  Forall (λ kv, unit_interval kv.2) vs →
  (0 <= dot us vs <= Qnat (length us))%Q.
Proof.
  intros Hus Hvs. unfold dot.
  assert (Forall unit_interval
            ((λ kv, kv.2 * dict_get_default kv.1 0 vs)%Q <$> us)) as Hall.
  { apply Forall_fmap. eapply Forall_impl; [exact Hus|].
    intros [k w] [Hw0 Hw1]. simpl in *. unfold dict_get_default.
    assert (unit_interval (default 0%Q (dict_get k vs))) as [Hv0 Hv1].
    { destruct (dict_get k vs) as [x|] eqn:E; simpl; [|split; lra].
      apply dict_get_Some_elem in E. rewrite Forall_forall in Hvs.
      exact (Hvs _ E). }
    split; nra. }
  split.
  - apply sumQ_nonneg. eapply Forall_impl; [exact Hall|]. by intros ? [].
  - etrans; [apply sumQ_upper|by rewrite length_fmap].
    eapply Forall_impl; [exact Hall|]. by intros ? [].
Qed.

Lemma categorical_total_bounds uc vc :
  (0 <= categorical_total uc vc <= Qnat (length uc))%Q.
Proof.
  unfold categorical_total. split.
  - apply sumQ_nonneg, Forall_fmap, Forall_forall. intros; apply bonus_bounds.
  - etrans; [apply sumQ_upper|by rewrite length_fmap].
    apply Forall_fmap, Forall_forall. intros; apply bonus_bounds.
Qed.

(** ** Worked examples *)

Definition requester_ex : Profile :=
  {| scalars := Some [("ambiance", 0.8); ("price", 0.5)]%Q;
     tags := Some []; categoricals := Some [] |}.
Definition venue_A : Profile :=
  {| scalars := Some [("ambiance", 1.0); ("price", 0.2)]%Q;
     tags := None; categoricals := None |}.
Definition venue_B : Profile :=
  {| scalars := Some [("ambiance", 0.3); ("price", 1.0)]%Q;
     tags := None; categoricals := None |}.
Definition quiet_requester : Profile :=
  {| scalars := None; tags := Some [("quiet", 1%Z)]; categoricals := None |}.
Definition quiet_venue : Profile :=
  {| scalars := None; tags := Some [("quiet", 1%Z)]; categoricals := None |}.
Definition loud_venue : Profile :=
  {| scalars := None; tags := Some [("quiet", 0%Z)]; categoricals := None |}.
Definition music_requester (selection : list string) : Profile :=
  {| scalars := Some []; tags := Some [];
     categoricals := Some [("music", selection)] |}.
Definition music_venue (options : list string) : Profile :=
  {| scalars := Some [("ambiance", 0.5)]%Q; tags := Some [("quiet", 1%Z)];
     categoricals := Some [("music", options)] |}.

Definition cafe_ex : Profile :=
  {| scalars := Some [("ambiance", 1.0); ("price", 0.2)]%Q;
     tags := Some [("quiet", 1%Z)];
     categoricals := Some [("music", ["jazz"; "folk"])] |}.
(** The same venue with its keys and its options in another order. *)
Definition cafe_reordered : Profile :=
  {| scalars := Some [("price", 0.2); ("ambiance", 1.0)]%Q;
     tags := Some [("quiet", 1%Z)];
     categoricals := Some [("music", ["folk"; "jazz"; "folk"])] |}.

(** A requester that requires no tag, and a venue that shares no trait
    and no option with it. *)
Definition jazz_fan : Profile :=
  {| scalars := Some [("ambiance", 0.8)]%Q;
     tags := Some [("vegan", 0%Z)];
     categoricals := Some [("music", ["jazz"])] |}.
Definition stranger : Profile :=
  {| scalars := Some [("parking", 1.0)]%Q;
     tags := Some [("quiet", 0%Z)];
     categoricals := Some [("music", ["rock"])] |}.

Definition town_requester : Profile :=
  {| scalars := Some [("ambiance", 0.8); ("price", 0.5)]%Q;
     tags := Some [("quiet", 1%Z); ("vegan", 0%Z)];
     categoricals := Some [("music", ["jazz"; "folk"]); ("seating", [])] |}.
Definition town_venues : dict Profile :=
  [("cafe", {| scalars := Some [("ambiance", 1.0); ("price", 0.2)]%Q;
               tags := Some [("quiet", 1%Z)];
               categoricals := Some [("music", ["jazz"])] |});
   ("bar", {| scalars := Some [("ambiance", 0.3); ("price", 1.0)]%Q;
              tags := Some [("quiet", 0%Z); ("vegan", 1%Z)];
              categoricals := None |});
   ("diner", {| scalars := Some [("price", 1.0)]%Q;
                tags := Some [("quiet", 1%Z)]; categoricals := None |});
   ("club", {| scalars := None; tags := Some [("quiet", 1%Z)];
               categoricals := Some [("music", ["jazz"; "folk"; "rock"])] |});
   ("bistro", {| scalars := Some [("ambiance", 0.5)]%Q;
                 tags := Some [("quiet", 1%Z)];
                 categoricals := Some [("music", ["rock"])] |});
   ("tavern", {| scalars := Some [("ambiance", 0.625)]%Q;
                 tags := Some [("quiet", 1%Z)];
                 categoricals := Some [("seating", ["booth"])] |})].

(** ** Properties of the scorer *)

(** C1: for every requester and venue, [match_score] returns without
    raising, and what it returns is the reference score: [None] when the
    venue lacks a required tag, otherwise the dot product of the scalar
    sections plus the sum of the categorical bonuses. *)
Theorem match_score_refines_spec user venue :
  match_score user venue ≡ Ok (score_spec user venue).
Proof. apply result_equiv_Ok_r, match_score_Ok. Qed.

(** C5: [match_score] raises no exception; in particular the division
    in the categorical loop never has a zero divisor. *)
Theorem match_score_never_raises user venue e :
  match_score user venue ≠ Raise e.
Proof. by destruct (match_score_Ok user venue) as (r & -> & _). Qed.

(** C2: a venue is disqualified exactly when the requester flags some
    tag 1 that the venue does not flag 1 (absent, 0 or any other value). *)
Theorem disqualified_iff user venue :
  match_score user venue = Ok None ↔
  ∃ tag, (tag, 1%Z) ∈ section (tags user)
         ∧ dict_get tag (section (tags venue)) ≠ Some 1%Z.
Proof.
  rewrite match_score_None_iff. unfold required_met. split.
  - intros Hn. apply not_Forall_Exists in Hn; [|apply _].
    apply Exists_exists in Hn as ([tag req] & Hin & Hneg). simpl in *.
    destruct (decide (req = 1%Z)) as [->|]; [|by destruct Hneg].
    exists tag. split; [done|]. intros Hg. by apply Hneg.
  - intros (tag & Hin & Hne) Hall. rewrite Forall_forall in Hall.
    by apply Hne, (Hall (tag, 1%Z)).
Qed.

(** C24: one turn of the categorical loop adds between 0 and 1 to the
    score, and adds something exactly when the requester's selection and
    the venue's options of that category share an option. *)
Theorem categorical_step_range venue_cats score cat user_vals score' :
  categorical_step venue_cats score (cat, user_vals) = Ok score' →
  (score <= score' <= score + 1)%Q ∧
  ((score < score')%Q ↔
   ∃ x, x ∈ user_vals ∧ x ∈ dict_get_default cat [] venue_cats).
Proof.
  intros Hstep. pose proof (categorical_step_bonus venue_cats score (cat, user_vals)) as H.
  rewrite Hstep in H. apply Ok_equiv_inv in H. simpl in H. unfold_Qequiv.
  pose proof (bonus_bounds user_vals (dict_get_default cat [] venue_cats)).
  rewrite <- bonus_pos_iff. split; [|split]; lra.
Qed.

Lemma categorical_step_range_witness :
  (0.9 <= 0.9 + (1 # 2) <= 0.9 + 1)%Q.
Proof.
  apply (categorical_step_range [("music", ["jazz"; "rock"])] 0.9%Q "music"
           ["jazz"; "folk"] (0.9 + (1 # 2))%Q).
  vm_compute. reflexivity.
Defined.

(** C23: on well-formed profiles a score lies between 0 and the number of
    requester traits plus the number of requester categories. *)
Theorem match_score_bounds user venue s :
  profile_wf user → profile_wf venue →
  match_score user venue = Ok (Some s) →
  (0 <= s <= Qnat (length (section (scalars user)))
             + Qnat (length (section (categoricals user))))%Q.
Proof.
  intros Hu Hv (_ & ->)%match_score_Some_inv.
  pose proof (dot_bounds _ _ (wf_scalar_range _ Hu) (wf_scalar_range _ Hv)).
  pose proof (categorical_total_bounds (section (categoricals user))
                (section (categoricals venue))).
  lra.
Qed.

Lemma match_score_bounds_witness :
  ∃ s, match_score requester_ex venue_A = Ok (Some s) ∧ (0 <= s <= 2)%Q.
Proof.
  eexists. split; [vm_compute; reflexivity|].
  apply (match_score_bounds requester_ex venue_A);
    [by apply profile_wfb_spec.. | vm_compute; reflexivity].
Defined.

(** C22: the score does not depend on how the venue is written down:
    two venues with the same value under every trait and every tag and
    the same set of options under every category get the same score
    from every requester, whatever the order of the keys and of the
    options.  The scorer reads the venue by lookups only, so the two
    runs are the same operations on the same operands: the results are
    equal as computed, not only up to arithmetic. *)
Theorem match_score_venue_order user venue venue' :
  venue_same venue venue' → match_score user venue = match_score user venue'.
Proof. apply match_score_venue. Qed.

Lemma match_score_venue_order_witness :
  match_score town_requester cafe_ex = match_score town_requester cafe_reordered.
Proof.
  apply match_score_venue_order. split_and!.
  - by apply dict_same_to_gmap.
  - done.
  - intros cat. unfold dict_get_default. simpl. case_decide; [|done]. simpl.
    apply set_eq. intros x. rewrite !elem_of_union, !elem_of_singleton.
    pose proof (not_elem_of_empty (C:=gset string) x). tauto.
Defined.

(** [match_score] is not symmetric in its arguments: a requester
    that requires a tag is turned down by a venue without it, while that
    venue as a requester accepts the other profile with score 0. *)
Theorem match_score_not_symmetric :
  ∃ user venue, match_score user venue ≢ match_score venue user.
Proof.
  exists quiet_requester, loud_venue. vm_compute. inversion 1 as [?? Ho|].
  inversion Ho.
Qed.

(** C40: the categorical loop divides by the length of the selection
    with its repeats: for a selection that the venue covers, a turn of
    the loop adds the full bonus 1 exactly when the selection lists no
    option twice. *)
Theorem bonus_counts_repeats venue_cats score cat user_vals score' :
  user_vals ≠ [] → user_vals ⊆ dict_get_default cat [] venue_cats →
  categorical_step venue_cats score (cat, user_vals) = Ok score' →
  (score' - score == 1)%Q ↔ NoDup user_vals.
Proof.
  intros Hne Hsub Hstep.
  pose proof (categorical_step_bonus venue_cats score (cat, user_vals)) as Hb.
  rewrite Hstep in Hb. apply Ok_equiv_inv in Hb. simpl in Hb.
  rewrite <- (bonus_full_iff user_vals _ Hne Hsub). unfold_Qequiv.
  split; intros H; lra.
Qed.

Lemma bonus_counts_repeats_witness :
  ((0 + 1 / 2) - 0 == 1)%Q ↔ NoDup ["jazz"; "jazz"].
Proof.
  apply (bonus_counts_repeats [("music", ["jazz"])] 0 "music" ["jazz"; "jazz"]);
    [done|decide_compute|vm_compute; reflexivity].
Defined.

(** ** The ranking block with this scorer *)

Lemma rank_is_stable_sort_witness :
  ∃ l, rank town_requester town_venues = Ok l
       ∧ stable_sort_of score_ge (qualified town_requester town_venues) l.
Proof. apply rank_is_stable_sort. by repeat constructor. Defined.

Lemma rank_only_qualified_witness :
  ∃ l, rank town_requester town_venues = Ok l ∧
    ∀ name q, (name, q) ∈ l ↔
      ∃ v, (name, v) ∈ town_venues ∧ score town_requester v = Ok (Some q).
Proof.
  eexists. split; [vm_compute; reflexivity|]. intros name q.
  apply (rank_only_qualified town_requester town_venues). vm_compute. reflexivity.
Defined.

Lemma match_venues_shows_best_witness :
  ∃ shown, match_venues town_requester town_venues = Ok (Matches 5 shown)
    ∧ shown.*1 = ["cafe"; "club"; "diner"]
    ∧ ∃ scores, collect_scores town_requester town_venues = Ok scores
      ∧ 5%nat = length scores
      ∧ length shown = Nat.min 3 5
      ∧ shown ⊆+ scores
      ∧ StronglySorted score_ge shown
      ∧ ∀ x y, x ∈ shown → y ∈ scores → y ∉ shown → (y.2 <= x.2)%Q.
Proof.
  eexists. split; [vm_compute; reflexivity|]. split; [reflexivity|].
  apply (match_venues_shows_best town_requester town_venues). vm_compute.
  reflexivity.
Defined.

(** The worked scenarios of the specification.  Requester weights
    ambiance 0.8 and price 0.5 score venue A (1.0, 0.2) at 0.9 and venue B
    (0.3, 1.0) at 0.74 and rank A before B; a requester that requires
    the tag quiet keeps the venue that has it and drops the venue that
    flags it 0. *)
Theorem spec_scenarios :
  match_score requester_ex venue_A ≡ Ok (Some 0.9%Q)
  ∧ match_score requester_ex venue_B ≡ Ok (Some 0.74%Q)
  ∧ fmap (M := list) fst <$> rank requester_ex [("A", venue_A); ("B", venue_B)]
    = Ok ["A"; "B"]
  ∧ fmap (M := list) fst <$> rank quiet_requester [("A", quiet_venue); ("B", loud_venue)]
    = Ok ["A"].
Proof. split_and!; vm_compute; by repeat constructor. Qed.

(** "zeta" stored before "alpha" with the same score is listed
    first. *)
Lemma ties_keep_dict_order_witness :
  filter (λ x, x.2 == 0.9)%Q
    [("zeta", 0.9000); ("alpha", 0.9000); ("beta", 0.7400)]%Q
  = filter (λ x, x.2 == 0.9)%Q
      (qualified requester_ex
         [("zeta", venue_A); ("alpha", venue_A); ("beta", venue_B)]).
Proof.
  apply (ties_keep_dict_order requester_ex
           [("zeta", venue_A); ("alpha", venue_A); ("beta", venue_B)]).
  vm_compute. reflexivity.
Defined.

(** ** Edge cases *)

(** A requester with three empty sections disqualifies no venue and
    scores every venue 0. *)
Theorem empty_requester_scores_zero venue :
  match_score empty_profile venue = Ok (Some 0%Q).
Proof. done. Qed.

(** The ranking of such a requester is the venue dict in its own
    order. *)
Theorem empty_requester_rank venues :
  rank empty_profile venues = Ok ((λ nv, (nv.1, 0%Q)) <$> venues).
Proof.
  unfold rank. rewrite collect_scores_total. simpl. f_equal.
  assert (qualified empty_profile venues = (λ nv, (nv.1, 0%Q)) <$> venues) as ->.
  { unfold qualified. induction venues as [|[n v] vs IH]; [done|].
    csimpl. by f_equal. }
  apply rank_scores_sorted_id.
  induction venues as [|nv vs IH]; csimpl; constructor; [done|].
  apply Forall_fmap, Forall_true. intros x. unfold score_ge. simpl. lra.
Qed.

(** C38: a venue that shares no trait and no option with a requester
    that requires no tag scores 0 and is not disqualified. *)
Theorem no_overlap_scores_zero user venue :
  Forall (λ kv, kv.2 ≠ 1%Z) (section (tags user)) →
  Forall (λ kv, dict_get kv.1 (section (scalars venue)) = None)
    (section (scalars user)) →
  Forall (λ kv, overlap kv.2 (dict_get_default kv.1 [] (section (categoricals venue)))
                = ∅) (section (categoricals user)) →
  match_score user venue ≡ Ok (Some 0%Q).
Proof.
  intros Ht Hs Hc. destruct (match_score_Ok user venue) as (r & -> & ->).
  constructor. unfold score_spec. rewrite decide_True.
  - constructor. unfold dot, categorical_total. unfold_Qequiv.
    rewrite !sumQ_zero; [lra|..]; apply Forall_fmap.
    + eapply Forall_impl; [exact Hc|]. intros kv Hkv. simpl. by rewrite bonus_zero.
    + eapply Forall_impl; [exact Hs|]. intros kv Hkv. simpl.
      unfold dict_get_default. rewrite Hkv. simpl. lra.
  - eapply Forall_impl; [exact Ht|]. by intros kv Hkv ?.
Qed.

Lemma no_overlap_scores_zero_witness :
  match_score jazz_fan stranger ≡ Ok (Some 0%Q).
Proof.
  apply no_overlap_scores_zero; repeat constructor; by simpl.
Defined.

End Engine.
