(* ===== verification/Legacy.v ===== *)
(** * The flat scoring variant: [src/affinari_match.py]

    The command-line script works on flat profiles, dicts from trait to
    number with no sections:
    - the session profile adds a per-trait context modifier to the base
      profile and clamps each sum to the unit interval;
    - [match_score] is the dot product over the requester's traits;
    - every venue is scored and the venues are printed by descending
      score.

    [Legacy.match_score] is shown to be the scalar stage of the sectioned
    scorer ([Engine.dot]), and the script's loop an instance of the
    ranking loop of [Ranking.v]. *)

From S2P Require Import Prelude PyDict PySort Profile Ranking Engine.

Module Legacy.

(** ** The code *)

(** [max(0.0, min(1.0, x))]. *)
Definition clamp (x : Q) : Q := py_max 0 (py_min 1 x).

(** The dict comprehension
    [{k: clamp(base_profile[k] + context_modifier.get(k, 0)) for k in base_profile}]:
    one assignment per key, in key order. *)
Definition session_profile (base_profile context_modifier : dict Q)
    : result (dict Q) :=
  foldM (λ session k,
           b ← dict_index k base_profile;
           Ok (dict_set k (clamp (b + dict_get_default k 0 context_modifier)%Q) session))
        [] (dict_keys base_profile).

(** [sum(user_profile[k] * venue_profile.get(k, 0) for k in user_profile)]. *)
Definition match_score (user_profile venue_profile : dict Q) : result Q :=
  foldM (λ total k,
           u ← dict_index k user_profile;
           Ok (total + u * dict_get_default k 0 venue_profile)%Q)
        0%Q (dict_keys user_profile).

(** The scoring loop: every venue is appended. *)
Definition scores_loop (session : dict Q) (venues : dict (dict Q))
    : result (list (string * Q)) :=
  foldM (λ scores nv,
           score ← match_score session nv.2;
           Ok (scores ++ [(nv.1, score)]))
        [] venues.

(** [{k: round(v, 2) for k, v in session_profile.items()}]. *)
Definition rounded (session_profile : dict Q) : dict Q :=
  (λ kv, (kv.1, py_round kv.2 2)) <$> session_profile.

(** What the script computes and prints: the session profile, printed
    to two decimals, and the venues by descending score. *)
Record cli_output : Type := {
  session : dict Q;
  printed_session : dict Q;
  printed_scores : list (string * Q);
}.

(** The files the script reads; [None] is a missing file. *)
Record cli_files : Type := {
  base_profile_json : option (dict Q);
  context_modifier_json : option (dict Q);
  venues_json : option (dict (dict Q));
}.

(** [load_json(filename)]. *)
Definition load_json {A} (filename : string) (content : option A) : result A :=
  match content with
  | Some data => Ok data
  | None => Raise (FileNotFoundError filename)
  end.

(** The script from top to bottom. *)
Definition main (fs : cli_files) : result cli_output :=
  base_profile ← load_json "base_profile.json" (base_profile_json fs);
  context_modifier ← load_json "context_modifier.json" (context_modifier_json fs);
  session ← session_profile base_profile context_modifier;
  venues ← load_json "venues.json" (venues_json fs);
  scores ← scores_loop session venues;
  Ok {| session := session;
        printed_session := rounded session;
        printed_scores := sorted_by_key snd true scores |}.

#[export] Instance legacy_scorer : Scorer (dict Q) (dict Q) :=
  λ user venue, Some <$> match_score user venue.

(** ** Reference definitions *)

(** The session profile as a map over the items of the base profile. *)
Definition session_spec (base_profile context_modifier : dict Q) : dict Q :=
  (λ kv, (kv.1, clamp (kv.2 + dict_get_default kv.1 0 context_modifier)%Q))
    <$> base_profile.

(** A flat profile as a sectioned one with scalars only. *)
Definition as_profile (flat : dict Q) : Profile :=
  {| scalars := Some flat; tags := None; categoricals := None |}.

(** ** The clamp *)

Lemma clamp_unit_interval x : unit_interval (clamp x).
Proof. apply py_clamp_bounds. Qed.

Lemma clamp_id x : unit_interval x → (clamp x == x)%Q.
Proof. apply py_clamp_id. Qed.

Lemma clamp_mono x y : (x <= y)%Q → (clamp x <= clamp y)%Q.
Proof. unfold clamp. intros. case_py; lra. Qed.

(** ** The session profile *)

Lemma session_profile_Ok base modifier :
  dict_wf base → session_profile base modifier = Ok (session_spec base modifier).
Proof.
  intros Hwf. unfold session_profile.
  rewrite (foldM_keys_index
             (λ s k b, dict_set k (clamp (b + dict_get_default k 0 modifier)%Q) s))
    by done.
  f_equal. by apply (dict_comprehension (λ k b, clamp (b + dict_get_default k 0 modifier)%Q)).
Qed.

Lemma session_spec_keys base modifier :
  dict_keys (session_spec base modifier) = dict_keys base.
Proof. unfold dict_keys, session_spec. by rewrite <- list_fmap_compose. Qed.

Lemma session_spec_wf base modifier :
  dict_wf base → dict_wf (session_spec base modifier).
Proof. unfold dict_wf. by rewrite session_spec_keys. Qed.

Lemma session_spec_range base modifier :
  Forall (λ kv, unit_interval kv.2) (session_spec base modifier).
Proof.
  unfold session_spec. apply Forall_fmap, Forall_forall. intros kv _. simpl.
  apply clamp_unit_interval.
Qed.

Lemma session_spec_get base modifier k :
  dict_get k (session_spec base modifier)
  = (λ b, clamp (b + dict_get_default k 0 modifier)%Q) <$> dict_get k base.
Proof.
  unfold session_spec. induction base as [|[k' b] base IH]; csimpl; [done|].
  case_decide; by subst.
Qed.

Lemma session_profile_total base modifier :
  ∃ session, session_profile base modifier = Ok session.
Proof.
  apply foldM_total. intros sess k Hk.
  destruct (dict_index_key k base Hk) as [b ->]. simpl. eauto.
Qed.

(** ** The score *)

Lemma flat_score_Ok user venue :
  dict_wf user →
  ∃ q, match_score user venue = Ok q ∧ (q == Engine.dot user venue)%Q.
Proof.
  intros Hwf. unfold match_score.
  rewrite (foldM_keys_index (λ total k u, total + u * dict_get_default k 0 venue)%Q)
    by done.
  eexists; split; [done|].
  rewrite (foldl_add_sumQ (λ kv, kv.2 * dict_get_default kv.1 0 venue)%Q).
  unfold Engine.dot. lra.
Qed.

Lemma match_score_total user venue : ∃ q, match_score user venue = Ok q.
Proof.
  apply foldM_total. intros total k Hk.
  destruct (dict_index_key k user Hk) as [u ->]. simpl. eauto.
Qed.

#[export] Instance legacy_total : TotalScorer (dict Q) (dict Q).
Proof.
  intros u v. unfold score, legacy_scorer.
  destruct (match_score_total u v) as [q ->]. simpl. eauto.
Qed.

(** ** The loop is the ranking loop *)

Lemma scores_loop_collect session venues :
  scores_loop session venues = collect_scores session venues.
Proof.
  unfold scores_loop, collect_scores.
  assert (∀ acc : list (string * Q),
    foldM (λ scores nv, score ← match_score session nv.2;
                        Ok (scores ++ [(nv.1, score)])) acc venues
    = foldM (collect_step session) acc venues) as Hgen; [|apply Hgen].
  induction venues as [|nv venues IH]; intros acc; [done|].
  rewrite !foldM_cons, collect_step_eq. unfold score, legacy_scorer.
  destruct (match_score session nv.2); simpl; [apply IH | done].
Qed.

Lemma load_json_Ok {A} filename (content : option A) data :
  load_json filename content = Ok data ↔ content = Some data.
Proof. destruct content; simpl; split; congruence. Qed.

Lemma load_json_Raise {A} filename (content : option A) e :
  load_json filename content = Raise e ↔
  content = None ∧ e = FileNotFoundError filename.
Proof.
  destruct content; simpl; split;
    [done | by intros [] | by intros [= <-] | by intros [_ ->]].
Qed.

Lemma scores_loop_total session venues :
  scores_loop session venues = Ok (qualified session venues).
Proof. rewrite scores_loop_collect. apply collect_scores_total. Qed.

(** Every venue qualifies: the flat variant has no gate. *)
Lemma qualified_all session venues :
  (qualified session venues).*1 = dict_keys venues.
Proof.
  unfold qualified, dict_keys, score, legacy_scorer.
  induction venues as [|[name v] venues IH]; csimpl; [done|].
  destruct (match_score_total session v) as [q ->]. csimpl. by rewrite IH.
Qed.

(** With all three files in place the script returns. *)
Lemma main_Ok base modifier venues :
  dict_wf base →
  main {| base_profile_json := Some base; context_modifier_json := Some modifier;
          venues_json := Some venues |}
  = Ok {| session := session_spec base modifier;
          printed_session := rounded (session_spec base modifier);
          printed_scores :=
            rank_scores (qualified (session_spec base modifier) venues) |}.
Proof.
  intros Hwf. unfold main. simpl. rewrite session_profile_Ok by done. simpl.
  by rewrite scores_loop_total.
Qed.

(** ** Printing to two decimals *)

Lemma rounded_keys session : dict_keys (rounded session) = dict_keys session.
Proof. unfold dict_keys, rounded. by rewrite <- list_fmap_compose. Qed.

Lemma rounded_get session k :
  dict_get k (rounded session) = (λ v, py_round v 2) <$> dict_get k session.
Proof.
  unfold rounded. induction session as [|[k' v] session IH]; csimpl; [done|].
  by case_decide.
Qed.

(** ** Properties of the flat variant *)

(** C31: the session profile has the traits of the base profile in the
    same order, each value is the clamped sum of the base value and
    the modifier of that trait (0 when there is none), and every value
    lies in the unit interval. *)
Theorem session_profile_clamped base modifier :
  dict_wf base →
  ∃ session, session_profile base modifier = Ok session
    ∧ dict_keys session = dict_keys base
    ∧ Forall (λ kv, unit_interval kv.2) session
    ∧ ∀ k, dict_get k session
           = (λ b, clamp (b + dict_get_default k 0 modifier)%Q) <$> dict_get k base.
Proof.
  intros Hwf. exists (session_spec base modifier). split_and!.
  - by apply session_profile_Ok.
  - apply session_spec_keys.
  - apply session_spec_range.
  - apply session_spec_get.
Qed.

Lemma session_profile_clamped_witness :
  ∃ session,
    session_profile [("ambiance", 0.8); ("price", 0.5)]%Q
                    [("ambiance", 0.5); ("price", -0.7)]%Q = Ok session
    ∧ dict_keys session = ["ambiance"; "price"]
    ∧ Forall (λ kv, unit_interval kv.2) session
    ∧ ∀ k, dict_get k session
           = (λ b, clamp (b + dict_get_default k 0
                                [("ambiance", 0.5); ("price", -0.7)]%Q)%Q)
             <$> dict_get k [("ambiance", 0.8); ("price", 0.5)]%Q.
Proof. apply session_profile_clamped. decide_compute. Defined.

(** C30: the flat [match_score] is the scalar stage of the sectioned
    scorer: on profiles that have only a scalars section the two return
    the same score. *)
Theorem legacy_is_scalar_stage user venue :
  dict_wf user →
  Engine.match_score (as_profile user) (as_profile venue)
  ≡ Some <$> match_score user venue.
Proof.
  intros Hwf. destruct (flat_score_Ok user venue Hwf) as (q & -> & Hq).
  destruct (Engine.match_score_Ok (as_profile user) (as_profile venue))
    as (r & -> & Hr).
  constructor. rewrite Hr. unfold Engine.score_spec. simpl. constructor.
  unfold_Qequiv. rewrite Hq. unfold Engine.categorical_total. simpl. lra.
Qed.

Lemma legacy_is_scalar_stage_witness :
  Engine.match_score (as_profile [("ambiance", 0.8); ("price", 0.5)]%Q)
                     (as_profile [("ambiance", 1.0); ("price", 0.2)]%Q)
  ≡ Some <$> match_score [("ambiance", 0.8); ("price", 0.5)]%Q
                         [("ambiance", 1.0); ("price", 0.2)]%Q.
Proof. apply legacy_is_scalar_stage. decide_compute. Defined.

(** C33: with the three files in place the script prints every venue
    exactly once, in descending score order with ties in file order,
    each with the dot product of the session profile and the venue. *)
Theorem main_ranks_all_venues base modifier venues out :
  dict_wf base →
  main {| base_profile_json := Some base; context_modifier_json := Some modifier;
          venues_json := Some venues |} = Ok out →
  (printed_scores out).*1 ≡ₚ dict_keys venues
  ∧ StronglySorted score_ge (printed_scores out)
  ∧ ∀ name q, (name, q) ∈ printed_scores out →
      ∃ v, (name, v) ∈ venues ∧ (q == Engine.dot (session out) v)%Q.
Proof.
  intros Hwf. rewrite main_Ok by done. intros [= <-]. simpl. split_and!.
  - by rewrite rank_scores_Permutation, qualified_all.
  - apply rank_scores_sorted.
  - intros name q (v & Hin & Hs)%rank_scores_elem%elem_of_qualified.
    exists v. split; [done|]. unfold score, legacy_scorer in Hs.
    destruct (flat_score_Ok (session_spec base modifier) v) as (q' & Hq' & Hdot).
    { by apply session_spec_wf. }
    rewrite Hq' in Hs. by simplify_eq/=.
Qed.

Definition base_ex : dict Q := [("ambiance", 0.8); ("price", 0.5)]%Q.
Definition modifier_ex : dict Q := [("price", 0.7)]%Q.
Definition venues_ex : dict (dict Q) :=
  [("B", [("ambiance", 0.3); ("price", 1.0)]%Q);
   ("A", [("ambiance", 1.0); ("price", 0.2)]%Q)].

Lemma main_ranks_all_venues_witness :
  ∃ out,
    main {| base_profile_json := Some base_ex;
            context_modifier_json := Some modifier_ex;
            venues_json := Some venues_ex |} = Ok out
    ∧ (printed_scores out).*1 ≡ₚ dict_keys venues_ex
    ∧ StronglySorted score_ge (printed_scores out)
    ∧ ∀ name q, (name, q) ∈ printed_scores out →
        ∃ v, (name, v) ∈ venues_ex
             ∧ (q == Engine.dot (session out) v)%Q.
Proof.
  eexists. split; [vm_compute; reflexivity|].
  apply (main_ranks_all_venues base_ex modifier_ex venues_ex);
    [decide_compute | vm_compute; reflexivity].
Defined.

(** C37: the script fails exactly when one of its three files is
    missing, with [FileNotFoundError] for the first missing file in the
    order base profile, context modifier, venues; nothing else raises. *)
Theorem main_raises_iff fs e :
  main fs = Raise e ↔
  (base_profile_json fs = None ∧ e = FileNotFoundError "base_profile.json")
  ∨ (is_Some (base_profile_json fs) ∧ context_modifier_json fs = None
     ∧ e = FileNotFoundError "context_modifier.json")
  ∨ (is_Some (base_profile_json fs) ∧ is_Some (context_modifier_json fs)
     ∧ venues_json fs = None ∧ e = FileNotFoundError "venues.json").
Proof.
  destruct fs as [[base|] [modifier|] [venues|]]; unfold main; simpl;
    try (destruct (session_profile_total base modifier) as [s ->]; simpl);
    rewrite ?scores_loop_total; simpl;
    (split; [try done; intros [= <-]; eauto 10|]);
    intros [[??]|[(?&?&?)|(?&?&?&?)]]; simplify_eq/=;
    try done; by (exfalso; eapply is_Some_None).
Qed.

End Legacy.
