(* ===== verification/Streamlit.v ===== *)
(** * Streamlit: one run of a script

    Streamlit runs a script from top to bottom each time the user
    touches a widget.  A widget call returns the value the browser holds
    for it, or its default when the user has not touched it; a button
    returns [True] in the run its click started.  [st.rerun()] stops the
    run and starts a new one.

    [ui] is what the browser sends with a run: the values of the widgets
    the user has set, by label, and the buttons clicked.  The browser
    only sends values the widget offers, so a value out of range or not
    among the options is ignored and the default is used.  A widget
    whose default is not a value it offers raises
    [StreamlitAPIException], as the library does. *)

From S2P Require Import Prelude PyDict PyStr.

(** ** The state of the widgets *)

Record ui : Type := mkUi {
  slider_state : gmap string Q;
  text_state : gmap string string;
  checkbox_state : gmap string bool;
  select_state : gmap string string;
  multiselect_state : gmap string (list string);
  clicked : gset string;
  number_state : gmap string Z;
}.

(** A run in which the user has touched nothing. *)
Definition no_input : ui := mkUi ∅ ∅ ∅ ∅ ∅ ∅ ∅.

(** ** What a run shows and how it ends *)

Inductive element : Type :=
| Title (body : string)
| Header (body : string)
| Subheader (body : string)
| Divider
| Markdown (body : string)
| Info (body : string)
| Warning (body : string)
| Error (body : string)
| Success (body : string).

Inductive outcome : Type :=
| Done
| Rerun.

#[export] Instance element_eq_dec : EqDecision element.
Proof. solve_decision. Defined.
#[export] Instance outcome_eq_dec : EqDecision outcome.
Proof. solve_decision. Defined.

(** ** Widgets *)

Definition in_range (min_value max_value x : Q) : bool :=
  bool_decide (min_value <= x)%Q && bool_decide (x <= max_value)%Q.

(** [st.slider(label, min_value, max_value, value, step)]. *)
Definition slider (u : ui) (label : string) (min_value max_value value step : Q)
    : result Q :=
  if in_range min_value max_value value then
    Ok (match slider_state u !! label with
        | Some x => if in_range min_value max_value x then x else value
        | None => value
        end)
  else Raise (StreamlitAPIException label).

(** [st.number_input(label, min_value, max_value, value, step)] on
    integers. *)
Definition number_input (u : ui) (label : string) (min_value max_value value step : Z)
    : result Z :=
  if bool_decide (min_value ≤ value ≤ max_value)%Z then
    Ok (match number_state u !! label with
        | Some x => if bool_decide (min_value ≤ x ≤ max_value)%Z then x else value
        | None => value
        end)
  else Raise (StreamlitAPIException label).

(** [st.checkbox(label, value)]. *)
Definition checkbox (u : ui) (label : string) (value : bool) : bool :=
  default value (checkbox_state u !! label).

(** [st.text_input(label, value)]. *)
Definition text_input (u : ui) (label : string) (value : string) : string :=
  default value (text_state u !! label).

(** [st.button(label)]. *)
Definition button (u : ui) (label : string) : bool :=
  bool_decide (label ∈ clicked u).

Definition all_in (options selection : list string) : bool :=
  forallb (λ x, bool_decide (x ∈ options)) selection.

(** [st.multiselect(label, options, default)]. *)
Definition multiselect (u : ui) (label : string) (options default_ : list string)
    : result (list string) :=
  if all_in options default_ then
    Ok (match multiselect_state u !! label with
        | Some selection => if all_in options selection then selection else default_
        | None => default_
        end)
  else Raise (StreamlitAPIException label).

(** [st.selectbox(label, [first] + rest, index)]: every call of the
    program offers at least one option. *)
Definition selectbox (u : ui) (label first : string) (rest : list string)
    (index : nat) : result string :=
  let options := first :: rest in
  match options !! index with
  | Some initial =>
      Ok (match select_state u !! label with
          | Some choice => if bool_decide (choice ∈ options) then choice else initial
          | None => initial
          end)
  | None => Raise (StreamlitAPIException label)
  end.

(** [st.radio(label, [first] + rest, index)]: the choice is held like
    that of a select box. *)
Definition radio (u : ui) (label first : string) (rest : list string)
    (index : nat) : result string :=
  selectbox u label first rest index.

(** ** Sliders *)

Lemma in_range_spec lo hi x : in_range lo hi x = true ↔ (lo <= x <= hi)%Q.
Proof.
  unfold in_range. by rewrite andb_true_iff, !bool_decide_eq_true.
Qed.

Lemma in_range_false lo hi x : in_range lo hi x = false ↔ ¬ (lo <= x <= hi)%Q.
Proof. rewrite <- in_range_spec. by destruct (in_range lo hi x). Qed.

Lemma slider_is_ok u label lo hi value step :
  is_ok (slider u label lo hi value step) = in_range lo hi value.
Proof. unfold slider. by destruct (in_range lo hi value). Qed.

Lemma slider_Raise u label lo hi value step e :
  slider u label lo hi value step = Raise e →
  ¬ (lo <= value <= hi)%Q ∧ e = StreamlitAPIException label.
Proof.
  unfold slider. destruct (in_range lo hi value) eqn:E; [done|].
  intros [= <-]. by apply in_range_false in E.
Qed.

Lemma slider_range u label lo hi value step x :
  slider u label lo hi value step = Ok x → (lo <= x <= hi)%Q.
Proof.
  unfold slider. destruct (in_range lo hi value) eqn:E; [|done].
  intros [= <-]. destruct (slider_state u !! label) as [y|]; [|by apply in_range_spec].
  destruct (in_range lo hi y) eqn:Ey; by apply in_range_spec.
Qed.

Lemma slider_untouched u label lo hi value step :
  slider_state u !! label = None → (lo <= value <= hi)%Q →
  slider u label lo hi value step = Ok value.
Proof.
  unfold slider. intros -> H. by apply in_range_spec in H as ->.
Qed.

Lemma slider_moved u label lo hi value step x :
  slider_state u !! label = Some x → (lo <= value <= hi)%Q → (lo <= x <= hi)%Q →
  slider u label lo hi value step = Ok x.
Proof.
  unfold slider. intros -> H Hx.
  by apply in_range_spec in H as ->; apply in_range_spec in Hx as ->.
Qed.

(** A slider shown again with the value it returned returns it again. *)
Lemma slider_idemp u label lo hi value step x :
  slider u label lo hi value step = Ok x → slider u label lo hi x step = Ok x.
Proof.
  intros H. pose proof (slider_range _ _ _ _ _ _ _ H) as Hx. revert H.
  unfold slider. apply in_range_spec in Hx as ->.
  destruct (in_range lo hi value); [|done].
  destruct (slider_state u !! label) as [y|]; [|done].
  by destruct (in_range lo hi y).
Qed.

Lemma checkbox_idemp u label value :
  checkbox u label (checkbox u label value) = checkbox u label value.
Proof. unfold checkbox. by destruct (checkbox_state u !! label). Qed.

(** ** Number inputs *)

Lemma number_input_range u label lo hi value step x :
  number_input u label lo hi value step = Ok x → (lo ≤ x ≤ hi)%Z.
Proof.
  unfold number_input. case_bool_decide as Hv; [|done]. intros [= <-].
  destruct (number_state u !! label) as [y|]; [|done]. by case_bool_decide.
Qed.

Lemma number_input_Raise u label lo hi value step e :
  number_input u label lo hi value step = Raise e →
  ¬ (lo ≤ value ≤ hi)%Z ∧ e = StreamlitAPIException label.
Proof. unfold number_input. case_bool_decide; [done|]. by intros [= <-]. Qed.

Lemma number_input_Ok u label lo hi value step :
  (lo ≤ value ≤ hi)%Z → ∃ x, number_input u label lo hi value step = Ok x.
Proof. unfold number_input. intros H. rewrite bool_decide_true by done. eauto. Qed.

Lemma number_input_untouched u label lo hi value step :
  number_state u !! label = None → (lo ≤ value ≤ hi)%Z →
  number_input u label lo hi value step = Ok value.
Proof. unfold number_input. intros -> H. by rewrite bool_decide_true. Qed.

Lemma number_input_set u label lo hi value step x :
  number_state u !! label = Some x → (lo ≤ value ≤ hi)%Z → (lo ≤ x ≤ hi)%Z →
  number_input u label lo hi value step = Ok x.
Proof. unfold number_input. intros -> H Hx. by rewrite !bool_decide_true. Qed.

(** ** Selections *)

Lemma all_in_spec options selection :
  all_in options selection = true ↔ selection ⊆ options.
Proof.
  unfold all_in, subseteq, list_subseteq.
  induction selection as [|x l IH]; simpl.
  - split; [by intros _ y ?%not_elem_of_nil|done].
  - rewrite andb_true_iff, bool_decide_eq_true, IH.
    setoid_rewrite elem_of_cons. split.
    + intros [Hx Hl] y [->|Hy]; auto.
    + intros H. split; [apply H; by left|]. intros y Hy. apply H. by right.
Qed.

Lemma all_in_nil options : all_in options [] = true.
Proof. done. Qed.

Lemma multiselect_is_ok u label options default_ :
  is_ok (multiselect u label options default_) = all_in options default_.
Proof. unfold multiselect. by destruct (all_in options default_). Qed.

Lemma multiselect_Raise u label options default_ e :
  multiselect u label options default_ = Raise e →
  ¬ default_ ⊆ options ∧ e = StreamlitAPIException label.
Proof.
  unfold multiselect. destruct (all_in options default_) eqn:E; [done|].
  intros [= <-]. split; [|done]. rewrite <- all_in_spec. congruence.
Qed.

Lemma multiselect_subseteq u label options default_ selection :
  multiselect u label options default_ = Ok selection → selection ⊆ options.
Proof.
  unfold multiselect. destruct (all_in options default_) eqn:E; [|done].
  intros [= <-]. destruct (multiselect_state u !! label) as [sel|];
    [|by apply all_in_spec].
  destruct (all_in options sel) eqn:Es; by apply all_in_spec.
Qed.

Lemma multiselect_untouched u label options default_ :
  multiselect_state u !! label = None → default_ ⊆ options →
  multiselect u label options default_ = Ok default_.
Proof.
  unfold multiselect. intros -> H. by apply all_in_spec in H as ->.
Qed.

Lemma multiselect_chosen u label options default_ selection :
  multiselect_state u !! label = Some selection →
  default_ ⊆ options → selection ⊆ options →
  multiselect u label options default_ = Ok selection.
Proof.
  unfold multiselect. intros -> H Hs.
  by apply all_in_spec in H as ->; apply all_in_spec in Hs as ->.
Qed.

Lemma multiselect_idemp u label options default_ selection :
  multiselect u label options default_ = Ok selection →
  multiselect u label options selection = Ok selection.
Proof.
  intros H. pose proof (multiselect_subseteq _ _ _ _ _ H) as Hs. revert H.
  unfold multiselect. apply all_in_spec in Hs as ->.
  destruct (all_in options default_); [|done].
  destruct (multiselect_state u !! label) as [y|]; [|done].
  by destruct (all_in options y).
Qed.

Lemma selectbox_0 u label first rest :
  ∃ choice, selectbox u label first rest 0 = Ok choice ∧ choice ∈ first :: rest.
Proof.
  unfold selectbox. simpl. eexists; split; [done|].
  destruct (select_state u !! label) as [c|]; [|by left].
  case_bool_decide; [done|by left].
Qed.

Lemma selectbox_elem u label first rest index choice :
  selectbox u label first rest index = Ok choice → choice ∈ first :: rest.
Proof.
  unfold selectbox. destruct ((first :: rest) !! index) as [i|] eqn:E; [|done].
  intros [= <-]. apply list_elem_of_lookup_2 in E.
  destruct (select_state u !! label) as [c|]; [|done]. by case_bool_decide.
Qed.

Lemma selectbox_untouched u label first rest :
  select_state u !! label = None → selectbox u label first rest 0 = Ok first.
Proof. unfold selectbox. by intros ->. Qed.

Lemma selectbox_initial u label first rest index initial :
  select_state u !! label = None → (first :: rest) !! index = Some initial →
  selectbox u label first rest index = Ok initial.
Proof. unfold selectbox. by intros -> ->. Qed.

Lemma selectbox_chosen u label first rest index choice :
  select_state u !! label = Some choice → choice ∈ first :: rest →
  index < S (length rest) →
  selectbox u label first rest index = Ok choice.
Proof.
  unfold selectbox. intros -> Hin Hi.
  destruct (lookup_lt_is_Some_2 (first :: rest) index Hi) as [i ->].
  by rewrite bool_decide_true.
Qed.

Lemma button_untouched label : button no_input label = false.
Proof. done. Qed.

(** ** What the widgets raise *)

Lemma slider_expected u label lo hi value step :
  raises_within expected (slider u label lo hi value step).
Proof. by intros e [_ ->]%slider_Raise. Qed.

Lemma number_input_expected u label lo hi value step :
  raises_within expected (number_input u label lo hi value step).
Proof. by intros e [_ ->]%number_input_Raise. Qed.

Lemma multiselect_expected u label options default_ :
  raises_within expected (multiselect u label options default_).
Proof. by intros e [_ ->]%multiselect_Raise. Qed.

Lemma selectbox_expected u label first rest index :
  raises_within expected (selectbox u label first rest index).
Proof.
  intros e. unfold selectbox. by destruct ((first :: rest) !! index); [|intros [= <-]].
Qed.

Lemma radio_expected u label first rest index :
  raises_within expected (radio u label first rest index).
Proof. apply selectbox_expected. Qed.

#[export] Hint Resolve slider_range multiselect_subseteq selectbox_elem : py.
#[export] Hint Resolve slider_expected number_input_expected multiselect_expected
  selectbox_expected radio_expected : raises.
