(* ===== verification/Helpers.v ===== *)
(** * The JSON files: [src/helpers.py]

    The program keeps its data in JSON files.  [store] is the content of
    the files and directories it reads and writes, each file at the type
    the program expects of it; [None] is a file or directory that does
    not exist.  A [file] names one of them: its path, how it is read and
    written, and whether its directory exists, for [open(path, 'w')]
    raises when it does not.  [FileLaws] and [Independent] are the laws
    of a file system the views rely on: what is written is what is read
    next, and writing one file leaves the others alone.

    The directory [users/] lists its entries in the order of the dict
    that models it; a new directory goes last.

    [Helpers] is [src/helpers.py]. *)

From S2P Require Import Prelude PyDict Profile.

(** [users/<name>/]: the profile of the user and the directory of
    scenario templates, [templates/<template>.json]. *)
Record user_dir : Type := mkUserDir {
  base_profile_content : option Profile;
  templates_content : option (dict Profile);
}.

Record store : Type := mkStore {
  venues_content : option (dict Profile);
  scalars_content : option (list string);
  tags_content : option (list string);
  categoricals_content : option (dict (list string));
  defaults_content : option Profile;
  users_content : option (dict user_dir);
}.

Record file (A : Type) : Type := mkFile {
  path : string;
  read : store → option A;
  write : A → store → store;
  writable : store → bool;
}.
Arguments mkFile {A} path read write writable.
Arguments path {A} f.
Arguments read {A} f fs.
Arguments write {A} f data fs.
Arguments writable {A} f fs.

Definition venues_json : file (dict Profile) :=
  mkFile "venues.json" venues_content
    (λ data fs, mkStore (Some data) (scalars_content fs) (tags_content fs)
                  (categoricals_content fs) (defaults_content fs) (users_content fs))
    (λ _, true).

Definition scalars_json : file (list string) :=
  mkFile "scalars.json" scalars_content
    (λ data fs, mkStore (venues_content fs) (Some data) (tags_content fs)
                  (categoricals_content fs) (defaults_content fs) (users_content fs))
    (λ _, true).

Definition tags_json : file (list string) :=
  mkFile "tags.json" tags_content
    (λ data fs, mkStore (venues_content fs) (scalars_content fs) (Some data)
                  (categoricals_content fs) (defaults_content fs) (users_content fs))
    (λ _, true).

Definition categoricals_json : file (dict (list string)) :=
  mkFile "categoricals.json" categoricals_content
    (λ data fs, mkStore (venues_content fs) (scalars_content fs) (tags_content fs)
                  (Some data) (defaults_content fs) (users_content fs))
    (λ _, true).

(** [defaults/base_profile.json]; the program only reads it. *)
Definition default_profile_json : file Profile :=
  mkFile "defaults/base_profile.json" defaults_content
    (λ data fs, mkStore (venues_content fs) (scalars_content fs) (tags_content fs)
                  (categoricals_content fs) (Some data) (users_content fs))
    (λ fs, bool_decide (is_Some (defaults_content fs))).

Definition set_users (users : dict user_dir) (fs : store) : store :=
  mkStore (venues_content fs) (scalars_content fs) (tags_content fs)
          (categoricals_content fs) (defaults_content fs) (Some users).

(** The directory of a user, when it exists. *)
Definition user_lookup (username : string) (fs : store) : option user_dir :=
  users_content fs ≫= dict_get username.

(** A change inside the directory of a user that exists. *)
Definition user_update (username : string) (f : user_dir → user_dir) (fs : store)
    : store :=
  match users_content fs with
  | Some users =>
      match dict_get username users with
      | Some d => set_users (dict_set username (f d) users) fs
      | None => fs
      end
  | None => fs
  end.

(** [users/<username>/base_profile.json]. *)
Definition user_profile_json (username : string) : file Profile :=
  mkFile ("users/" +:+ username +:+ "/base_profile.json")
    (λ fs, user_lookup username fs ≫= base_profile_content)
    (λ data, user_update username (λ d, mkUserDir (Some data) (templates_content d)))
    (λ fs, bool_decide (is_Some (user_lookup username fs))).

(** [users/<username>/templates/<name>.json]. *)
Definition template_json (username name : string) : file Profile :=
  mkFile ("users/" +:+ username +:+ "/templates/" +:+ name +:+ ".json")
    (λ fs, d ← user_lookup username fs; ts ← templates_content d; dict_get name ts)
    (λ data, user_update username
               (λ d, mkUserDir (base_profile_content d)
                       (dict_set name data <$> templates_content d)))
    (λ fs, bool_decide (is_Some (user_lookup username fs ≫= templates_content))).

(** [os.makedirs(f'users/{username}', exist_ok=True)]. *)
Definition makedirs_user (username : string) (fs : store) : store :=
  set_users (dict_setdefault username (mkUserDir None None)
               (default [] (users_content fs))) fs.

(** [os.makedirs(f'users/{username}/templates', exist_ok=True)]. *)
Definition makedirs_templates (username : string) (fs : store) : store :=
  user_update username
    (λ d, mkUserDir (base_profile_content d) (Some (default [] (templates_content d))))
    (makedirs_user username fs).

(** The laws of one file, and of two different files. *)
Class FileLaws {A} (f : file A) : Prop := {
  read_write data fs : writable f fs = true → read f (write f data fs) = Some data;
  write_write data data' fs : write f data' (write f data fs) = write f data' fs;
  write_read data fs : read f fs = Some data → write f data fs = fs;
  writable_write data fs : writable f fs = true → writable f (write f data fs) = true;
  read_writable fs : is_Some (read f fs) → writable f fs = true;
}.

Class Independent {A B} (f : file A) (g : file B) : Prop :=
  read_write_other data fs : read g (write f data fs) = read g fs.

Module Helpers.

(** [load_json(filename)]: [open] raises when the file does not exist. *)
Definition load_json {A} (f : file A) (fs : store) : result A :=
  match read f fs with
  | Some data => Ok data
  | None => Raise (FileNotFoundError (path f))
  end.

(** [save_json(filename, data)]: [open] raises when the directory does
    not exist. *)
Definition save_json {A} (f : file A) (data : A) (fs : store) : result store :=
  if writable f fs then Ok (write f data fs)
  else Raise (FileNotFoundError (path f)).

Definition load_categorical_options : store → result (dict (list string)) :=
  load_json categoricals_json.

Definition load_scalar_traits : store → result (list string) :=
  load_json scalars_json.

Definition load_tag_options : store → result (list string) :=
  load_json tags_json.

End Helpers.

(** ** The files obey the laws *)

Ltac file_laws :=
  split; [done..|intros data [] H; simpl in *; by subst|done|done].

#[export] Instance venues_json_laws : FileLaws venues_json.
Proof. file_laws. Qed.
#[export] Instance scalars_json_laws : FileLaws scalars_json.
Proof. file_laws. Qed.
#[export] Instance tags_json_laws : FileLaws tags_json.
Proof. file_laws. Qed.
#[export] Instance categoricals_json_laws : FileLaws categoricals_json.
Proof. file_laws. Qed.

#[export] Instance venues_scalars : Independent venues_json scalars_json.
Proof. done. Qed.
#[export] Instance venues_tags : Independent venues_json tags_json.
Proof. done. Qed.
#[export] Instance venues_categoricals : Independent venues_json categoricals_json.
Proof. done. Qed.

(** ** User directories *)

Lemma user_lookup_update username f fs :
  user_lookup username (user_update username f fs) = f <$> user_lookup username fs.
Proof.
  unfold user_lookup, user_update.
  destruct (users_content fs) as [users|] eqn:Hu; [|by rewrite Hu].
  simpl. destruct (dict_get username users) as [d|] eqn:E; simpl.
  - by rewrite dict_get_set_eq.
  - by rewrite Hu; simpl; rewrite E.
Qed.

Lemma user_lookup_update_ne username username' f fs :
  username ≠ username' →
  user_lookup username' (user_update username f fs) = user_lookup username' fs.
Proof.
  intros Hne. unfold user_lookup, user_update.
  destruct (users_content fs) as [users|] eqn:Hu; [|by rewrite Hu].
  destruct (dict_get username users) as [d|]; simpl; [|by rewrite Hu].
  by rewrite dict_get_set_ne.
Qed.

Lemma user_update_update username f g h fs :
  (∀ d, g (f d) = h d) →
  user_update username g (user_update username f fs) = user_update username h fs.
Proof.
  intros Hh. unfold user_update.
  destruct (users_content fs) as [users|] eqn:Hu; [|by rewrite Hu].
  destruct (dict_get username users) as [d|] eqn:E; simpl; [|by rewrite Hu, E].
  by rewrite dict_get_set_eq, dict_set_set, Hh.
Qed.

Lemma user_update_id username f fs :
  (∀ d, user_lookup username fs = Some d → f d = d) → user_update username f fs = fs.
Proof.
  unfold user_lookup, user_update. intros Hf.
  destruct fs as [? ? ? ? ? [users|]]; simpl in *; [|done].
  destruct (dict_get username users) as [d|] eqn:E; [|done].
  unfold set_users. simpl. by rewrite (Hf d), dict_set_same.
Qed.

Lemma user_update_others username f fs :
  venues_content (user_update username f fs) = venues_content fs
  ∧ scalars_content (user_update username f fs) = scalars_content fs
  ∧ tags_content (user_update username f fs) = tags_content fs
  ∧ categoricals_content (user_update username f fs) = categoricals_content fs
  ∧ defaults_content (user_update username f fs) = defaults_content fs.
Proof.
  unfold user_update. destruct (users_content fs) as [users|]; [|done].
  by destruct (dict_get username users).
Qed.

Lemma user_lookup_makedirs username fs :
  user_lookup username (makedirs_user username fs)
  = Some (default (mkUserDir None None) (user_lookup username fs)).
Proof.
  unfold user_lookup, makedirs_user. simpl. rewrite dict_get_setdefault.
  rewrite decide_True by done.
  destruct (users_content fs) as [users|]; simpl; [|done].
  by destruct (dict_get username users).
Qed.

Lemma user_lookup_makedirs_ne username username' fs :
  username ≠ username' →
  user_lookup username' (makedirs_user username fs) = user_lookup username' fs.
Proof.
  intros Hne. unfold user_lookup, makedirs_user, dict_setdefault. simpl.
  destruct (users_content fs) as [users|]; simpl.
  - destruct (dict_get username users); [done|]. by rewrite dict_get_set_ne.
  - by rewrite decide_False.
Qed.

Lemma makedirs_user_others username fs :
  venues_content (makedirs_user username fs) = venues_content fs
  ∧ scalars_content (makedirs_user username fs) = scalars_content fs
  ∧ tags_content (makedirs_user username fs) = tags_content fs
  ∧ categoricals_content (makedirs_user username fs) = categoricals_content fs
  ∧ defaults_content (makedirs_user username fs) = defaults_content fs.
Proof. done. Qed.

Lemma makedirs_templates_others username fs :
  venues_content (makedirs_templates username fs) = venues_content fs
  ∧ scalars_content (makedirs_templates username fs) = scalars_content fs
  ∧ tags_content (makedirs_templates username fs) = tags_content fs
  ∧ categoricals_content (makedirs_templates username fs) = categoricals_content fs
  ∧ defaults_content (makedirs_templates username fs) = defaults_content fs.
Proof.
  unfold makedirs_templates.
  destruct (user_update_others username
    (λ d, mkUserDir (base_profile_content d) (Some (default [] (templates_content d))))
    (makedirs_user username fs)) as (-> & -> & -> & -> & ->).
  apply makedirs_user_others.
Qed.

(** The directory of templates exists once it is made, with the
    templates it had. *)
Lemma makedirs_templates_lookup username fs :
  user_lookup username (makedirs_templates username fs)
  = Some (mkUserDir (user_lookup username fs ≫= base_profile_content)
            (Some (default [] (user_lookup username fs ≫= templates_content)))).
Proof.
  unfold makedirs_templates. rewrite user_lookup_update, user_lookup_makedirs.
  by destruct (user_lookup username fs) as [[p ts]|].
Qed.

(** Making the directory of templates adds and removes no template. *)
Lemma makedirs_templates_read username name fs :
  read (template_json username name) (makedirs_templates username fs)
  = read (template_json username name) fs.
Proof.
  simpl. rewrite makedirs_templates_lookup. simpl.
  by destruct (user_lookup username fs) as [[p [ts|]]|].
Qed.

Lemma makedirs_templates_idemp username fs :
  makedirs_templates username (makedirs_templates username fs)
  = makedirs_templates username fs.
Proof.
  unfold makedirs_templates at 1. unfold makedirs_user, dict_setdefault.
  pose proof (makedirs_templates_lookup username fs) as Hl.
  unfold user_lookup in Hl at 1.
  destruct (users_content (makedirs_templates username fs)) as [users|] eqn:Hu;
    [|done]. simpl in *. rewrite Hl.
  assert (set_users users (makedirs_templates username fs)
          = makedirs_templates username fs) as ->.
  { destruct (makedirs_templates username fs). simpl in *. by subst. }
  apply user_update_id. intros d. unfold user_lookup. rewrite Hu. simpl.
  rewrite Hl. by intros [= <-].
Qed.

Lemma makedirs_templates_lookup_ne username username' fs :
  username ≠ username' →
  user_lookup username' (makedirs_templates username fs) = user_lookup username' fs.
Proof.
  intros Hne. unfold makedirs_templates.
  by rewrite user_lookup_update_ne, user_lookup_makedirs_ne.
Qed.

#[export] Instance user_profile_json_laws username : FileLaws (user_profile_json username).
Proof.
  split; simpl.
  - intros data fs [d Hd]%bool_decide_eq_true. by rewrite user_lookup_update, Hd.
  - intros. by apply user_update_update.
  - intros data fs Hr. apply user_update_id. intros [p ts] Hd.
    rewrite Hd in Hr. simpl in Hr. by subst.
  - intros data fs [d Hd]%bool_decide_eq_true. apply bool_decide_eq_true.
    by rewrite user_lookup_update, Hd.
  - intros fs [p Hp]. apply bool_decide_eq_true.
    by destruct (user_lookup username fs).
Qed.

#[export] Instance template_json_laws username name :
  FileLaws (template_json username name).
Proof.
  split; simpl.
  - intros data fs [ts Hts]%bool_decide_eq_true. rewrite user_lookup_update.
    destruct (user_lookup username fs) as [[p [ts'|]]|]; simplify_eq/=.
    apply dict_get_set_eq.
  - intros. apply user_update_update. intros [p [ts|]]; simpl; [|done].
    by rewrite dict_set_set.
  - intros data fs Hr. apply user_update_id. intros [p ts] Hd.
    rewrite Hd in Hr. simpl in *. destruct ts as [ts|]; simplify_eq/=.
    by rewrite dict_set_same.
  - intros data fs [ts Hts]%bool_decide_eq_true. apply bool_decide_eq_true.
    rewrite user_lookup_update.
    by destruct (user_lookup username fs) as [[p [ts'|]]|]; simplify_eq/=.
  - intros fs [p Hp]. apply bool_decide_eq_true.
    by destruct (user_lookup username fs) as [[? [ts|]]|]; simplify_eq/=.
Qed.

Section helpers_lemmas.
Context {A : Type} (f : file A) `{!FileLaws f}.

Lemma load_json_Some fs data : read f fs = Some data → Helpers.load_json f fs = Ok data.
Proof. unfold Helpers.load_json. by intros ->. Qed.

Lemma load_json_Ok_inv fs data : Helpers.load_json f fs = Ok data → read f fs = Some data.
Proof. unfold Helpers.load_json. destruct (read f fs); by intros [= <-]. Qed.

Lemma load_json_Raise_inv fs e :
  Helpers.load_json f fs = Raise e → read f fs = None ∧ e = FileNotFoundError (path f).
Proof. unfold Helpers.load_json. destruct (read f fs); by intros [= <-]. Qed.

Lemma load_json_None fs :
  read f fs = None → Helpers.load_json f fs = Raise (FileNotFoundError (path f)).
Proof. unfold Helpers.load_json. by intros ->. Qed.

Lemma load_json_is_ok fs : is_ok (Helpers.load_json f fs) = true ↔ is_Some (read f fs).
Proof.
  unfold Helpers.load_json. destruct (read f fs); simpl; [by split|].
  split; [done|by intros []].
Qed.

Lemma save_json_Ok_inv data fs fs' :
  Helpers.save_json f data fs = Ok fs' → writable f fs = true ∧ fs' = write f data fs.
Proof. unfold Helpers.save_json. destruct (writable f fs); by intros [= <-]. Qed.

(** What is saved is what is loaded next. *)
Lemma load_save_json data fs fs' :
  Helpers.save_json f data fs = Ok fs' → Helpers.load_json f fs' = Ok data.
Proof.
  intros [Hw ->]%save_json_Ok_inv. unfold Helpers.load_json.
  by rewrite read_write.
Qed.

(** Saving what was loaded changes nothing. *)
Lemma save_load_json data fs :
  Helpers.load_json f fs = Ok data → Helpers.save_json f data fs = Ok fs.
Proof.
  intros Hr%load_json_Ok_inv. unfold Helpers.save_json.
  rewrite read_writable by by rewrite Hr. f_equal. by apply write_read.
Qed.

Lemma load_json_other {B} (g : file B) `{!Independent f g} data fs fs' :
  Helpers.save_json f data fs = Ok fs' →
  Helpers.load_json g fs' = Helpers.load_json g fs.
Proof.
  intros [_ ->]%save_json_Ok_inv. unfold Helpers.load_json.
  by rewrite read_write_other.
Qed.

End helpers_lemmas.

(** ** What the loaders raise *)

Lemma load_json_expected {A} (f : file A) fs :
  raises_within expected (Helpers.load_json f fs).
Proof. by intros e [_ ->]%load_json_Raise_inv. Qed.

Lemma load_categorical_options_expected fs :
  raises_within expected (Helpers.load_categorical_options fs).
Proof. apply load_json_expected. Qed.

#[export] Hint Resolve load_json_expected load_categorical_options_expected : raises.
