(* ===== verification/VenueManager.v ===== *)
(** * The venue manager: [src/venue_manager.py]

    One run of [venue_management_view]: the venues are loaded, the user
    picks one (or the entry for a new venue), the form shows one widget
    per trait, tag and category of the three schema files, and the two
    buttons save or delete.

    The dict [venues] holds references to the venue objects, and the
    form writes the widget values into the object picked as it goes, so
    the model runs on a heap ([PyObj.v]): [venue_data] is a location.
    [view_refines] shows that the run equals [view_spec], which has no
    heap: the form is a function from the stored venue to the edited one
    ([edit_form]) and the dict that gets saved is written with
    assignments of values.  The properties of the view are then proved
    on [view_spec]. *)

From S2P Require Import Prelude PyDict PySort PyStr PyObj Profile Streamlit Helpers.

Module VenueManager.

(** ** The code *)

Definition VENUE_FILE : file (dict Profile) := venues_json.

(** [load_venues()]: no file is the empty dict. *)
Definition load_venues (fs : store) : dict Profile :=
  match read VENUE_FILE fs with
  | Some data => data
  | None => []
  end.

(** [save_venues(venues)]. *)
Definition save_venues (venues : dict Profile) (fs : store) : store :=
  write VENUE_FILE venues fs.

(** The body of the loop over the scalar traits. *)
Definition scalars_row (u : ui) (venue_data : Profile) (trait : string)
    : result Profile :=
  let default_val := dict_get_default trait (1 # 2) (section (scalars venue_data)) in
  value ← slider u (label_of trait) 0 1 default_val (1 # 10);
  Ok (set_scalar trait value venue_data).

(** The body of the loop over the tags. *)
Definition tags_row (u : ui) (venue_data : Profile) (tag : string)
    : result Profile :=
  let default_ := dict_get_default tag 0%Z (section (tags venue_data)) in
  Ok (set_tag tag
        (if checkbox u (label_of tag) (bool_decide (default_ = 1%Z)) then 1%Z else 0%Z)
        venue_data).

(** The body of the loop over the categories. *)
Definition categoricals_row (u : ui) (venue_data : Profile)
    (item : string * list string) : result Profile :=
  let '(cat, choices) := item in
  selected ← multiselect u (label_of cat) choices
               (dict_get_default cat [] (section (categoricals venue_data)));
  Ok (set_categorical cat selected venue_data).

(** What a run leaves behind. *)
Record run : Type := mkRun {
  files : store;
  shown : list element;
  ending : outcome;
}.

Definition select_label : string := "Select venue to edit".
Definition add_new : string := "Add new venue...".
Definition save_label : string := "🗒 Save Venue".
Definition delete_label : string := "🗑 Delete Venue".

Definition saved_message (venue_name : string) : element :=
  Success ("Venue '" +:+ venue_name +:+ "' saved.").
Definition deleted_message (selected_name : string) : element :=
  Success ("Venue '" +:+ selected_name +:+ "' deleted.").

(** The two columns of buttons, on the heap the form has left. *)
Definition buttons (u : ui) (fs : store) (out : list element) (h : list Profile)
    (venues : dict loc) (selected_name venue_name : string) (is_new : bool)
    (venue_data : loc) : run :=
  let col2 out :=
    if negb is_new && button u delete_label then
      let venues := dict_pop selected_name venues in
      mkRun (save_venues (dump_objects h venues) fs)
            (out ++ [deleted_message selected_name]) Rerun
    else mkRun fs out Done in
  if button u save_label then
    if negb (str_truthy (strip venue_name)) then
      col2 (out ++ [Warning "Please enter a venue name."])
    else
      let venues := dict_set (strip venue_name) venue_data venues in
      mkRun (save_venues (dump_objects h venues) fs)
            (out ++ [saved_message venue_name]) Rerun
  else col2 out.

(** [venue_management_view()]. *)
Definition venue_management_view (u : ui) (fs : store) : result run :=
  let out := [Markdown "## 🏪 Venue Manager"] in
  let '(h, venues) := load_objects [] (load_venues fs) in
  let all_venue_names := sorted_str (dict_keys venues) in
  selected_name ← selectbox u select_label add_new all_venue_names 0;
  let is_new := bool_decide (selected_name = add_new) in
  let venue_name := if is_new then EmptyString else selected_name in
  let '(h, venue_data) :=
    match dict_get selected_name venues with
    | Some l => (h, l)
    | None => alloc h empty_profile
    end in
  let venue_name := text_input u "Venue name" venue_name in
  scalar_traits ← Helpers.load_scalar_traits fs;
  h ← foldM (at_loc venue_data (scalars_row u)) h scalar_traits;
  tag_options ← Helpers.load_tag_options fs;
  h ← foldM (at_loc venue_data (tags_row u)) h tag_options;
  category_options ← Helpers.load_categorical_options fs;
  h ← foldM (at_loc venue_data (categoricals_row u)) h category_options;
  Ok (buttons u fs out h venues selected_name venue_name is_new venue_data).

(** ** The view without the heap *)

(** The form as a function of the venue it starts from. *)
Definition edit_form (u : ui) (fs : store) (venue_data : Profile) : result Profile :=
  scalar_traits ← Helpers.load_scalar_traits fs;
  p ← foldM (scalars_row u) venue_data scalar_traits;
  tag_options ← Helpers.load_tag_options fs;
  p ← foldM (tags_row u) p tag_options;
  category_options ← Helpers.load_categorical_options fs;
  foldM (categoricals_row u) p category_options.

(** The venues as the buttons find them: the edits are already in the
    entry of the venue picked. *)
Definition edited_venues (selected_name : string) (edited : Profile)
    (venues : dict Profile) : dict Profile :=
  match dict_get selected_name venues with
  | Some _ => dict_set selected_name edited venues
  | None => venues
  end.

Definition buttons_spec (u : ui) (fs : store) (out : list element)
    (venues : dict Profile) (selected_name venue_name : string) (edited : Profile)
    : run :=
  let is_new := bool_decide (selected_name = add_new) in
  let col2 out :=
    if negb is_new && button u delete_label then
      mkRun (save_venues (dict_pop selected_name venues) fs)
            (out ++ [deleted_message selected_name]) Rerun
    else mkRun fs out Done in
  if button u save_label then
    if negb (str_truthy (strip venue_name)) then
      col2 (out ++ [Warning "Please enter a venue name."])
    else
      mkRun (save_venues (dict_set (strip venue_name) edited
                            (edited_venues selected_name edited venues)) fs)
            (out ++ [saved_message venue_name]) Rerun
  else col2 out.

(** The selections of a stored venue are among the choices on offer. *)
Definition selections_valid (options : dict (list string)) (p : Profile) : Prop :=
  Forall (λ item, dict_get_default item.1 [] (section (categoricals p)) ⊆ item.2)
         options.

(** The venue the form can open: the values it shows as defaults are
    values its widgets offer. *)
Definition opens (traits : list string) (options : dict (list string))
    (p : Profile) : Prop :=
  Forall (λ trait,
            unit_interval (dict_get_default trait (1 # 2) (section (scalars p))))
         traits
  ∧ selections_valid options p.

(** What the form leaves in a field, from what was stored in it. *)
Definition scalar_field (u : ui) (trait : string) (stored : option Q) : result Q :=
  slider u (label_of trait) 0 1 (default (1 # 2) stored) (1 # 10).

Definition tag_field (u : ui) (tag : string) (stored : option Z) : result Z :=
  Ok (if checkbox u (label_of tag) (bool_decide (default 0%Z stored = 1%Z))
      then 1%Z else 0%Z).

Definition categorical_field (u : ui) (item : string * list string)
    (stored : option (list string)) : result (list string) :=
  multiselect u (label_of item.1) item.2 (default [] stored).

(** The name in the text box: the venue picked, unless the user has
    typed another. *)
Definition typed_name (u : ui) (selected_name : string) : string :=
  text_input u "Venue name"
    (if bool_decide (selected_name = add_new) then EmptyString else selected_name).

Definition heading : list element := [Markdown "## 🏪 Venue Manager"].

Definition view_spec (u : ui) (fs : store) : result run :=
  let venues := load_venues fs in
  selected_name ←
    selectbox u select_label add_new (sorted_str (dict_keys venues)) 0;
  edited ← edit_form u fs (default empty_profile (dict_get selected_name venues));
  Ok (buttons_spec u fs heading venues selected_name
        (typed_name u selected_name) edited).

(** The venues file holds well-formed venues under unique names. *)
Definition store_wf (fs : store) : Prop :=
  dict_wf (load_venues fs) ∧ Forall (λ kv, profile_wf kv.2) (load_venues fs).

#[export] Instance selections_valid_dec options p :
  Decision (selections_valid options p).
Proof. unfold selections_valid. apply _. Defined.
#[export] Instance opens_dec traits options p : Decision (opens traits options p).
Proof. unfold opens. apply _. Defined.
#[export] Instance store_wf_dec fs : Decision (store_wf fs).
Proof. unfold store_wf. apply _. Defined.

(** ** Example data *)

Definition cafe : Profile :=
  {| scalars := Some [("noise_level", 3 # 10); ("price", 1 # 2)];
     tags := Some [("wifi", 1%Z)];
     categoricals := Some [("music", ["jazz"])] |}.

Definition bar : Profile :=
  {| scalars := Some [("noise_level", 8 # 10)];
     tags := Some [("wifi", 0%Z)];
     categoricals := Some [("music", ["rock"])] |}.

Definition schema_store (venues : option (dict Profile)) : store :=
  mkStore venues (Some ["noise_level"; "price"]) (Some ["wifi"])
          (Some [("music", ["jazz"; "rock"])]) None None.

Definition town : store := schema_store (Some [("cafe", cafe); ("bar", bar)]).

(** The user picks the cafe, moves a slider, types another name and
    saves. *)
Definition rename_cafe : ui :=
  mkUi {["Noise Level" := 9 # 10]} {["Venue name" := " bistro "]} ∅
       {[select_label := "cafe"]} ∅ {[save_label]} ∅.

Definition cafe_edited : Profile :=
  {| scalars := Some [("noise_level", 9 # 10); ("price", 1 # 2)];
     tags := Some [("wifi", 1%Z)];
     categoricals := Some [("music", ["jazz"])] |}.

(** The user picks the bar and deletes it. *)
Definition delete_bar : ui :=
  mkUi ∅ ∅ ∅ {[select_label := "bar"]} ∅ {[delete_label]} ∅.

(** The bar as the form leaves it: the missing trait at its default. *)
Definition bar_edited : Profile :=
  {| scalars := Some [("noise_level", 8 # 10); ("price", 1 # 2)];
     tags := Some [("wifi", 0%Z)];
     categoricals := Some [("music", ["rock"])] |}.

(** What the form makes of a new venue when nothing is touched. *)
Definition new_venue : Profile :=
  {| scalars := Some [("noise_level", 1 # 2); ("price", 1 # 2)];
     tags := Some [("wifi", 0%Z)];
     categoricals := Some [("music", [])] |}.

Definition save_unnamed : ui := mkUi ∅ ∅ ∅ ∅ ∅ {[save_label]} ∅.

Definition rename_run : run :=
  mkRun (schema_store (Some [("cafe", cafe_edited); ("bar", bar);
                             ("bistro", cafe_edited)]))
        (heading ++ [saved_message " bistro "]) Rerun.

(** A venues file written by hand: a scalar out of range. *)
Definition loud : Profile :=
  {| scalars := Some [("noise_level", 3 # 2)]; tags := None; categoricals := None |}.

Definition pick_loud : ui := mkUi ∅ ∅ ∅ {[select_label := "loud"]} ∅ ∅ ∅.

(** ** The view with the heap is the view without it *)

Lemma edited_venues_pop selected_name edited venues :
  dict_pop selected_name (edited_venues selected_name edited venues)
  = dict_pop selected_name venues.
Proof.
  unfold edited_venues. destruct (dict_get selected_name venues); [|done].
  apply dict_pop_set.
Qed.

Lemma form_at_loc {B} u fs l h (k : list Profile → result B) :
  l < length h →
  (scalar_traits ← Helpers.load_scalar_traits fs;
   h ← foldM (at_loc l (scalars_row u)) h scalar_traits;
   tag_options ← Helpers.load_tag_options fs;
   h ← foldM (at_loc l (tags_row u)) h tag_options;
   category_options ← Helpers.load_categorical_options fs;
   h ← foldM (at_loc l (categoricals_row u)) h category_options;
   k h)
  = (p ← edit_form u fs (h !!! l); k (<[l := p]> h)).
Proof.
  intros Hl. unfold edit_form.
  destruct (Helpers.load_scalar_traits fs) as [ts|]; simpl; [|done].
  rewrite foldM_at_loc by done.
  destruct (foldM (scalars_row u) _ ts) as [p1|]; simpl; [|done].
  destruct (Helpers.load_tag_options fs) as [gs|]; simpl; [|done].
  rewrite foldM_at_loc, list_lookup_total_insert_eq by by rewrite ?length_insert.
  destruct (foldM (tags_row u) _ gs) as [p2|]; simpl; [|done].
  destruct (Helpers.load_categorical_options fs) as [cs|]; simpl; [|done].
  rewrite foldM_at_loc, list_lookup_total_insert_eq by by rewrite ?length_insert.
  destruct (foldM (categoricals_row u) _ cs) as [p3|]; simpl; [|done].
  by rewrite !list_insert_insert_eq.
Qed.

Lemma buttons_refines u fs out h venues data selected_name venue_name l edited :
  dump_objects h venues = edited_venues selected_name edited data →
  h !!! l = edited →
  buttons u fs out h venues selected_name venue_name
    (bool_decide (selected_name = add_new)) l
  = buttons_spec u fs out data selected_name venue_name edited.
Proof.
  intros Hdump Hl. unfold buttons, buttons_spec.
  by rewrite dump_objects_set, dump_objects_pop, Hdump, Hl, edited_venues_pop.
Qed.

Lemma view_refines u fs : venue_management_view u fs = view_spec u fs.
Proof.
  unfold venue_management_view, view_spec.
  pose proof (load_objects_represents (load_venues fs)) as Hrep.
  destruct (load_objects [] (load_venues fs)) as [h venues]. simpl in Hrep.
  rewrite <- (dump_objects_keys h venues), (rep_dump _ _ _ Hrep).
  destruct (selectbox u select_label add_new _ 0) as [selected_name|]; simpl; [|done].
  rewrite (represents_get _ _ _ selected_name Hrep). unfold edited_venues.
  destruct (dict_get selected_name venues) as [l|] eqn:Hget; simpl.
  - pose proof (represents_get_bound _ _ _ _ _ Hrep Hget) as Hl.
    rewrite form_at_loc by done.
    destruct (edit_form u fs (h !!! l)) as [edited|]; simpl; [|done].
    f_equal. apply buttons_refines; [|by rewrite list_lookup_total_insert_eq].
    unfold edited_venues. rewrite (represents_get _ _ _ selected_name Hrep), Hget.
    simpl. rewrite <- (rep_dump _ _ _ Hrep).
    by apply dump_objects_insert; [apply Hrep|..].
  - destruct (represents_alloc _ _ _ empty_profile Hrep) as (Hdump & Hfresh & Hl).
    unfold alloc in *. simpl in Hdump, Hfresh, Hl |- *.
    rewrite form_at_loc, lookup_total_app_r, Nat.sub_diag by done. simpl.
    destruct (edit_form u fs empty_profile) as [edited|]; simpl; [|done].
    f_equal. apply buttons_refines; [|by rewrite list_lookup_total_insert_eq].
    unfold edited_venues. rewrite (represents_get _ _ _ selected_name Hrep), Hget.
    simpl. by rewrite dump_objects_insert_fresh.
Qed.

(** ** The form *)

Section rows.
Context (u : ui).

Lemma scalars_row_eq p trait :
  scalars_row u p trait
  = (v ← scalar_field u trait (dict_get trait (section (scalars p)));
     Ok (set_scalar trait v p)).
Proof. done. Qed.

Lemma tags_row_eq p tag :
  tags_row u p tag
  = (v ← tag_field u tag (dict_get tag (section (tags p))); Ok (set_tag tag v p)).
Proof. done. Qed.

Lemma categoricals_row_eq p item :
  categoricals_row u p item
  = (v ← categorical_field u item (dict_get item.1 (section (categoricals p)));
     Ok (set_categorical item.1 v p)).
Proof. by destruct item. Qed.

Lemma scalar_field_idemp trait o v :
  scalar_field u trait o = Ok v → scalar_field u trait (Some v) = Ok v.
Proof. apply slider_idemp. Qed.

Lemma tag_field_idemp tag o v :
  tag_field u tag o = Ok v → tag_field u tag (Some v) = Ok v.
Proof.
  unfold tag_field. intros [= <-]. f_equal. simpl.
  destruct (checkbox u (label_of tag) (bool_decide (default 0%Z o = 1%Z))) eqn:E;
    [rewrite bool_decide_true by done|rewrite bool_decide_false by done];
    rewrite <- E at 1; by rewrite checkbox_idemp, E.
Qed.

Lemma categorical_field_idemp item o v :
  categorical_field u item o = Ok v → categorical_field u item (Some v) = Ok v.
Proof. apply multiselect_idemp. Qed.

(** Each row keeps a profile well formed. *)
Lemma scalars_row_wf p trait p' :
  profile_wf p → scalars_row u p trait = Ok p' → profile_wf p'.
Proof.
  unfold scalars_row. intros Hwf (x & Hx & [= <-])%bind_Ok_inv.
  apply set_scalar_wf; [by eapply slider_range|done].
Qed.

Lemma tags_row_wf p tag p' :
  profile_wf p → tags_row u p tag = Ok p' → profile_wf p'.
Proof.
  unfold tags_row. intros Hwf [= <-]. apply set_tag_wf; [|done].
  unfold tag_flag. destruct (checkbox _ _ _); auto.
Qed.

Lemma categoricals_row_wf p item p' :
  profile_wf p → categoricals_row u p item = Ok p' → profile_wf p'.
Proof.
  destruct item as [cat choices]. unfold categoricals_row.
  intros Hwf (x & Hx & [= <-])%bind_Ok_inv. by apply set_categorical_wf.
Qed.

End rows.

Lemma valid_venue_opens traits options p :
  profile_wf p → selections_valid options p → opens traits options p.
Proof.
  intros Hwf Hsel. split; [|done]. apply Forall_forall. intros trait _.
  apply (dict_get_default_Forall unit_interval); [|apply Hwf].
  unfold unit_interval. lra.
Qed.

Lemma empty_profile_opens traits options : opens traits options empty_profile.
Proof.
  apply valid_venue_opens; [apply empty_profile_wf|].
  apply Forall_forall. by intros item _ x ?%elem_of_nil.
Qed.

(** A row returns on a venue the form can open, and the form can open
    what the row leaves. *)
Section rows_open.
Context (u : ui) (traits : list string) (options : dict (list string)).
Context (Hoptions : dict_wf options).

Lemma scalars_row_opens p trait :
  trait ∈ traits → opens traits options p →
  ∃ p', scalars_row u p trait = Ok p' ∧ opens traits options p'.
Proof.
  intros Hin [Hs Hsel]. unfold scalars_row.
  destruct (slider u _ 0 1 _ (1 # 10)) as [x|e] eqn:E; simpl.
  - eexists; split; [done|]. split; [|done]. apply Forall_forall.
    intros t Ht. simpl. rewrite dict_get_default_set. case_decide.
    + by eapply slider_range.
    + by apply (proj1 (Forall_forall _ _) Hs).
  - apply slider_Raise in E as [[] _]. by apply (proj1 (Forall_forall _ _) Hs).
Qed.

Lemma tags_row_opens p tag :
  opens traits options p → ∃ p', tags_row u p tag = Ok p' ∧ opens traits options p'.
Proof. intros [Hs Hsel]. by eexists. Qed.

Lemma categoricals_row_opens p item :
  item ∈ options → opens traits options p →
  ∃ p', categoricals_row u p item = Ok p' ∧ opens traits options p'.
Proof.
  intros Hin [Hs Hsel]. destruct item as [cat choices]. unfold categoricals_row.
  pose proof (proj1 (Forall_forall _ _) Hsel _ Hin) as Hdef. simpl in Hdef.
  destruct (multiselect u _ choices _) as [sel|e] eqn:E; simpl.
  - eexists; split; [done|]. split; [done|].
    apply Forall_forall. intros [cat' choices'] Hin'. simpl.
    rewrite dict_get_default_set. case_decide as Hc.
    + subst cat'. apply multiselect_subseteq in E.
      apply (dict_elem_get _ _ _ Hoptions) in Hin, Hin'. by simplify_eq.
    + apply (proj1 (Forall_forall _ _) Hsel _ Hin').
  - by apply multiselect_Raise in E as [[] _].
Qed.

End rows_open.

(** Whatever the files hold, a form that returns leaves a well-formed
    venue. *)
Lemma edit_form_wf u fs p edited :
  profile_wf p → edit_form u fs p = Ok edited → profile_wf edited.
Proof.
  unfold edit_form. intros Hwf.
  intros (ts & _ & (p1 & H1 & (gs & _ & (p2 & H2 & (cs & _ & H3)%bind_Ok_inv
    )%bind_Ok_inv)%bind_Ok_inv)%bind_Ok_inv)%bind_Ok_inv.
  eapply (foldM_invariant profile_wf) in H1;
    [|intros ????; apply scalars_row_wf|done].
  eapply (foldM_invariant profile_wf) in H2;
    [|intros ????; apply tags_row_wf|done].
  eapply (foldM_invariant profile_wf) in H3;
    [done|intros ????; apply categoricals_row_wf|done].
Qed.

Lemma edit_form_files u fs p edited :
  edit_form u fs p = Ok edited →
  ∃ traits flags options,
    read scalars_json fs = Some traits ∧ read tags_json fs = Some flags
    ∧ read categoricals_json fs = Some options.
Proof.
  unfold edit_form.
  intros (ts & Hts & (p1 & _ & (gs & Hgs & (p2 & _ & (cs & Hcs & _)%bind_Ok_inv
    )%bind_Ok_inv)%bind_Ok_inv)%bind_Ok_inv)%bind_Ok_inv.
  exists ts, gs, cs. auto using load_json_Ok_inv.
Qed.

Section form_files.
Context (u : ui) (fs : store).
Context (traits flags : list string) (options : dict (list string)).
Context (Htraits : read scalars_json fs = Some traits).
Context (Hflags : read tags_json fs = Some flags).
Context (Hoptions : read categoricals_json fs = Some options).
Context (Hwf : dict_wf options).

Lemma edit_form_eq p :
  edit_form u fs p
  = (p ← foldM (scalars_row u) p traits;
     p ← foldM (tags_row u) p flags;
     foldM (categoricals_row u) p options).
Proof.
  unfold edit_form, Helpers.load_scalar_traits, Helpers.load_tag_options,
    Helpers.load_categorical_options.
  by rewrite (load_json_Some _ _ _ Htraits), (load_json_Some _ _ _ Hflags),
    (load_json_Some _ _ _ Hoptions).
Qed.

Lemma edit_form_Ok_inv p edited :
  edit_form u fs p = Ok edited →
  ∃ p1 p2, foldM (scalars_row u) p traits = Ok p1
         ∧ foldM (tags_row u) p1 flags = Ok p2
         ∧ foldM (categoricals_row u) p2 options = Ok edited.
Proof.
  rewrite edit_form_eq.
  intros (p1 & ? & (p2 & ? & ?)%bind_Ok_inv)%bind_Ok_inv. eauto.
Qed.

(** The form returns on a venue it can open. *)
Lemma edit_form_opens p :
  opens traits options p → ∃ edited, edit_form u fs p = Ok edited.
Proof.
  intros Hp. rewrite edit_form_eq.
  destruct (foldM_total_invariant (opens traits options) (scalars_row u) traits p)
    as (p1 & -> & Hp1); [intros; by apply scalars_row_opens|done|]. simpl.
  destruct (foldM_total_invariant (opens traits options) (tags_row u) flags p1)
    as (p2 & -> & Hp2); [intros; by apply tags_row_opens|done|]. simpl.
  destruct (foldM_total_invariant (opens traits options) (categoricals_row u)
              options p2) as (p3 & -> & _);
    [intros; by apply categoricals_row_opens|done|eauto].
Qed.

(** The rows of one section leave the other sections alone. *)
Lemma scalars_rows_frame p p1 :
  foldM (scalars_row u) p traits = Ok p1 →
  tags p1 = tags p ∧ categoricals p1 = categoricals p.
Proof.
  apply (foldM_invariant (λ q, tags q = tags p ∧ categoricals q = categoricals p));
    [|done].
  by intros q t q' _ Hq (x & _ & [= <-])%bind_Ok_inv.
Qed.

Lemma tags_rows_frame p p2 :
  foldM (tags_row u) p flags = Ok p2 →
  scalars p2 = scalars p ∧ categoricals p2 = categoricals p.
Proof.
  apply (foldM_invariant (λ q, scalars q = scalars p ∧ categoricals q = categoricals p));
    [|done].
  by intros q t q' _ Hq [= <-].
Qed.

Lemma categoricals_rows_frame p p3 :
  foldM (categoricals_row u) p options = Ok p3 →
  scalars p3 = scalars p ∧ tags p3 = tags p.
Proof.
  apply (foldM_invariant (λ q, scalars q = scalars p ∧ tags q = tags p)); [|done].
  intros q [c ch] q' _ Hq (x & _ & [= <-])%bind_Ok_inv. done.
Qed.

Lemma options_functional (y z : string * list string) :
  y ∈ options → z ∈ options → y.1 = z.1 → y = z.
Proof.
  destruct y as [c ch], z as [c' ch']. simpl. intros Hy Hz <-.
  apply (dict_elem_get _ _ _ Hwf) in Hy, Hz. by simplify_eq.
Qed.

(** The scalar of a trait of the schema is what its slider makes of
    the stored value. *)
Lemma edit_form_scalar p edited trait :
  edit_form u fs p = Ok edited → trait ∈ traits →
  ∃ x, scalar_field u trait (dict_get trait (section (scalars p))) = Ok x
     ∧ dict_get trait (section (scalars edited)) = Some x.
Proof.
  intros (p1 & p2 & H1 & H2 & H3)%edit_form_Ok_inv Hin.
  apply tags_rows_frame in H2 as [H2 _].
  apply categoricals_rows_frame in H3 as [H3 _]. rewrite H3, H2.
  by apply (foldM_rows_get (section ∘ scalars) set_scalar id (scalar_field u)
              (scalars_row u)) with traits;
    [done|apply scalars_row_eq|apply scalar_field_idemp|..].
Qed.

Lemma edit_form_tag p edited tag :
  edit_form u fs p = Ok edited → tag ∈ flags →
  ∃ x, tag_field u tag (dict_get tag (section (tags p))) = Ok x
     ∧ dict_get tag (section (tags edited)) = Some x.
Proof.
  intros (p1 & p2 & H1 & H2 & H3)%edit_form_Ok_inv Hin.
  apply scalars_rows_frame in H1 as [H1 _].
  apply categoricals_rows_frame in H3 as [_ H3]. rewrite H3, <- H1.
  by apply (foldM_rows_get (section ∘ tags) set_tag id (tag_field u)
              (tags_row u)) with flags;
    [done|apply tags_row_eq|apply tag_field_idemp|..].
Qed.

Lemma edit_form_categorical p edited item :
  edit_form u fs p = Ok edited → item ∈ options →
  ∃ x, categorical_field u item (dict_get item.1 (section (categoricals p))) = Ok x
     ∧ dict_get item.1 (section (categoricals edited)) = Some x.
Proof.
  intros (p1 & p2 & H1 & H2 & H3)%edit_form_Ok_inv Hin.
  apply scalars_rows_frame in H1 as [_ H1]. apply tags_rows_frame in H2 as [_ H2].
  rewrite <- H1, <- H2.
  by apply (foldM_rows_get (section ∘ categoricals) set_categorical fst
              (categorical_field u) (categoricals_row u)) with options;
    [done|apply categoricals_row_eq|apply categorical_field_idemp
    |apply options_functional|..].
Qed.

(** The form only returns on a venue it can open. *)
Lemma edit_form_Ok_opens p edited :
  edit_form u fs p = Ok edited → opens traits options p.
Proof.
  intros He. split; apply Forall_forall.
  - intros trait Hin. destruct (edit_form_scalar _ _ _ He Hin) as (x & Hx & _).
    unfold scalar_field in Hx. apply (f_equal is_ok) in Hx.
    rewrite slider_is_ok in Hx. by apply in_range_spec in Hx.
  - intros item Hin. destruct (edit_form_categorical _ _ _ He Hin) as (x & Hx & _).
    unfold categorical_field in Hx. apply (f_equal is_ok) in Hx.
    rewrite multiselect_is_ok in Hx. by apply all_in_spec in Hx.
Qed.

(** Keys outside the schema are kept as stored. *)
Lemma edit_form_other_scalar p edited trait :
  edit_form u fs p = Ok edited → trait ∉ traits →
  dict_get trait (section (scalars edited)) = dict_get trait (section (scalars p)).
Proof.
  intros (p1 & p2 & H1 & H2 & H3)%edit_form_Ok_inv Hin.
  apply tags_rows_frame in H2 as [H2 _].
  apply categoricals_rows_frame in H3 as [H3 _]. rewrite H3, H2.
  apply (foldM_rows_other (section ∘ scalars) set_scalar id (scalar_field u)
           (scalars_row u)) with traits;
    [done|apply scalars_row_eq|done|by rewrite list_fmap_id].
Qed.

End form_files.

(** What the form raises. *)
Lemma scalars_rows_Raise u p traits e :
  foldM (scalars_row u) p traits = Raise e →
  ∃ name, e = StreamlitAPIException (label_of name).
Proof.
  intros (q & t & _ & [H|(? & _ & [=])]%bind_Raise_inv)%foldM_Raise_inv.
  apply slider_Raise in H as [_ ->]. eauto.
Qed.

Lemma categoricals_rows_Raise u p options e :
  foldM (categoricals_row u) p options = Raise e →
  ∃ name, e = StreamlitAPIException (label_of name).
Proof.
  intros (q & [c ch] & _ & [H|(? & _ & [=])]%bind_Raise_inv)%foldM_Raise_inv.
  apply multiselect_Raise in H as [_ ->]. eauto.
Qed.

Lemma tags_rows_Ok u p flags : ∃ p', foldM (tags_row u) p flags = Ok p'.
Proof. apply foldM_total. intros; by eexists. Qed.

Lemma edit_form_Raise_inv u fs p e :
  edit_form u fs p = Raise e →
  e ∈ [FileNotFoundError "scalars.json"; FileNotFoundError "tags.json";
       FileNotFoundError "categoricals.json"]
  ∨ ∃ name, e = StreamlitAPIException (label_of name).
Proof.
  unfold edit_form.
  intros [[_ ->]%load_json_Raise_inv|(ts & _ & H)]%bind_Raise_inv;
    [left; set_solver|].
  apply bind_Raise_inv in H as [H|(p1 & _ & H)]; [right; by eapply scalars_rows_Raise|].
  apply bind_Raise_inv in H as [[_ ->]%load_json_Raise_inv|(gs & _ & H)];
    [left; set_solver|].
  destruct (tags_rows_Ok u p1 gs) as [p2 Hp2]. rewrite Hp2 in H. simpl in H.
  apply bind_Raise_inv in H as [[_ ->]%load_json_Raise_inv|(cs & _ & H)];
    [left; set_solver|].
  right. by eapply categoricals_rows_Raise.
Qed.

(** ** The buttons *)

Lemma load_save_venues venues fs : load_venues (save_venues venues fs) = venues.
Proof. unfold load_venues, save_venues. by rewrite read_write. Qed.

Lemma buttons_spec_save u fs out venues selected_name venue_name edited :
  button u save_label = true → str_truthy (strip venue_name) = true →
  buttons_spec u fs out venues selected_name venue_name edited
  = mkRun (save_venues (dict_set (strip venue_name) edited
                          (edited_venues selected_name edited venues)) fs)
          (out ++ [saved_message venue_name]) Rerun.
Proof. unfold buttons_spec. by intros -> ->. Qed.

Lemma buttons_spec_delete u fs out venues selected_name venue_name edited :
  button u save_label = false → selected_name ≠ add_new →
  button u delete_label = true →
  buttons_spec u fs out venues selected_name venue_name edited
  = mkRun (save_venues (dict_pop selected_name venues) fs)
          (out ++ [deleted_message selected_name]) Rerun.
Proof. unfold buttons_spec. intros -> ? ->. by rewrite bool_decide_false. Qed.

Lemma buttons_spec_idle u fs out venues selected_name venue_name edited :
  button u save_label = false → button u delete_label = false →
  buttons_spec u fs out venues selected_name venue_name edited = mkRun fs out Done.
Proof. unfold buttons_spec. intros -> ->. by rewrite andb_false_r. Qed.

(** Every run ends in one of three ways. *)
Lemma buttons_spec_cases u fs out venues selected_name venue_name edited :
  let r := buttons_spec u fs out venues selected_name venue_name edited in
  (files r = fs ∧ ending r = Done)
  ∨ (files r = save_venues (dict_set (strip venue_name) edited
                              (edited_venues selected_name edited venues)) fs
     ∧ ending r = Rerun)
  ∨ (files r = save_venues (dict_pop selected_name venues) fs ∧ ending r = Rerun).
Proof.
  unfold buttons_spec.
  destruct (button u save_label), (str_truthy (strip venue_name)),
    (bool_decide (selected_name = add_new)), (button u delete_label); simpl; auto.
Qed.

Lemma view_spec_Ok_inv u fs r :
  view_spec u fs = Ok r →
  ∃ selected_name edited,
    selectbox u select_label add_new (sorted_str (dict_keys (load_venues fs))) 0
    = Ok selected_name
    ∧ edit_form u fs (default empty_profile (dict_get selected_name (load_venues fs)))
      = Ok edited
    ∧ r = buttons_spec u fs heading (load_venues fs) selected_name
            (typed_name u selected_name) edited.
Proof.
  unfold view_spec. intros (sel & Hsel & (e & He & [= <-])%bind_Ok_inv)%bind_Ok_inv.
  by exists sel, e.
Qed.

Lemma edited_venues_wf selected_name edited venues :
  dict_wf venues → dict_wf (edited_venues selected_name edited venues).
Proof. unfold edited_venues. destruct (dict_get _ _); auto using dict_wf_set. Qed.

Lemma edited_venues_Forall (P : string * Profile → Prop) selected_name edited venues :
  P (selected_name, edited) → Forall P venues →
  Forall P (edited_venues selected_name edited venues).
Proof. unfold edited_venues. destruct (dict_get _ _); auto using dict_set_Forall. Qed.

Lemma stored_venue_wf fs selected_name :
  store_wf fs →
  profile_wf (default empty_profile (dict_get selected_name (load_venues fs))).
Proof.
  intros [_ Hall]. destruct (dict_get _ _) as [p|] eqn:E; simpl; [|apply empty_profile_wf].
  apply dict_get_Some_elem in E. by apply (proj1 (Forall_forall _ _) Hall (selected_name, p)).
Qed.

Lemma save_venues_wf venues fs :
  dict_wf venues → Forall (λ kv, profile_wf kv.2) venues →
  store_wf (save_venues venues fs).
Proof. unfold store_wf. by rewrite load_save_venues. Qed.

(** ** Properties of a run *)

(** C6: the run on the heap of venue objects, with the form writing
    into the object picked, is the run of [view_spec], which edits a
    value and assigns it. *)
Theorem venue_view_refines_spec u fs : venue_management_view u fs = view_spec u fs.
Proof. apply view_refines. Qed.

Section one_run.
Context (u : ui) (fs : store) (selected_name : string) (edited : Profile).
Context (Hselect :
  selectbox u select_label add_new (sorted_str (dict_keys (load_venues fs))) 0
  = Ok selected_name).
Context (Hform :
  edit_form u fs (default empty_profile (dict_get selected_name (load_venues fs)))
  = Ok edited).

Lemma view_Ok :
  venue_management_view u fs
  = Ok (buttons_spec u fs heading (load_venues fs) selected_name
          (typed_name u selected_name) edited).
Proof. rewrite view_refines. unfold view_spec. rewrite Hselect. simpl. by rewrite Hform. Qed.

(** C7: Save with a name that is not blank writes the venues file
    with the form's content under the stripped name, and asks for a
    rerun. *)
Theorem save_stores_venue :
  button u save_label = true →
  str_truthy (strip (typed_name u selected_name)) = true →
  ∃ r, venue_management_view u fs = Ok r ∧ ending r = Rerun
    ∧ load_venues (files r)
      = dict_set (strip (typed_name u selected_name)) edited
          (edited_venues selected_name edited (load_venues fs))
    ∧ dict_get (strip (typed_name u selected_name)) (load_venues (files r))
      = Some edited.
Proof.
  intros Hsave Hname. rewrite view_Ok, buttons_spec_save by done.
  eexists; split_and!; [done..| |]; simpl; rewrite load_save_venues; [done|].
  apply dict_get_set_eq.
Qed.

(** C11: saving a stored venue under another name leaves two entries
    with the form's content: the new name and the old one, whose
    stored values are overwritten by the edits. *)
Theorem rename_overwrites_old_venue :
  is_Some (dict_get selected_name (load_venues fs)) →
  button u save_label = true →
  str_truthy (strip (typed_name u selected_name)) = true →
  strip (typed_name u selected_name) ≠ selected_name →
  ∃ r, venue_management_view u fs = Ok r
    ∧ dict_get selected_name (load_venues (files r)) = Some edited
    ∧ dict_get (strip (typed_name u selected_name)) (load_venues (files r))
      = Some edited.
Proof.
  intros [stored Hstored] Hsave Hname Hne. rewrite view_Ok, buttons_spec_save by done.
  eexists; split_and!; [done|..]; simpl; rewrite load_save_venues.
  - rewrite dict_get_set_ne by done. unfold edited_venues. rewrite Hstored.
    apply dict_get_set_eq.
  - apply dict_get_set_eq.
Qed.

(** C15: Delete on a stored venue writes the venues file without it,
    every other venue as it was stored, and asks for a rerun. *)
Theorem delete_removes_venue :
  button u save_label = false → selected_name ≠ add_new →
  button u delete_label = true →
  ∃ r, venue_management_view u fs = Ok r ∧ ending r = Rerun
    ∧ load_venues (files r) = dict_pop selected_name (load_venues fs)
    ∧ dict_get selected_name (load_venues (files r)) = None.
Proof.
  intros Hsave Hnew Hdel. rewrite view_Ok, buttons_spec_delete by done.
  eexists; split_and!; [done..| |]; simpl; rewrite load_save_venues; [done|].
  apply dict_get_pop_eq.
Qed.

(** Save with a blank name writes nothing and shows the
    warning. *)
Theorem blank_name_not_saved :
  button u save_label = true →
  str_truthy (strip (typed_name u selected_name)) = false →
  button u delete_label = false →
  venue_management_view u fs
  = Ok (mkRun fs (heading ++ [Warning "Please enter a venue name."]) Done).
Proof.
  intros Hsave Hname Hdel. rewrite view_Ok. unfold buttons_spec.
  by rewrite Hsave, Hname, Hdel, andb_false_r.
Qed.

End one_run.

(** C35: a run that ends without a rerun has written nothing: no
    button, or Save with a blank name. *)
Theorem done_run_writes_nothing u fs r :
  venue_management_view u fs = Ok r → ending r = Done → files r = fs.
Proof.
  rewrite view_refines. intros (sel & e & _ & _ & ->)%view_spec_Ok_inv.
  by destruct (buttons_spec_cases u fs heading (load_venues fs) sel
                 (typed_name u sel) e) as [[? _]|[[_ ->]|[_ ->]]].
Qed.

(** The view writes no file but the venues file. *)
Theorem view_writes_only_venues u fs r :
  venue_management_view u fs = Ok r →
  read scalars_json (files r) = read scalars_json fs
  ∧ read tags_json (files r) = read tags_json fs
  ∧ read categoricals_json (files r) = read categoricals_json fs.
Proof.
  rewrite view_refines. intros (sel & e & _ & _ & ->)%view_spec_Ok_inv.
  by destruct (buttons_spec_cases u fs heading (load_venues fs) sel
                 (typed_name u sel) e) as [[-> _]|[[-> _]|[-> _]]].
Qed.

(** C8: the venues file stays well formed: unique names, scalars in
    the unit interval, flags 0 or 1. *)
Theorem view_keeps_store_wf u fs r :
  store_wf fs → venue_management_view u fs = Ok r → store_wf (files r).
Proof.
  intros Hwf. rewrite view_refines. intros (sel & e & _ & He & ->)%view_spec_Ok_inv.
  apply edit_form_wf in He; [|by apply stored_venue_wf]. destruct Hwf as [Hk Hall].
  destruct (buttons_spec_cases u fs heading (load_venues fs) sel
              (typed_name u sel) e) as [[-> _]|[[-> _]|[-> _]]]; [done|..].
  - apply save_venues_wf.
    + by apply dict_wf_set, edited_venues_wf.
    + by apply dict_set_Forall, edited_venues_Forall.
  - apply save_venues_wf; [by apply dict_wf_pop|by apply dict_pop_Forall].
Qed.

(** C16: the view returns exactly when the three schema files exist
    and the form can open the venue picked: its stored scalar of every
    trait of the schema is in the unit interval and its stored selection
    of every category is among the choices of the schema. *)
Theorem view_returns_iff u fs selected_name :
  selectbox u select_label add_new (sorted_str (dict_keys (load_venues fs))) 0
  = Ok selected_name →
  (∀ options, read categoricals_json fs = Some options → dict_wf options) →
  (∃ r, venue_management_view u fs = Ok r)
  ↔ ∃ traits flags options,
      read scalars_json fs = Some traits ∧ read tags_json fs = Some flags
      ∧ read categoricals_json fs = Some options
      ∧ opens traits options
          (default empty_profile (dict_get selected_name (load_venues fs))).
Proof.
  intros Hsel Hwf. rewrite view_refines. split.
  - intros [r (sel & e & Hsel' & He & _)%view_spec_Ok_inv].
    rewrite Hsel in Hsel'. injection Hsel' as <-.
    destruct (edit_form_files _ _ _ _ He) as (ts & gs & cs & Ht & Hg & Hc).
    exists ts, gs, cs. split_and!; [done..|].
    by eapply edit_form_Ok_opens; [..|apply He]; eauto.
  - intros (ts & gs & cs & Ht & Hg & Hc & Hopen).
    destruct (edit_form_opens u fs ts gs cs Ht Hg Hc (Hwf _ Hc) _ Hopen) as [e He].
    eexists. rewrite <- view_refines. by apply view_Ok.
Qed.

(** With the three schema files present, the view returns on a
    well-formed venues file whose selections are among the choices of
    the schema, whatever the user does. *)
Theorem view_returns_on_valid_store u fs traits flags options :
  read scalars_json fs = Some traits → read tags_json fs = Some flags →
  read categoricals_json fs = Some options → dict_wf options →
  store_wf fs → Forall (λ kv, selections_valid options kv.2) (load_venues fs) →
  ∃ r, venue_management_view u fs = Ok r.
Proof.
  intros Ht Hg Ho Hwf Hstore Hall.
  destruct (selectbox_0 u select_label add_new
              (sorted_str (dict_keys (load_venues fs)))) as (sel & Hsel & _).
  destruct (edit_form_opens u fs traits flags options Ht Hg Ho Hwf
              (default empty_profile (dict_get sel (load_venues fs))))
    as [e He]; [|eexists; by apply view_Ok].
  apply valid_venue_opens; [by apply stored_venue_wf|].
  destruct (dict_get sel (load_venues fs)) as [p|] eqn:E; simpl.
  - apply dict_get_Some_elem in E.
    by apply (proj1 (Forall_forall _ _) Hall (sel, p)).
  - apply (empty_profile_opens [] options).
Qed.

(** C26: what the form leaves in the venue: under every trait, tag
    and category of the schema the value of its widget, shown with the
    stored value (or 0.5, 0, no selection) as default; scalars of traits
    outside the schema as stored. *)
Theorem form_fields u fs traits flags options p edited :
  read scalars_json fs = Some traits → read tags_json fs = Some flags →
  read categoricals_json fs = Some options → dict_wf options →
  edit_form u fs p = Ok edited →
  (∀ trait, trait ∈ traits →
     ∃ x, slider u (label_of trait) 0 1
            (dict_get_default trait (1 # 2) (section (scalars p))) (1 # 10) = Ok x
        ∧ dict_get trait (section (scalars edited)) = Some x)
  ∧ (∀ tag, tag ∈ flags →
       dict_get tag (section (tags edited))
       = Some (if checkbox u (label_of tag)
                    (bool_decide (dict_get_default tag 0%Z (section (tags p)) = 1%Z))
               then 1%Z else 0%Z))
  ∧ (∀ cat choices, (cat, choices) ∈ options →
       ∃ selected,
         multiselect u (label_of cat) choices
           (dict_get_default cat [] (section (categoricals p))) = Ok selected
         ∧ dict_get cat (section (categoricals edited)) = Some selected)
  ∧ (∀ trait, trait ∉ traits →
       dict_get trait (section (scalars edited))
       = dict_get trait (section (scalars p))).
Proof.
  intros Ht Hg Ho Hwf He. split_and!.
  - intros trait Hin. by eapply edit_form_scalar.
  - intros tag Hin.
    by destruct (edit_form_tag u fs traits flags options Ht Hg Ho p edited tag He Hin)
      as (x & [= <-] & ->).
  - intros cat choices Hin.
    by apply (edit_form_categorical u fs traits flags options Ht Hg Ho Hwf p edited
                (cat, choices)).
  - intros trait Hin. by eapply edit_form_other_scalar.
Qed.

(** What the view raises comes from its form. *)
Lemma view_Raise_inv u fs e :
  venue_management_view u fs = Raise e →
  e ∈ [FileNotFoundError "scalars.json"; FileNotFoundError "tags.json";
       FileNotFoundError "categoricals.json"]
  ∨ ∃ name, e = StreamlitAPIException (label_of name).
Proof.
  rewrite view_refines. unfold view_spec.
  destruct (selectbox_0 u select_label add_new
              (sorted_str (dict_keys (load_venues fs)))) as (sel & -> & _). simpl.
  intros [He|(? & _ & [=])]%bind_Raise_inv. by apply edit_form_Raise_inv in He.
Qed.

Lemma venue_management_view_expected u fs :
  raises_within expected (venue_management_view u fs).
Proof.
  intros e [Hin|[name ->]]%view_Raise_inv; [|done].
  by repeat (apply elem_of_cons in Hin as [->|Hin]; [done|]); apply elem_of_nil in Hin.
Qed.

(** C36: the exceptions of the view: a schema file that is missing, or
    a widget of the form refusing the stored value it is given as
    default. *)
Theorem view_raises_only u fs e :
  venue_management_view u fs = Raise e →
  e ∈ [FileNotFoundError "scalars.json"; FileNotFoundError "tags.json";
       FileNotFoundError "categoricals.json"]
  ∨ ∃ name, e = StreamlitAPIException (label_of name).
Proof. apply view_Raise_inv. Qed.

(** ** The properties at work *)

Lemma save_stores_venue_witness :
  ∃ r, venue_management_view rename_cafe town = Ok r ∧ ending r = Rerun
    ∧ load_venues (files r)
      = dict_set (strip (typed_name rename_cafe "cafe")) cafe_edited
          (edited_venues "cafe" cafe_edited (load_venues town))
    ∧ dict_get (strip (typed_name rename_cafe "cafe")) (load_venues (files r))
      = Some cafe_edited.
Proof.
  apply (save_stores_venue rename_cafe town "cafe" cafe_edited);
    vm_compute; reflexivity.
Defined.

Lemma rename_overwrites_old_venue_witness :
  ∃ r, venue_management_view rename_cafe town = Ok r
    ∧ dict_get "cafe" (load_venues (files r)) = Some cafe_edited
    ∧ dict_get (strip (typed_name rename_cafe "cafe")) (load_venues (files r))
      = Some cafe_edited.
Proof.
  apply (rename_overwrites_old_venue rename_cafe town "cafe" cafe_edited);
    try (vm_compute; reflexivity); [by eexists|vm_compute; discriminate].
Defined.

Lemma delete_removes_venue_witness :
  ∃ r, venue_management_view delete_bar town = Ok r ∧ ending r = Rerun
    ∧ load_venues (files r) = dict_pop "bar" (load_venues town)
    ∧ dict_get "bar" (load_venues (files r)) = None.
Proof.
  apply (delete_removes_venue delete_bar town "bar" bar_edited);
    try (vm_compute; reflexivity). vm_compute; discriminate.
Defined.

Lemma done_run_writes_nothing_witness : files (mkRun town heading Done) = town.
Proof.
  apply (done_run_writes_nothing no_input town (mkRun town heading Done));
    vm_compute; reflexivity.
Defined.

Lemma view_writes_only_venues_witness :
  read scalars_json (files rename_run) = read scalars_json town
  ∧ read tags_json (files rename_run) = read tags_json town
  ∧ read categoricals_json (files rename_run) = read categoricals_json town.
Proof.
  apply (view_writes_only_venues rename_cafe town rename_run).
  vm_compute; reflexivity.
Defined.

Lemma view_keeps_store_wf_witness : store_wf (files rename_run).
Proof.
  apply (view_keeps_store_wf rename_cafe town rename_run);
    [decide_compute|vm_compute; reflexivity].
Defined.

Lemma view_returns_iff_witness :
  (∃ r, venue_management_view pick_loud (schema_store (Some [("loud", loud)])) = Ok r)
  ↔ ∃ traits flags options,
      read scalars_json (schema_store (Some [("loud", loud)])) = Some traits
      ∧ read tags_json (schema_store (Some [("loud", loud)])) = Some flags
      ∧ read categoricals_json (schema_store (Some [("loud", loud)])) = Some options
      ∧ opens traits options
          (default empty_profile
             (dict_get "loud" (load_venues (schema_store (Some [("loud", loud)]))))).
Proof.
  apply (view_returns_iff pick_loud (schema_store (Some [("loud", loud)])) "loud");
    [vm_compute; reflexivity|].
  intros options [= <-]. decide_compute.
Defined.

Lemma view_returns_on_valid_store_witness :
  ∃ r, venue_management_view rename_cafe town = Ok r.
Proof.
  apply (view_returns_on_valid_store rename_cafe town ["noise_level"; "price"]
           ["wifi"] [("music", ["jazz"; "rock"])]);
    try reflexivity; decide_compute.
Defined.

Lemma blank_name_not_saved_witness :
  venue_management_view save_unnamed town
  = Ok (mkRun town (heading ++ [Warning "Please enter a venue name."]) Done).
Proof.
  apply (blank_name_not_saved save_unnamed town add_new new_venue);
    vm_compute; reflexivity.
Defined.

Lemma view_raises_only_witness :
  StreamlitAPIException "Noise Level"
    ∈ [FileNotFoundError "scalars.json"; FileNotFoundError "tags.json";
       FileNotFoundError "categoricals.json"]
  ∨ ∃ name, StreamlitAPIException "Noise Level" = StreamlitAPIException (label_of name).
Proof.
  apply (view_raises_only pick_loud (schema_store (Some [("loud", loud)]))).
  vm_compute; reflexivity.
Defined.

Lemma form_fields_witness :
  (∀ trait, trait ∈ ["noise_level"; "price"] →
     ∃ x, slider rename_cafe (label_of trait) 0 1
            (dict_get_default trait (1 # 2) (section (scalars cafe))) (1 # 10) = Ok x
        ∧ dict_get trait (section (scalars cafe_edited)) = Some x)
  ∧ (∀ tag, tag ∈ ["wifi"] →
       dict_get tag (section (tags cafe_edited))
       = Some (if checkbox rename_cafe (label_of tag)
                    (bool_decide (dict_get_default tag 0%Z (section (tags cafe)) = 1%Z))
               then 1%Z else 0%Z))
  ∧ (∀ cat choices, (cat, choices) ∈ [("music", ["jazz"; "rock"])] →
       ∃ selected,
         multiselect rename_cafe (label_of cat) choices
           (dict_get_default cat [] (section (categoricals cafe))) = Ok selected
         ∧ dict_get cat (section (categoricals cafe_edited)) = Some selected)
  ∧ (∀ trait, trait ∉ ["noise_level"; "price"] →
       dict_get trait (section (scalars cafe_edited))
       = dict_get trait (section (scalars cafe))).
Proof.
  apply (form_fields rename_cafe town ["noise_level"; "price"] ["wifi"]
           [("music", ["jazz"; "rock"])] cafe cafe_edited);
    try reflexivity; decide_compute.
Defined.

End VenueManager.
