(* ===== verification/Explorer.v ===== *)
(** * The context explorer: [src/streamlit_app.py]

    The Streamlit front end of the flat variant.  The context modifier
    is not read from a file: the page shows one slider per trait of the
    base profile, from -1 to 1, untouched at 0.  The session profile,
    the score and the ranking are those of the command-line script
    ([Legacy.v]); [main_is_script] states it: a run of the page shows
    what the script prints when its modifier file holds the values of
    the sliders. *)

From S2P Require Import Prelude PyDict PySort PyStr Profile Ranking Engine.
From S2P Require Import Legacy Streamlit.

Module Explorer.

#[local] Existing Instance Legacy.legacy_scorer.
#[local] Existing Instance Legacy.legacy_total.

(** ** The code *)

(** The files the page reads; [None] is a missing file. *)
Record explorer_files : Type := {
  base_profile_json : option (dict Q);
  venues_json : option (dict (dict Q));
}.

(** [load_json(filename)]. *)
Definition load_json {A} (filename : string) (content : option A) : result A :=
  match content with
  | Some data => Ok data
  | None => Raise (FileNotFoundError filename)
  end.

(** [f"{k.replace('_', ' ').title()} Modifier"]. *)
Definition modifier_label (k : string) : string := label_of k +:+ " Modifier".

(** The loop of sliders: [context_modifier[k] = st.slider(...)] for
    every item of the base profile. *)
Definition context_modifier (u : ui) (base_profile : dict Q) : result (dict Q) :=
  foldM (λ context_modifier kv,
           value ← slider u (modifier_label kv.1) (-1) 1 0 (1 # 10);
           Ok (dict_set kv.1 value context_modifier))
        [] base_profile.

(** The dict comprehension
    [{k: clamp(base_profile[k] + context_modifier.get(k, 0)) for k in base_profile}]. *)
Definition session_profile (base_profile context_modifier : dict Q)
    : result (dict Q) :=
  foldM (λ session k,
           b ← dict_index k base_profile;
           Ok (dict_set k
                 (py_max 0 (py_min 1 (b + dict_get_default k 0 context_modifier)%Q))
                 session))
        [] (dict_keys base_profile).

(** [sum(user_profile[k] * venue_profile.get(k, 0) for k in user_profile)]. *)
Definition match_score (user_profile venue_profile : dict Q) : result Q :=
  foldM (λ total k,
           u ← dict_index k user_profile;
           Ok (total + u * dict_get_default k 0 venue_profile)%Q)
        0%Q (dict_keys user_profile).

(** What the page shows: the session profile to two decimals and one
    line per venue. *)
Record page : Type := {
  session : dict Q;
  shown_session : dict Q;
  shown_scores : list (string * Q);
}.

(** The script from top to bottom. *)
Definition main (u : ui) (fs : explorer_files) : result page :=
  base_profile ← load_json "base_profile.json" (base_profile_json fs);
  venues ← load_json "venues.json" (venues_json fs);
  context_modifier ← context_modifier u base_profile;
  session_profile ← session_profile base_profile context_modifier;
  scores ← foldM (λ scores nv,
                    score ← match_score session_profile nv.2;
                    Ok (scores ++ [(nv.1, score)]))
                 [] venues;
  let scores := sorted_by_key snd true scores in
  Ok {| session := session_profile;
        shown_session := (λ kv, (kv.1, py_round kv.2 2)) <$> session_profile;
        shown_scores := scores |}.

(** ** Reference definitions *)

(** What a slider holds: the value the user has set, when the slider
    offers it, or 0. *)
Definition modifier_value (u : ui) (k : string) : Q :=
  match slider_state u !! modifier_label k with
  | Some x => if in_range (-1) 1 x then x else 0
  | None => 0
  end.

(** The context modifier the sliders stand for. *)
Definition modifier_spec (u : ui) (base_profile : dict Q) : dict Q :=
  (λ kv, (kv.1, modifier_value u kv.1)) <$> base_profile.

(** The files of the command-line script that does what the page does. *)
Definition script_files (u : ui) (fs : explorer_files) : Legacy.cli_files :=
  {| Legacy.base_profile_json := base_profile_json fs;
     Legacy.context_modifier_json := modifier_spec u <$> base_profile_json fs;
     Legacy.venues_json := venues_json fs |}.

Definition as_page (out : Legacy.cli_output) : page :=
  {| session := Legacy.session out;
     shown_session := Legacy.printed_session out;
     shown_scores := Legacy.printed_scores out |}.

(** ** Example data *)

Definition base_ex : dict Q := [("ambiance", 0.8); ("price", 0.5)]%Q.
Definition venues_ex : dict (dict Q) :=
  [("B", [("ambiance", 0.3); ("price", 1.0)]%Q);
   ("A", [("ambiance", 1.0); ("price", 0.2)]%Q)].
Definition files_ex : explorer_files :=
  {| base_profile_json := Some base_ex; venues_json := Some venues_ex |}.

(** The user moves the price slider to 0.7 and the ambiance slider
    all the way down. *)
Definition moved : ui :=
  mkUi {["Price Modifier" := 0.7%Q; "Ambiance Modifier" := (-1)%Q]} ∅ ∅ ∅ ∅ ∅ ∅.

(** ** The sliders *)

Lemma slider_modifier u k :
  slider u (modifier_label k) (-1) 1 0 (1 # 10) = Ok (modifier_value u k).
Proof. done. Qed.

Lemma modifier_value_range u k : (-1 <= modifier_value u k <= 1)%Q.
Proof.
  pose proof (slider_modifier u k) as H. by apply slider_range in H.
Qed.

Lemma modifier_value_untouched k : modifier_value no_input k = 0%Q.
Proof. done. Qed.

Lemma context_modifier_Ok u base :
  dict_wf base → context_modifier u base = Ok (modifier_spec u base).
Proof.
  intros Hwf. unfold context_modifier.
  rewrite (foldM_pure _ (λ cm kv, dict_set kv.1 (modifier_value u kv.1) cm))
    by done.
  f_equal. by apply (dict_comprehension (λ k _, modifier_value u k)).
Qed.

Lemma modifier_spec_get u base k :
  dict_get k (modifier_spec u base) = (λ _, modifier_value u k) <$> dict_get k base.
Proof.
  unfold modifier_spec. induction base as [|[k' b] base IH]; csimpl; [done|].
  case_decide; by subst.
Qed.

(** ** The page is the script *)

Lemma session_profile_legacy base modifier :
  session_profile base modifier = Legacy.session_profile base modifier.
Proof. done. Qed.

Lemma match_score_legacy user venue :
  match_score user venue = Legacy.match_score user venue.
Proof. done. Qed.

Lemma main_script u fs :
  (∀ base, base_profile_json fs = Some base → dict_wf base) →
  is_Some (base_profile_json fs) → is_Some (venues_json fs) →
  main u fs = as_page <$> Legacy.main (script_files u fs).
Proof.
  intros Hwf [base Hb] [venues Hv]. unfold main, Legacy.main, script_files.
  rewrite Hb, Hv. simpl. rewrite context_modifier_Ok by auto. simpl.
  rewrite session_profile_legacy.
  destruct (Legacy.session_profile base (modifier_spec u base)) as [s|]; [|done].
  simpl. change (foldM _ [] venues) with (Legacy.scores_loop s venues).
  by destruct (Legacy.scores_loop s venues).
Qed.

Lemma main_body_Ok u base venues :
  ∃ pg, main u {| base_profile_json := Some base; venues_json := Some venues |}
        = Ok pg.
Proof.
  unfold main. simpl.
  destruct (foldM_total (λ cm kv, value ← slider u (modifier_label kv.1) (-1) 1 0
                                             (1 # 10);
                                  Ok (dict_set kv.1 value cm)) base [])
    as [cm Hcm]; [intros; rewrite slider_modifier; simpl; eauto|].
  unfold context_modifier. rewrite Hcm. simpl.
  destruct (foldM_total (λ sess k, b ← dict_index k base;
              Ok (dict_set k (py_max 0 (py_min 1 (b + dict_get_default k 0 cm)%Q))
                    sess)) (dict_keys base) []) as [sp Hsp].
  { intros sess k Hk. destruct (dict_index_key k base Hk) as [b ->]. simpl. eauto. }
  unfold session_profile. rewrite Hsp. simpl.
  change (foldM _ [] venues) with (Legacy.scores_loop sp venues).
  rewrite Legacy.scores_loop_total. simpl. eauto.
Qed.

Lemma explorer_main_Ok u base venues :
  dict_wf base →
  main u {| base_profile_json := Some base; venues_json := Some venues |}
  = Ok {| session := Legacy.session_spec base (modifier_spec u base);
          shown_session :=
            Legacy.rounded (Legacy.session_spec base (modifier_spec u base));
          shown_scores :=
            rank_scores (qualified (Legacy.session_spec base (modifier_spec u base))
                           venues) |}.
Proof.
  intros Hwf. rewrite main_script; simpl; [|by intros ? [= <-]|done..].
  unfold script_files. simpl. by rewrite Legacy.main_Ok.
Qed.

Lemma session_get u base k :
  dict_get k (Legacy.session_spec base (modifier_spec u base))
  = (λ b, Legacy.clamp (b + modifier_value u k)) <$> dict_get k base.
Proof.
  rewrite Legacy.session_spec_get. unfold dict_get_default.
  rewrite modifier_spec_get. by destruct (dict_get k base).
Qed.

(** ** Properties of the page *)

(** C32: the page shows what the command-line script prints when its
    modifier file holds the values of the sliders. *)
Theorem main_is_script u fs :
  (∀ base, base_profile_json fs = Some base → dict_wf base) →
  is_Some (base_profile_json fs) → is_Some (venues_json fs) →
  main u fs = as_page <$> Legacy.main (script_files u fs).
Proof. apply main_script. Qed.

(** C34: the session profile of the page has the traits of the base
    profile; each value is the base value plus what the slider of the
    trait holds, clamped to the unit interval, and a slider holds a
    value between -1 and 1. *)
Theorem explorer_session_profile u base venues :
  dict_wf base →
  ∃ pg, main u {| base_profile_json := Some base; venues_json := Some venues |}
        = Ok pg
    ∧ dict_keys (session pg) = dict_keys base
    ∧ Forall (λ kv, unit_interval kv.2) (session pg)
    ∧ ∀ k, (-1 <= modifier_value u k <= 1)%Q
           ∧ dict_get k (session pg)
             = (λ b, Legacy.clamp (b + modifier_value u k)) <$> dict_get k base.
Proof.
  intros Hwf. eexists. split; [by apply explorer_main_Ok|]. simpl. split_and!.
  - apply Legacy.session_spec_keys.
  - apply Legacy.session_spec_range.
  - intros k. split; [apply modifier_value_range|apply session_get].
Qed.

(** With the sliders untouched, a base profile in the unit
    interval is the session profile. *)
Theorem untouched_sliders_keep_base base venues k b :
  dict_wf base → Forall (λ kv, unit_interval kv.2) base →
  dict_get k base = Some b →
  ∃ pg x, main no_input {| base_profile_json := Some base;
                           venues_json := Some venues |} = Ok pg
    ∧ dict_get k (session pg) = Some x ∧ (x == b)%Q.
Proof.
  intros Hwf Hall Hk. eexists _, _. split; [by apply explorer_main_Ok|]. simpl.
  rewrite session_get, Hk. split; [done|]. rewrite modifier_value_untouched.
  rewrite <- (Legacy.clamp_id b) at 2.
  - unfold Legacy.clamp. case_py; lra.
  - apply dict_get_Some_elem in Hk. by apply (proj1 (Forall_forall _ _) Hall (k, b)).
Qed.

(** The page fails exactly when one of its two files is missing,
    with [FileNotFoundError] for the first missing one; no slider and no
    score raises. *)
Theorem explorer_raises_iff u fs e :
  main u fs = Raise e ↔
  (base_profile_json fs = None ∧ e = FileNotFoundError "base_profile.json")
  ∨ (is_Some (base_profile_json fs) ∧ venues_json fs = None
     ∧ e = FileNotFoundError "venues.json").
Proof.
  destruct fs as [[base|] [venues|]]; unfold main; simpl.
  - destruct (main_body_Ok u base venues) as [pg Hpg]. unfold main in Hpg.
    simpl in Hpg. rewrite Hpg. split; [done|]. by intros [[??]|(?&?&?)].
  - split; [intros [= <-]; eauto|]. by intros [[??]|(?&?&->)].
  - split; [intros [= <-]; eauto|]. intros [[??]|([]&?&?)]; by simplify_eq.
  - split; [intros [= <-]; eauto|]. intros [[??]|([]&?&?)]; by simplify_eq.
Qed.

(** Every venue is shown exactly once, in descending score order,
    with the dot product of the session profile and the venue. *)
Theorem explorer_ranks_all_venues u base venues :
  dict_wf base →
  ∃ pg, main u {| base_profile_json := Some base; venues_json := Some venues |}
        = Ok pg
    ∧ (shown_scores pg).*1 ≡ₚ dict_keys venues
    ∧ StronglySorted score_ge (shown_scores pg)
    ∧ ∀ name q, (name, q) ∈ shown_scores pg →
        ∃ v, (name, v) ∈ venues ∧ (q == Engine.dot (session pg) v)%Q.
Proof.
  intros Hwf. eexists. split; [by apply explorer_main_Ok|]. simpl. split_and!.
  - by rewrite rank_scores_Permutation, Legacy.qualified_all.
  - apply rank_scores_sorted.
  - intros name q (v & Hin & Hs)%rank_scores_elem%elem_of_qualified.
    exists v. split; [done|]. unfold score, Legacy.legacy_scorer in Hs.
    destruct (Legacy.flat_score_Ok (Legacy.session_spec base (modifier_spec u base)) v)
      as (q' & Hq' & Hdot); [by apply Legacy.session_spec_wf|].
    rewrite Hq' in Hs. by simplify_eq/=.
Qed.

(** The session profile is shown to two decimals: trait by trait
    the value shown is the rounded session value, at most 1/200 away
    from it. *)
Theorem shown_session_rounded u fs pg k :
  main u fs = Ok pg →
  dict_keys (shown_session pg) = dict_keys (session pg)
  ∧ dict_get k (shown_session pg) = (λ v, py_round v 2) <$> dict_get k (session pg)
  ∧ ∀ v, dict_get k (session pg) = Some v →
         (Qabs (py_round v 2 - v) <= 1 # 200)%Q.
Proof.
  unfold main.
  intros (b & _ & (vs & _ & (cm & _ & (sp & _ & (sc & _ & [= <-])%bind_Ok_inv
    )%bind_Ok_inv)%bind_Ok_inv)%bind_Ok_inv)%bind_Ok_inv.
  simpl. split_and!.
  - apply Legacy.rounded_keys.
  - apply Legacy.rounded_get.
  - intros v _. apply (py_round_error v 2).
Qed.

(** ** The properties at work *)

Lemma main_is_script_witness :
  main moved files_ex = as_page <$> Legacy.main (script_files moved files_ex).
Proof.
  apply main_is_script; [intros ? [= <-]; decide_compute|by eexists..].
Defined.

Lemma explorer_session_profile_witness :
  ∃ pg, main moved files_ex = Ok pg
    ∧ dict_keys (session pg) = dict_keys base_ex
    ∧ Forall (λ kv, unit_interval kv.2) (session pg)
    ∧ ∀ k, (-1 <= modifier_value moved k <= 1)%Q
           ∧ dict_get k (session pg)
             = (λ b, Legacy.clamp (b + modifier_value moved k)) <$> dict_get k base_ex.
Proof. apply (explorer_session_profile moved base_ex venues_ex). decide_compute. Defined.

Lemma untouched_sliders_keep_base_witness :
  ∃ pg x, main no_input files_ex = Ok pg
    ∧ dict_get "price" (session pg) = Some x ∧ (x == 0.5)%Q.
Proof.
  apply (untouched_sliders_keep_base base_ex venues_ex "price" 0.5%Q);
    [decide_compute|decide_compute|reflexivity].
Defined.

Lemma explorer_ranks_all_venues_witness :
  ∃ pg, main moved files_ex = Ok pg
    ∧ (shown_scores pg).*1 ≡ₚ dict_keys venues_ex
    ∧ StronglySorted score_ge (shown_scores pg)
    ∧ ∀ name q, (name, q) ∈ shown_scores pg →
        ∃ v, (name, v) ∈ venues_ex ∧ (q == Engine.dot (session pg) v)%Q.
Proof. apply (explorer_ranks_all_venues moved base_ex venues_ex). decide_compute. Defined.

Lemma shown_session_rounded_witness :
  ∃ pg, main moved files_ex = Ok pg
    ∧ dict_keys (shown_session pg) = dict_keys (session pg)
    ∧ dict_get "price" (shown_session pg)
      = (λ v, py_round v 2) <$> dict_get "price" (session pg)
    ∧ ∀ v, dict_get "price" (session pg) = Some v →
           (Qabs (py_round v 2 - v) <= 1 # 200)%Q.
Proof.
  eexists. split; [vm_compute; reflexivity|].
  apply (shown_session_rounded moved files_ex _ "price"). vm_compute; reflexivity.
Defined.

End Explorer.
