(* ===== verification/Script.v ===== *)
(** * Scripts that read and write files

    The user side of the program reads and writes files as it goes, and
    an exception leaves behind what was written before it.  [io A] is a
    computation on a [world] (the files and the messages shown so far)
    that returns a value or raises, and in both cases the world it
    leaves.  [st.rerun()] raises [RerunException]: the run stops there.

    [for_each] is a [for] loop whose body is such a computation.
    [raises_only P m] says that every exception of [m] is in [P]; its
    lemmas follow the shape of a script, and the tactic [raises] applies
    them. *)

From S2P Require Import Prelude PyDict Profile Streamlit Helpers.

Record world : Type := mkWorld {
  files : store;
  screen : list element;
}.

Definition io (A : Type) : Type := world → result A * world.

#[export] Instance io_ret : MRet io := λ A a w, (Ok a, w).
#[export] Instance io_bind : MBind io := λ A B f m w,
  match m w with
  | (Ok a, w') => f a w'
  | (Raise e, w') => (Raise e, w')
  end.
#[export] Instance io_fmap : FMap io := λ A B f m w,
  match m w with
  | (Ok a, w') => (Ok (f a), w')
  | (Raise e, w') => (Raise e, w')
  end.

(** A computation that touches no file. *)
Definition pure {A} (r : result A) : io A := λ w, (r, w).

(** [raise e]. *)
Definition raise {A} (e : exn) : io A := pure (Raise e).

(** [st.rerun()]. *)
Definition rerun {A} : io A := raise RerunException.

(** A message on the page. *)
Definition show (e : element) : io unit :=
  λ w, (Ok tt, mkWorld (files w) (screen w ++ [e])).

(** A function of [src/helpers.py] that reads the files. *)
Definition from_files {A} (f : store → result A) : io A := λ w, (f (files w), w).

(** [load_json(path)] and [save_json(path, data)] on the files of the
    world. *)
Definition load_json {A} (f : file A) : io A := from_files (Helpers.load_json f).

Definition save_json {A} (f : file A) (data : A) : io unit :=
  λ w, match Helpers.save_json f data (files w) with
       | Ok fs => (Ok tt, mkWorld fs (screen w))
       | Raise e => (Raise e, w)
       end.

(** A change of the file system that cannot fail, such as
    [os.makedirs(path, exist_ok=True)]. *)
Definition change_files (f : store → store) : io unit :=
  λ w, (Ok tt, mkWorld (f (files w)) (screen w)).

(** What a computation reads from the files. *)
Definition read_files {A} (f : store → A) : io A := λ w, (Ok (f (files w)), w).

(** A [for] loop. *)
Fixpoint for_each {A B} (f : B → A → io B) (b : B) (l : list A) : io B :=
  match l with
  | [] => mret b
  | a :: l' => b' ← f b a; for_each f b' l'
  end.

(** The result and the world a computation leaves. *)
Definition result_of {A} (m : io A) (w : world) : result A := (m w).1.
Definition world_of {A} (m : io A) (w : world) : world := (m w).2.

(** The exceptions a computation may raise are all in [P]. *)
Definition raises_only {A} (P : exn → Prop) (m : io A) : Prop :=
  ∀ w e w', m w = (Raise e, w') → P e.

(** Unfolds the computations of this file in the goal: what is left is
    a cascade of [match]es on what the files hold and what the widgets
    return. *)
Ltac io_unfold :=
  unfold rerun, raise, load_json, save_json, from_files, change_files, read_files,
    show, pure, mbind, io_bind, mret, io_ret, fmap, io_fmap;
  cbn [files screen fst snd].

(** ** Laws *)

Lemma io_bind_eq {A B} (m : io A) (f : A → io B) w :
  (m ≫= f) w
  = match m w with
    | (Ok a, w') => f a w'
    | (Raise e, w') => (Raise e, w')
    end.
Proof. done. Qed.

Lemma io_ret_bind {A B} (a : A) (f : A → io B) w : (mret a ≫= f) w = f a w.
Proof. done. Qed.

Lemma io_bind_ret {A} (m : io A) w : (m ≫= mret) w = m w.
Proof. unfold mbind, io_bind. by destruct (m w) as [[a|e] w']. Qed.

Lemma io_bind_assoc {A B C} (m : io A) (f : A → io B) (g : B → io C) w :
  ((m ≫= f) ≫= g) w = (m ≫= λ a, f a ≫= g) w.
Proof. unfold mbind, io_bind. by destruct (m w) as [[a|e] w']. Qed.

Lemma io_bind_Ok {A B} (m : io A) (f : A → io B) w a w' :
  m w = (Ok a, w') → (m ≫= f) w = f a w'.
Proof. unfold mbind, io_bind. by intros ->. Qed.

Lemma io_bind_Raise {A B} (m : io A) (f : A → io B) w e w' :
  m w = (Raise e, w') → (m ≫= f) w = (Raise e, w').
Proof. unfold mbind, io_bind. by intros ->. Qed.

Lemma io_bind_Ok_inv {A B} (m : io A) (f : A → io B) w b w2 :
  (m ≫= f) w = (Ok b, w2) → ∃ a w1, m w = (Ok a, w1) ∧ f a w1 = (Ok b, w2).
Proof.
  unfold mbind, io_bind. destruct (m w) as [[a|e] w1]; [eauto|done].
Qed.

Lemma io_bind_Raise_inv {A B} (m : io A) (f : A → io B) w e w2 :
  (m ≫= f) w = (Raise e, w2) →
  m w = (Raise e, w2) ∨ ∃ a w1, m w = (Ok a, w1) ∧ f a w1 = (Raise e, w2).
Proof.
  unfold mbind, io_bind. destruct (m w) as [[a|e'] w1]; [eauto|].
  intros [= -> ->]. by left.
Qed.

Lemma io_fmap_Ok_inv {A B} (f : A → B) (m : io A) w b w' :
  (f <$> m) w = (Ok b, w') → ∃ a, m w = (Ok a, w') ∧ b = f a.
Proof.
  unfold fmap, io_fmap. destruct (m w) as [[a|e] w1]; [|done].
  intros [= <- <-]. eauto.
Qed.

(** ** What a computation raises *)

Section raises.
Context (P : exn → Prop).

Lemma raises_only_ret {A} (a : A) : raises_only P (mret a).
Proof. by intros w e w'. Qed.

Lemma raises_only_bind {A B} (m : io A) (f : A → io B) :
  raises_only P m → (∀ a, raises_only P (f a)) → raises_only P (m ≫= f).
Proof.
  intros Hm Hf w e w'. rewrite io_bind_eq.
  destruct (m w) as [[a|e'] w1] eqn:E; [apply Hf|].
  intros [= -> ->]. by eapply Hm.
Qed.

Lemma raises_only_fmap {A B} (g : A → B) (m : io A) :
  raises_only P m → raises_only P (g <$> m).
Proof.
  intros Hm w e w'. unfold fmap, io_fmap.
  destruct (m w) as [[a|e'] w1] eqn:E; [done|]. intros [= -> ->]. by eapply Hm.
Qed.

Lemma raises_only_pure {A} (r : result A) : raises_within P r → raises_only P (pure r).
Proof. intros Hr w e w' [= -> _]. by apply Hr. Qed.

Lemma raises_only_show el : raises_only P (show el).
Proof. by intros w e w'. Qed.

Lemma raises_only_change_files f : raises_only P (change_files f).
Proof. by intros w e w'. Qed.

Lemma raises_only_read_files {A} (f : store → A) : raises_only P (read_files f).
Proof. by intros w e w'. Qed.

Lemma raises_only_rerun {A} : P RerunException → raises_only P (rerun (A:=A)).
Proof. by intros HP w e w' [= <- _]. Qed.

Lemma raises_only_load_json {A} (f : file A) :
  P (FileNotFoundError (path f)) → raises_only P (load_json f).
Proof.
  intros HP w e w'. unfold load_json, from_files.
  by intros [= [_ ->]%load_json_Raise_inv _].
Qed.

Lemma raises_only_save_json {A} (f : file A) data :
  P (FileNotFoundError (path f)) → raises_only P (save_json f data).
Proof.
  intros HP w e w'. unfold save_json, Helpers.save_json.
  destruct (writable f (files w)); [done|]. by intros [= <- _].
Qed.

Lemma raises_only_from_files {A} (f : store → result A) :
  (∀ fs, raises_within P (f fs)) → raises_only P (from_files f).
Proof. intros Hf w e w' [= He _]. by eapply Hf. Qed.

Lemma raises_only_if {A} (b : bool) (m1 m2 : io A) :
  raises_only P m1 → raises_only P m2 → raises_only P (if b then m1 else m2).
Proof. by destruct b. Qed.

End raises.

#[export] Hint Resolve raises_only_ret raises_only_bind raises_only_fmap
  raises_only_pure raises_only_show raises_only_change_files raises_only_read_files
  raises_only_rerun raises_only_load_json raises_only_save_json raises_only_if
  raises_only_from_files : raises.

(** Decides what a computation built from the pieces of this file
    raises. *)
Ltac raises := repeat (intros; cbv zeta; first
  [ solve [eauto 3 with raises]
  | apply raises_only_bind | apply raises_only_if | apply raises_only_fmap
  | apply raises_only_pure | apply raises_within_foldM | apply raises_within_bind ]).

(** A loop that touches no file is a [foldM]. *)
Lemma for_each_pure {A B} (f : B → A → result B) b l w :
  for_each (λ b a, pure (f b a)) b l w = (foldM f b l, w).
Proof.
  revert b. induction l as [|a l IH]; intros b; [done|].
  simpl. rewrite io_bind_eq. unfold pure at 1.
  destruct (f b a) as [b'|e]; simpl; [apply IH|done].
Qed.

Lemma load_json_world {A} (f : file A) w : world_of (load_json f) w = w.
Proof. done. Qed.

Lemma save_json_Ok {A} (f : file A) data w :
  writable f (files w) = true →
  save_json f data w = (Ok tt, mkWorld (write f data (files w)) (screen w)).
Proof. unfold save_json, Helpers.save_json. by intros ->. Qed.

Lemma save_json_screen {A} (f : file A) data w :
  screen (world_of (save_json f data) w) = screen w.
Proof.
  unfold world_of, save_json. by destruct (Helpers.save_json f data (files w)).
Qed.
