(* ===== verification/Users.v ===== *)
(** * User profiles: [src/bu1.py], lines 36-51

    A user is a directory [users/<name>/] with the file
    [base_profile.json].  [create_new_user] makes the directory, then
    copies the default profile into it; when the default profile is
    missing it raises after the directory is made. *)

From S2P Require Import Prelude PyDict Profile Streamlit Helpers Script.

Module Users.

(** [get_user_list()]: the directories of [users/]; [os.listdir] raises
    when [users/] does not exist. *)
Definition get_user_list : io (list string) :=
  λ w, match users_content (files w) with
       | Some users => (Ok (dict_keys users), w)
       | None => (Raise (FileNotFoundError "users"), w)
       end.

(** [load_user_profile(username)]. *)
Definition load_user_profile (username : string) : io Profile :=
  load_json (user_profile_json username).

(** [save_user_profile(username, profile)]. *)
Definition save_user_profile (username : string) (profile : Profile) : io unit :=
  save_json (user_profile_json username) profile.

(** [create_new_user(username)]. *)
Definition create_new_user (username : string) : io Profile :=
  _ ← change_files (makedirs_user username);
  default_profile ← load_json default_profile_json;
  _ ← save_user_profile username default_profile;
  mret default_profile.

(** ** Reference definitions *)

(** The users of a store, in the order [get_user_list] returns them. *)
Definition user_names (fs : store) : list string :=
  dict_keys (default [] (users_content fs)).

(** ** Example data *)

Definition default_profile_ex : Profile :=
  {| scalars := Some [("noise_level", 1 # 2); ("price", 1 # 2)];
     tags := Some [("wifi", 0%Z)];
     categoricals := Some [] |}.

(** An installation with no user yet, with and without the default
    profile. *)
Definition install (defaults : option Profile) : world :=
  mkWorld (mkStore (Some []) (Some ["noise_level"; "price"]) (Some ["wifi"])
             (Some [("music", ["jazz"; "rock"])]) defaults (Some []))
          [].

(** ** Properties *)

Lemma user_names_makedirs username fs :
  user_names (makedirs_user username fs)
  = if decide (username ∈ user_names fs) then user_names fs
    else user_names fs ++ [username].
Proof.
  unfold user_names, makedirs_user, dict_setdefault. simpl.
  destruct (dict_get username _) eqn:E.
  - rewrite decide_True; [done|]. apply dict_get_is_Some. by rewrite E.
  - rewrite dict_keys_set. by apply dict_get_None in E; rewrite !decide_False.
Qed.

Lemma user_names_update username f fs :
  user_names (user_update username f fs) = user_names fs.
Proof.
  unfold user_names, user_update.
  destruct (users_content fs) as [users|] eqn:Hu; [|by rewrite Hu].
  destruct (dict_get username users) eqn:E; [|by rewrite Hu]. simpl.
  rewrite dict_keys_set, decide_True; [done|]. apply dict_get_is_Some. by rewrite E.
Qed.

Lemma get_user_list_names w :
  is_Some (users_content (files w)) → get_user_list w = (Ok (user_names (files w)), w).
Proof. unfold get_user_list, user_names. by intros [users ->]. Qed.

Lemma makedirs_first_user username fs :
  users_content fs = Some [] →
  users_content (makedirs_user username fs) = Some [(username, mkUserDir None None)].
Proof. unfold makedirs_user. simpl. by intros ->. Qed.

Lemma users_content_makedirs username fs : is_Some (users_content (makedirs_user username fs)).
Proof. done. Qed.

Lemma users_content_update username f fs :
  is_Some (users_content fs) → is_Some (users_content (user_update username f fs)).
Proof.
  unfold user_update. intros [users Hu]. rewrite Hu.
  by destruct (dict_get username users); [|rewrite Hu].
Qed.

(** A profile is loaded from the directory of the user alone. *)
Lemma load_user_profile_lookup username w :
  result_of (load_user_profile username) w
  = match user_lookup username (files w) ≫= base_profile_content with
    | Some p => Ok p
    | None => Raise (FileNotFoundError ("users/" +:+ username +:+ "/base_profile.json"))
    end.
Proof. done. Qed.

Lemma get_user_list_Ok users w :
  users_content (files w) = Some users → get_user_list w = (Ok (dict_keys users), w).
Proof. unfold get_user_list. by intros ->. Qed.

Lemma load_user_profile_Raise username w :
  user_lookup username (files w) ≫= base_profile_content = None →
  load_user_profile username w
  = (Raise (FileNotFoundError ("users/" +:+ username +:+ "/base_profile.json")), w).
Proof.
  intros Hn. unfold load_user_profile, load_json, from_files, Helpers.load_json.
  cbn [read user_profile_json]. by rewrite Hn.
Qed.

Lemma create_new_user_Ok username default_profile w :
  defaults_content (files w) = Some default_profile →
  create_new_user username w
  = (Ok default_profile,
     mkWorld (write (user_profile_json username) default_profile
                (makedirs_user username (files w)))
             (screen w)).
Proof.
  intros Hd. unfold create_new_user, save_user_profile.
  rewrite io_bind_eq. simpl. rewrite io_bind_eq. unfold load_json at 1.
  unfold Helpers.load_json. simpl. rewrite Hd. rewrite io_bind_eq.
  rewrite save_json_Ok; [done|]. simpl. apply bool_decide_eq_true.
  by rewrite user_lookup_makedirs.
Qed.

Lemma create_new_user_Raise username w :
  defaults_content (files w) = None →
  create_new_user username w
  = (Raise (FileNotFoundError "defaults/base_profile.json"),
     mkWorld (makedirs_user username (files w)) (screen w)).
Proof.
  intros Hd. unfold create_new_user. rewrite io_bind_eq. simpl.
  rewrite io_bind_eq. unfold load_json at 1, Helpers.load_json. simpl.
  by rewrite Hd.
Qed.

(** ** What the operations raise *)

Lemma get_user_list_expected : raises_only expected get_user_list.
Proof.
  intros w e w'. unfold get_user_list.
  destruct (users_content (files w)); [done|]. by intros [= <- _].
Qed.

Lemma load_user_profile_expected username :
  raises_only expected (load_user_profile username).
Proof. unfold load_user_profile. raises. Qed.

Lemma save_user_profile_expected username profile :
  raises_only expected (save_user_profile username profile).
Proof. unfold save_user_profile. raises. Qed.

Lemma create_new_user_expected username : raises_only expected (create_new_user username).
Proof. unfold create_new_user, save_user_profile. raises. Qed.

#[export] Hint Resolve get_user_list_expected load_user_profile_expected
  save_user_profile_expected create_new_user_expected : raises.

(** ** Properties of the creation of a user *)

(** C27: with a default profile on disk, creating a user whose name is
    not taken returns the default profile, stores it as the profile of
    the user, adds the user at the end of the list of users, and leaves
    the directory of every other user as it was. *)
Theorem create_new_user_stores_default username d w :
  read default_profile_json (files w) = Some d → username ∉ user_names (files w) →
  ∃ w', create_new_user username w = (Ok d, w')
    ∧ result_of (load_user_profile username) w' = Ok d
    ∧ result_of get_user_list w' = Ok (user_names (files w) ++ [username])
    ∧ (∀ other, other ≠ username →
         user_lookup other (files w') = user_lookup other (files w))
    ∧ screen w' = screen w.
Proof.
  intros Hd Hnew. eexists. split; [by apply create_new_user_Ok|].
  cbn [files screen write user_profile_json]. split_and!; [| | |done].
  - rewrite load_user_profile_lookup. cbn [files].
    by rewrite user_lookup_update, user_lookup_makedirs.
  - unfold result_of. rewrite get_user_list_names; cbn [files].
    + by rewrite user_names_update, user_names_makedirs, decide_False.
    + apply users_content_update, users_content_makedirs.
  - intros other Hne.
    by rewrite user_lookup_update_ne, user_lookup_makedirs_ne.
Qed.

Lemma create_new_user_stores_default_witness :
  ∃ w', create_new_user "ann" (install (Some default_profile_ex))
        = (Ok default_profile_ex, w')
    ∧ result_of (load_user_profile "ann") w' = Ok default_profile_ex
    ∧ result_of get_user_list w' = Ok ([] ++ ["ann"])
    ∧ (∀ other, other ≠ "ann" →
         user_lookup other (files w')
         = user_lookup other (files (install (Some default_profile_ex))))
    ∧ screen w' = [].
Proof.
  apply (create_new_user_stores_default "ann" default_profile_ex
           (install (Some default_profile_ex))); [reflexivity|].
  intros H. inversion H.
Defined.

(** C28: without a default profile on disk, creating a user raises
    after the directory of the user is made: the user is listed from
    then on, and has no profile to load. *)
Theorem create_new_user_without_defaults username w :
  read default_profile_json (files w) = None → username ∉ user_names (files w) →
  ∃ w', create_new_user username w
        = (Raise (FileNotFoundError "defaults/base_profile.json"), w')
    ∧ result_of get_user_list w' = Ok (user_names (files w) ++ [username])
    ∧ result_of (load_user_profile username) w'
      = Raise (FileNotFoundError ("users/" +:+ username +:+ "/base_profile.json")).
Proof.
  intros Hd Hnew. eexists. split; [by apply create_new_user_Raise|].
  cbn [files screen]. split.
  - unfold result_of. rewrite get_user_list_names by apply users_content_makedirs.
    cbn [files fst]. by rewrite user_names_makedirs, decide_False.
  - rewrite load_user_profile_lookup. cbn [files].
    rewrite user_lookup_makedirs.
    assert (user_lookup username (files w) = None) as ->; [|done].
    unfold user_lookup, user_names in *.
    destruct (users_content (files w)) as [users|]; [|done].
    by apply dict_get_None.
Qed.

Lemma create_new_user_without_defaults_witness :
  ∃ w', create_new_user "ann" (install None)
        = (Raise (FileNotFoundError "defaults/base_profile.json"), w')
    ∧ result_of get_user_list w' = Ok ([] ++ ["ann"])
    ∧ result_of (load_user_profile "ann") w'
      = Raise (FileNotFoundError ("users/" +:+ "ann" +:+ "/base_profile.json")).
Proof.
  apply (create_new_user_without_defaults "ann" (install None)); [reflexivity|].
  intros H. inversion H.
Defined.

End Users.
