(* ===== verification/UserViews.v ===== *)
(** * The user views: [src/bu1.py], lines 56-147

    [user_preferences_view] edits the stored profile of a user;
    [user_scenario_view] builds the session profile of one scenario from
    the stored profile or from a template, can save it as a template,
    and shows the venues that match it (the matching block is
    [Ranking.match_venues] with the scorer of [Engine.v]).

    A scalar is shown as a whole number from 0 to 10,
    [int(value * 10)].  The scenario view divides what the number input
    returns by 10; the preferences view does not.

    The first argument of a widget is its identity: its [key] when the
    call gives one, its label otherwise. *)

From S2P Require Import Prelude PyDict PySort PyStr Profile Ranking Engine.
From S2P Require Import Streamlit Helpers Script Users.

Module UserViews.

#[local] Existing Instance Engine.engine_scorer.
#[local] Existing Instance Engine.engine_total.

(** ** The code *)

(** The three loops of the preferences view. *)
Definition preferences_scalar (u : ui) (profile : Profile) (item : string * Q)
    : result Profile :=
  let '(trait, value) := item in
  let label := label_of trait in
  v ← number_input u label 0 10 (py_int (value * 10)) 1;
  Ok (set_scalar trait (inject_Z v) profile).

Definition preferences_tag (u : ui) (profile : Profile) (item : string * Z)
    : result Profile :=
  let '(tag, value) := item in
  let label := label_of tag in
  Ok (set_tag tag (if checkbox u label (bool_decide (value = 1%Z)) then 1%Z else 0%Z)
        profile).

Definition preferences_categorical (u : ui) (profile : Profile)
    (item : string * list string) : result Profile :=
  let '(cat, choices) := item in
  selected ← multiselect u (label_of cat +:+ " (optional)") choices
               (dict_get_default cat [] (section (categoricals profile)));
  Ok (set_categorical cat selected profile).

(** [user_preferences_view(username)]. *)
Definition user_preferences_view (u : ui) (username : string) : io unit :=
  _ ← show (Markdown "### ⚙️ Update Preferences");
  profile ← Users.load_user_profile username;
  profile ← pure (foldM (preferences_scalar u) profile (section (scalars profile)));
  profile ← pure (foldM (preferences_tag u) profile (section (tags profile)));
  options ← from_files Helpers.load_categorical_options;
  profile ← pure (foldM (preferences_categorical u) profile options);
  if button u "Save Preferences" then
    _ ← Users.save_user_profile username profile;
    show (Success "Preferences saved.")
  else mret tt.

(** The three loops of the scenario view. *)
Definition scenario_scalar (u : ui) (session_profile : Profile) (item : string * Q)
    : result Profile :=
  let '(trait, value) := item in
  v ← number_input u ("scalar_" +:+ trait) 0 10 (py_int (value * 10)) 1;
  Ok (set_scalar trait (inject_Z v / 10)%Q session_profile).

Definition scenario_tag (u : ui) (session_profile : Profile) (item : string * Z)
    : result Profile :=
  let '(tag, value) := item in
  Ok (set_tag tag
        (if checkbox u ("tag_" +:+ tag) (bool_decide (value = 1%Z)) then 1%Z else 0%Z)
        session_profile).

Definition scenario_categorical (u : ui) (base_profile session_profile : Profile)
    (item : string * list string) : result Profile :=
  let '(cat, choices) := item in
  selected ← multiselect u ("cat_" +:+ cat) choices
               (dict_get_default cat [] (section (categoricals base_profile)));
  Ok (set_categorical cat selected session_profile).

(** The names of the templates of a user: the files of the directory
    without their extension. *)
Definition template_names (username : string) (fs : store) : list string :=
  dict_keys (default [] (user_lookup username fs ≫= templates_content)).

(** The form of the scenario view: from the profile it starts from to
    the session profile. *)
Definition scenario_form (u : ui) (base_profile : Profile) : io Profile :=
  let session_profile := empty_profile in
  session_profile ←
    pure (foldM (scenario_scalar u) session_profile (section (scalars base_profile)));
  session_profile ←
    pure (foldM (scenario_tag u) session_profile (section (tags base_profile)));
  options ← from_files Helpers.load_categorical_options;
  pure (foldM (scenario_categorical u base_profile) session_profile options).

(** What the scenario view shows: the session profile and the matches. *)
Record scenario : Type := mkScenario {
  session_profile : Profile;
  matches : display;
}.

(** The template block: the directory of templates is made, its
    templates are offered, and the one picked replaces the profile the
    form starts from. *)
Definition choose_template (u : ui) (base_profile : Profile) (username : string)
    : io Profile :=
  _ ← change_files (makedirs_templates username);
  template_names ← read_files (template_names username);
  selected_template ←
    pure (selectbox u "📂 Load a scenario template:" "None" template_names 0);
  if bool_decide (selected_template ≠ "None") then
    base_profile ← load_json (template_json username selected_template);
    _ ← show (Info ("Loaded template: " +:+ selected_template));
    mret base_profile
  else mret base_profile.

(** The block that saves the session profile as a template. *)
Definition save_template (u : ui) (username : string) (session_profile : Profile)
    : io unit :=
  let template_name := text_input u "Template name" EmptyString in
  if button u "Save Scenario Template" then
    if negb (str_truthy template_name) then
      show (Warning "Please enter a name.")
    else
      _ ← save_json (template_json username template_name) session_profile;
      _ ← show (Success ("Template '" +:+ template_name +:+ "' saved."));
      rerun
  else mret tt.

(** [user_scenario_view(base_profile, username)]. *)
Definition user_scenario_view (u : ui) (base_profile : Profile) (username : string)
    : io scenario :=
  _ ← show (Markdown "### 🎯 Start a Scenario");
  venues ← load_json venues_json;
  base_profile ← choose_template u base_profile username;
  session_profile ← scenario_form u base_profile;
  _ ← save_template u username session_profile;
  matches ← pure (match_venues session_profile venues);
  _ ← show (Subheader "🏪 Venue Match Scores");
  mret (mkScenario session_profile matches).

(** [user_templates_view()]. *)
Definition user_templates_view : io unit :=
  _ ← show (Markdown "### 🧩 Manage Templates");
  show (Info "Template management features coming soon.").

(** ** Reference definitions *)

(** The three loops of the preferences view as one function of the
    stored profile. *)
Definition edit_preferences (u : ui) (options : dict (list string)) (p : Profile)
    : result Profile :=
  p1 ← foldM (preferences_scalar u) p (section (scalars p));
  p2 ← foldM (preferences_tag u) p1 (section (tags p1));
  foldM (preferences_categorical u) p2 options.

(** The three loops of the scenario form as one function of the
    profile the form starts from. *)
Definition scenario_session (u : ui) (options : dict (list string))
    (base_profile : Profile) : result Profile :=
  sp ← foldM (scenario_scalar u) empty_profile (section (scalars base_profile));
  sp ← foldM (scenario_tag u) sp (section (tags base_profile));
  foldM (scenario_categorical u base_profile) sp options.

(** What the scenario form puts under a trait, a tag, a category. *)
Definition scalar_value (u : ui) (item : string * Q) : result Q :=
  (λ z, inject_Z z / 10)%Q
    <$> number_input u ("scalar_" +:+ item.1) 0 10 (py_int (item.2 * 10)) 1.

Definition tag_value (u : ui) (item : string * Z) : result Z :=
  Ok (if checkbox u ("tag_" +:+ item.1) (bool_decide (item.2 = 1%Z)) then 1%Z else 0%Z).

Definition categorical_value (u : ui) (base_profile : Profile)
    (item : string * list string) : result (list string) :=
  multiselect u ("cat_" +:+ item.1) item.2
    (dict_get_default item.1 [] (section (categoricals base_profile))).

(** The widgets of a form as the browser shows them first. *)
Definition untouched_form (u : ui) : Prop :=
  number_state u = ∅ ∧ checkbox_state u = ∅ ∧ multiselect_state u = ∅.

(** The template the select box returns. *)
Definition picked (u : ui) (username : string) (fs : store) : result string :=
  selectbox u "📂 Load a scenario template:" "None"
    (template_names username (makedirs_templates username fs)) 0.

(** The world a user lives in: the stored profile and the options. *)
Definition user_has (username : string) (p : Profile) (w : world) : Prop :=
  read (user_profile_json username) (files w) = Some p.

Definition heading_preferences : element := Markdown "### ⚙️ Update Preferences".

(** ** Example data *)

Definition ann_profile : Profile :=
  {| scalars := Some [("noise_level", 3 # 10)];
     tags := Some [("wifi", 1%Z)];
     categoricals := Some [("music", ["jazz"])] |}.

Definition quiet_cafe : Profile :=
  {| scalars := Some [("noise_level", 2 # 10)];
     tags := Some [("wifi", 1%Z)];
     categoricals := Some [("music", ["jazz"])] |}.

Definition loud_bar : Profile :=
  {| scalars := Some [("noise_level", 9 # 10)];
     tags := Some [("wifi", 1%Z)];
     categoricals := Some [("music", ["rock"])] |}.

Definition two_venues : dict Profile := [("bar", loud_bar); ("cafe", quiet_cafe)].

Definition music : dict (list string) := [("music", ["jazz"; "rock"])].

(** A store with the user ann and the templates given. *)
Definition ann_world (templates : option (dict Profile)) : world :=
  mkWorld (mkStore (Some two_venues) (Some ["noise_level"]) (Some ["wifi"])
             (Some music) None
             (Some [("ann", mkUserDir (Some ann_profile) templates)]))
          [].

(** The user sets the noise level to 7 and saves the preferences. *)
Definition louder : ui :=
  mkUi ∅ ∅ ∅ ∅ ∅ {["Save Preferences"]} {["Noise Level" := 7%Z]}.

(** The user sets the noise level of the scenario to 8. *)
Definition night_out : ui :=
  mkUi ∅ ∅ ∅ ∅ ∅ ∅ {["scalar_noise_level" := 8%Z]}.

Definition night_profile : Profile :=
  {| scalars := Some [("noise_level", 8 # 10)];
     tags := Some [("wifi", 1%Z)];
     categoricals := Some [("music", ["jazz"])] |}.

Definition night_scenario : scenario :=
  mkScenario night_profile (Matches 2 [("cafe", 1.16%Q); ("bar", 0.72%Q)]).

(** The user opens the template "night" and touches nothing else. *)
Definition open_night : ui :=
  mkUi ∅ ∅ ∅ {["📂 Load a scenario template:" := "night"]} ∅ ∅ ∅.

(** ** The preferences view *)

Lemma user_has_write username p p' w s :
  user_has username p w →
  user_has username p' (mkWorld (write (user_profile_json username) p' (files w)) s).
Proof.
  unfold user_has. cbn [files]. intros Hp.
  apply (read_write (f := user_profile_json username)), read_writable.
  by rewrite Hp.
Qed.

Lemma write_profile_options username p fs :
  read categoricals_json (write (user_profile_json username) p fs)
  = read categoricals_json fs.
Proof.
  simpl. by destruct (user_update_others username
    (λ d, mkUserDir (Some p) (templates_content d)) fs) as (_&_&_&->&_).
Qed.

Section preferences.
Context (u : ui).

Lemma preferences_scalar_eq p item :
  preferences_scalar u p item
  = (x ← inject_Z <$> number_input u (label_of item.1) 0 10 (py_int (item.2 * 10)) 1;
     Ok (set_scalar item.1 x p)).
Proof. destruct item as [t v]. unfold preferences_scalar. by destruct (number_input _ _ _ _ _ _). Qed.

Lemma preferences_scalars_frame p l p1 :
  foldM (preferences_scalar u) p l = Ok p1 →
  tags p1 = tags p ∧ categoricals p1 = categoricals p.
Proof.
  apply (foldM_invariant (λ q, tags q = tags p ∧ categoricals q = categoricals p));
    [|done].
  by intros q [t v] q' _ Hq (x & _ & [= <-])%bind_Ok_inv.
Qed.

Lemma preferences_tags_frame p l p2 :
  foldM (preferences_tag u) p l = Ok p2 →
  scalars p2 = scalars p ∧ categoricals p2 = categoricals p.
Proof.
  apply (foldM_invariant (λ q, scalars q = scalars p ∧ categoricals q = categoricals p));
    [|done].
  by intros q [t v] q' _ Hq [= <-].
Qed.

Lemma preferences_categoricals_frame p l p3 :
  foldM (preferences_categorical u) p l = Ok p3 →
  scalars p3 = scalars p ∧ tags p3 = tags p.
Proof.
  apply (foldM_invariant (λ q, scalars q = scalars p ∧ tags q = tags p)); [|done].
  by intros q [c ch] q' _ Hq (x & _ & [= <-])%bind_Ok_inv.
Qed.

(** After the scalar loop every trait holds the whole number its
    number input returned. *)
Lemma preferences_scalars_get p p1 trait v :
  dict_wf (section (scalars p)) →
  foldM (preferences_scalar u) p (section (scalars p)) = Ok p1 →
  dict_get trait (section (scalars p)) = Some v →
  ∃ z, number_input u (label_of trait) 0 10 (py_int (v * 10)) 1 = Ok z
     ∧ dict_get trait (section (scalars p1)) = Some (inject_Z z).
Proof.
  intros Hwf Hfold Hget. apply dict_get_Some_elem in Hget.
  destruct (foldM_rows_get (section ∘ scalars) set_scalar fst
              (λ item _, inject_Z <$> number_input u (label_of item.1) 0 10
                                        (py_int (item.2 * 10)) 1)
              (preferences_scalar u) (λ _ _ _, eq_refl) preferences_scalar_eq
              (λ _ _ _ H, H) (section (scalars p)) p p1 (trait, v))
    as (x & Hx & Hx'); [|done..|].
  - intros [k a] [k' b] Hy Hz. simpl. intros <-.
    apply (dict_elem_get _ _ _ Hwf) in Hy, Hz. by simplify_eq.
  - simpl in *. apply fmap_Ok_inv in Hx as (z & Hz & ->). eauto.
Qed.

Lemma edit_preferences_scalar options p p3 trait v :
  dict_wf (section (scalars p)) → edit_preferences u options p = Ok p3 →
  dict_get trait (section (scalars p)) = Some v →
  ∃ z, number_input u (label_of trait) 0 10 (py_int (v * 10)) 1 = Ok z
     ∧ dict_get trait (section (scalars p3)) = Some (inject_Z z).
Proof.
  unfold edit_preferences.
  intros Hwf (p1 & H1 & (p2 & H2 & H3)%bind_Ok_inv)%bind_Ok_inv Hget.
  apply preferences_tags_frame in H2 as [H2 _].
  apply preferences_categoricals_frame in H3 as [H3 _]. rewrite H3, H2.
  by eapply preferences_scalars_get.
Qed.

(** The run of the view on a user that has a profile. *)
Lemma user_preferences_view_run username options p w :
  user_has username p w → read categoricals_json (files w) = Some options →
  user_preferences_view u username w
  = match edit_preferences u options p with
    | Ok p3 =>
        if button u "Save Preferences" then
          (Ok tt, mkWorld (write (user_profile_json username) p3 (files w))
                    (screen w ++ [heading_preferences; Success "Preferences saved."]))
        else (Ok tt, mkWorld (files w) (screen w ++ [heading_preferences]))
    | Raise e => (Raise e, mkWorld (files w) (screen w ++ [heading_preferences]))
    end.
Proof.
  intros Hp Ho. unfold user_preferences_view, edit_preferences.
  rewrite io_bind_eq. simpl. rewrite io_bind_eq.
  unfold Users.load_user_profile, load_json, from_files at 1, Helpers.load_json.
  cbn [files]. rewrite Hp. rewrite io_bind_eq. unfold pure at 1.
  destruct (foldM (preferences_scalar u) p _) as [p1|]; simpl; [|done].
  rewrite io_bind_eq. unfold pure at 1.
  destruct (foldM (preferences_tag u) p1 _) as [p2|]; simpl; [|done].
  rewrite io_bind_eq. unfold from_files at 1, Helpers.load_categorical_options,
    Helpers.load_json. cbn [files]. rewrite Ho. rewrite io_bind_eq. unfold pure at 1.
  destruct (foldM (preferences_categorical u) p2 options) as [p3|]; simpl; [|done].
  destruct (button u "Save Preferences"); [|done].
  rewrite io_bind_eq. unfold Users.save_user_profile. rewrite save_json_Ok.
  - unfold show. simpl. by rewrite <- app_assoc.
  - apply read_writable. by rewrite Hp.
Qed.

End preferences.

(** A stored scalar of 2 or more stops the scalar loop, whatever the
    user does. *)
Lemma preferences_scalars_Raise u p trait z :
  dict_get trait (section (scalars p)) = Some (inject_Z z) → (2 ≤ z)%Z →
  ∃ name, foldM (preferences_scalar u) p (section (scalars p))
          = Raise (StreamlitAPIException (label_of name)).
Proof.
  intros Hget%dict_get_Some_elem Hz.
  destruct (foldM_Raise_exists (preferences_scalar u) _ p _ Hget) as [e He].
  - intros q. unfold preferences_scalar, number_input.
    rewrite (py_int_times z 10), bool_decide_false by lia. eauto.
  - rewrite He.
    apply foldM_Raise_inv in He as (q & [t v] & _ & He).
    unfold preferences_scalar in He.
    apply bind_Raise_inv in He as [[_ ->]%number_input_Raise|(? & _ & [=])]. eauto.
Qed.

(** ** Properties of the preferences view *)

(** C12: Save Preferences stores, under every trait of the profile,
    the whole number from 0 to 10 its number input returned, not that
    number divided by 10. *)
Theorem preferences_save_stores_whole_numbers u username options p w w1 trait v :
  user_has username p w → read categoricals_json (files w) = Some options →
  dict_wf (section (scalars p)) →
  button u "Save Preferences" = true →
  user_preferences_view u username w = (Ok tt, w1) →
  dict_get trait (section (scalars p)) = Some v →
  ∃ z p3, user_has username p3 w1
    ∧ number_input u (label_of trait) 0 10 (py_int (v * 10)) 1 = Ok z
    ∧ (0 ≤ z ≤ 10)%Z
    ∧ dict_get trait (section (scalars p3)) = Some (inject_Z z).
Proof.
  intros Hp Ho Hwf Hsave Hrun Hget.
  rewrite (user_preferences_view_run u username options p) in Hrun by done.
  destruct (edit_preferences u options p) as [p3|] eqn:E; [|done].
  rewrite Hsave in Hrun. injection Hrun as <-.
  destruct (edit_preferences_scalar u options p p3 trait v Hwf E Hget) as (z & Hz & Hz').
  exists z, p3. pose proof (number_input_range _ _ _ _ _ _ _ Hz).
  split_and!; try done; try lia. by eapply user_has_write.
Qed.

Lemma preferences_save_stores_whole_numbers_witness :
  ∃ z p3, user_has "ann" p3 (world_of (user_preferences_view louder "ann") (ann_world None))
    ∧ number_input louder (label_of "noise_level") 0 10 (py_int ((3 # 10) * 10)) 1 = Ok z
    ∧ (0 ≤ z ≤ 10)%Z
    ∧ dict_get "noise_level" (section (scalars p3)) = Some (inject_Z z).
Proof.
  apply (preferences_save_stores_whole_numbers louder "ann" music ann_profile
           (ann_world None));
    try (vm_compute; reflexivity). decide_compute.
Defined.

(** C21: once Save Preferences has stored a scalar of 2 or more, the
    preferences view of that user raises on every later run. *)
Theorem preferences_save_breaks_view u u' username options p w w1 trait v z :
  user_has username p w → read categoricals_json (files w) = Some options →
  dict_wf (section (scalars p)) →
  button u "Save Preferences" = true →
  user_preferences_view u username w = (Ok tt, w1) →
  dict_get trait (section (scalars p)) = Some v →
  number_input u (label_of trait) 0 10 (py_int (v * 10)) 1 = Ok z → (2 ≤ z)%Z →
  ∃ name, result_of (user_preferences_view u' username) w1
          = Raise (StreamlitAPIException (label_of name)).
Proof.
  intros Hp Ho Hwf Hsave Hrun Hget Hz Hz2.
  rewrite (user_preferences_view_run u username options p) in Hrun by done.
  destruct (edit_preferences u options p) as [p3|] eqn:E; [|done].
  rewrite Hsave in Hrun. injection Hrun as <-.
  destruct (edit_preferences_scalar u options p p3 trait v Hwf E Hget) as (z' & Hz' & Hz'').
  rewrite Hz in Hz'. injection Hz' as <-.
  destruct (preferences_scalars_Raise u' p3 trait z Hz'' Hz2) as [name Hname].
  exists name. unfold result_of.
  rewrite (user_preferences_view_run u' username options p3).
  - unfold edit_preferences. by rewrite Hname.
  - by eapply user_has_write.
  - cbn [files]. etrans; [apply write_profile_options|done].
Qed.

Lemma preferences_save_breaks_view_witness :
  ∃ name, result_of (user_preferences_view no_input "ann")
            (world_of (user_preferences_view louder "ann") (ann_world None))
          = Raise (StreamlitAPIException (label_of name)).
Proof.
  apply (preferences_save_breaks_view louder no_input "ann" music ann_profile
           (ann_world None) _ "noise_level" (3 # 10) 7);
    try (vm_compute; reflexivity); [decide_compute|vm_compute; discriminate].
Defined.

(** ** The scenario view *)

Lemma scenario_form_run u base w :
  scenario_form u base w
  = match foldM (scenario_scalar u) empty_profile (section (scalars base))
            ≫= (λ sp, foldM (scenario_tag u) sp (section (tags base))) with
    | Ok sp =>
        match Helpers.load_categorical_options (files w) with
        | Ok options => (foldM (scenario_categorical u base) sp options, w)
        | Raise e => (Raise e, w)
        end
    | Raise e => (Raise e, w)
    end.
Proof.
  unfold scenario_form. io_unfold.
  destruct (foldM (scenario_scalar u) _ _) as [sp1|]; simpl; [|done].
  destruct (foldM (scenario_tag u) _ _) as [sp2|]; simpl; [|done].
  by destruct (Helpers.load_categorical_options (files w)).
Qed.

Lemma scenario_form_Ok_inv u base w sp w' :
  scenario_form u base w = (Ok sp, w') →
  w' = w ∧ ∃ options, read categoricals_json (files w) = Some options
                      ∧ scenario_session u options base = Ok sp.
Proof.
  rewrite scenario_form_run. unfold scenario_session.
  destruct (foldM (scenario_scalar u) _ _) as [sp1|]; simpl; [|done].
  destruct (foldM (scenario_tag u) _ _) as [sp2|]; simpl; [|done].
  destruct (Helpers.load_categorical_options (files w)) as [options|] eqn:E; [|done].
  intros [= H <-]. split; [done|]. exists options. split; [|done].
  by apply load_json_Ok_inv in E.
Qed.

Lemma scenario_session_wf u options base sp :
  scenario_session u options base = Ok sp → profile_wf sp.
Proof.
  unfold scenario_session.
  intros (sp1 & H1 & (sp2 & H2 & H3)%bind_Ok_inv)%bind_Ok_inv.
  eapply (foldM_invariant profile_wf) in H1; [|intros q [t v] q' _ Hq|apply empty_profile_wf].
  2:{ intros (z & Hz%number_input_range & [= <-])%bind_Ok_inv.
      apply set_scalar_wf; [by apply tenths_unit_interval|done]. }
  eapply (foldM_invariant profile_wf) in H2; [|intros q [t v] q' _ Hq|done].
  2:{ intros [= <-]. apply set_tag_wf; [|done].
      unfold tag_flag. destruct (checkbox _ _ _); auto. }
  eapply (foldM_invariant profile_wf) in H3; [done|intros q [c ch] q' _ Hq|done].
  intros (x & _ & [= <-])%bind_Ok_inv. by apply set_categorical_wf.
Qed.

(** The session profile is built section by section, one entry per
    item of the profile the form starts from and per category on offer. *)
Section session_built.
Context (u : ui).

Lemma scenario_scalar_eq sp item :
  scenario_scalar u sp item = (x ← scalar_value u item; Ok (set_scalar item.1 x sp)).
Proof.
  destruct item as [t v]. unfold scenario_scalar, scalar_value. simpl.
  by destruct (number_input _ _ _ _ _ _).
Qed.

Lemma scenario_tag_eq sp item :
  scenario_tag u sp item = (x ← tag_value u item; Ok (set_tag item.1 x sp)).
Proof. by destruct item. Qed.

Lemma scenario_categorical_eq base sp item :
  scenario_categorical u base sp item
  = (x ← categorical_value u base item; Ok (set_categorical item.1 x sp)).
Proof. by destruct item. Qed.

Lemma scenario_scalars_built l T C sp1 :
  dict_wf l →
  foldM (scenario_scalar u) (mkProfile (Some []) T C) l = Ok sp1 →
  ∃ S, sp1 = mkProfile (Some S) T C ∧ built (scalar_value u) S l.
Proof.
  intros Hwf Hfold.
  destruct (foldM_build (section ∘ scalars) set_scalar (scalar_value u)
              (scenario_scalar u) (λ _ _ _, eq_refl) scenario_scalar_eq l
              (mkProfile (Some []) T C) sp1)
    as (S & HS & Hb); [done..|].
  exists S. split; [|done].
  eapply (foldM_invariant (λ q, is_Some (scalars q) ∧ tags q = T ∧ categoricals q = C))
    in Hfold as ([S' HS'] & <- & <-); [| |by eauto].
  - destruct sp1 as [? ? ?]. simpl in *. by subst.
  - by intros q [t v] q' _ (_ & <- & <-) (x & _ & [= <-])%bind_Ok_inv; eauto.
Qed.

Lemma scenario_tags_built l S C sp2 :
  dict_wf l →
  foldM (scenario_tag u) (mkProfile S (Some []) C) l = Ok sp2 →
  ∃ T, sp2 = mkProfile S (Some T) C ∧ built (tag_value u) T l.
Proof.
  intros Hwf Hfold.
  destruct (foldM_build (section ∘ tags) set_tag (tag_value u)
              (scenario_tag u) (λ _ _ _, eq_refl) scenario_tag_eq l
              (mkProfile S (Some []) C) sp2)
    as (T & HT & Hb); [done..|].
  exists T. split; [|done].
  eapply (foldM_invariant (λ q, scalars q = S ∧ is_Some (tags q) ∧ categoricals q = C))
    in Hfold as (<- & [T' HT'] & <-); [| |by eauto].
  - destruct sp2 as [? ? ?]. simpl in *. by subst.
  - by intros q [t v] q' _ (<- & _ & <-) [= <-]; eauto.
Qed.

Lemma scenario_categoricals_built base options S T sp3 :
  dict_wf options →
  foldM (scenario_categorical u base) (mkProfile S T (Some [])) options = Ok sp3 →
  ∃ C, sp3 = mkProfile S T (Some C) ∧ built (categorical_value u base) C options.
Proof.
  intros Hwf Hfold.
  destruct (foldM_build (section ∘ categoricals) set_categorical
              (categorical_value u base) (scenario_categorical u base)
              (λ _ _ _, eq_refl) (scenario_categorical_eq base) options
              (mkProfile S T (Some [])) sp3)
    as (C & HC & Hb); [done..|].
  exists C. split; [|done].
  eapply (foldM_invariant (λ q, scalars q = S ∧ tags q = T ∧ is_Some (categoricals q)))
    in Hfold as (<- & <- & [C' HC']); [| |by eauto].
  - destruct sp3 as [? ? ?]. simpl in *. by subst.
  - by intros q [c ch] q' _ (<- & <- & _) (x & _ & [= <-])%bind_Ok_inv; eauto.
Qed.

(** The shape of a session profile. *)
Lemma scenario_session_built options base sp :
  dict_wf (section (scalars base)) → dict_wf (section (tags base)) →
  dict_wf options → scenario_session u options base = Ok sp →
  ∃ S T C, sp = mkProfile (Some S) (Some T) (Some C)
    ∧ built (scalar_value u) S (section (scalars base))
    ∧ built (tag_value u) T (section (tags base))
    ∧ built (categorical_value u base) C options.
Proof.
  intros Hs Ht Ho. unfold scenario_session.
  intros (sp1 & H1 & (sp2 & H2 & H3)%bind_Ok_inv)%bind_Ok_inv.
  apply scenario_scalars_built in H1 as (S & -> & HS); [|done].
  apply scenario_tags_built in H2 as (T & -> & HT); [|done].
  apply scenario_categoricals_built in H3 as (C & -> & HC); [|done].
  by exists S, T, C.
Qed.

End session_built.

(** ** A template saved and opened again *)

Section round_trip.
Context (u u' : ui) (Hu' : untouched_form u').

Lemma scalar_value_again item x :
  scalar_value u item = Ok x → scalar_value u' (item.1, x) = Ok x.
Proof.
  unfold scalar_value. intros (z & Hz%number_input_range & ->)%fmap_Ok_inv. simpl.
  assert (inject_Z z / 10 * 10 == inject_Z z)%Q as Hq by field.
  rewrite (py_int_proper _ _ Hq), py_int_inject_Z.
  rewrite number_input_untouched; [done| |done].
  destruct Hu' as (-> & _). apply lookup_empty.
Qed.

Lemma tag_value_again item x :
  tag_value u item = Ok x → tag_value u' (item.1, x) = Ok x.
Proof.
  unfold tag_value, checkbox. intros [= <-]. simpl.
  destruct Hu' as (_ & -> & _). rewrite lookup_empty. simpl.
  by destruct (default _ _).
Qed.

Lemma categorical_value_again base sp item x :
  dict_get item.1 (section (categoricals sp)) = Some x →
  categorical_value u base item = Ok x → categorical_value u' sp item = Ok x.
Proof.
  unfold categorical_value, dict_get_default. intros -> Hx%multiselect_subseteq.
  apply multiselect_untouched; [|done]. destruct Hu' as (_ & _ & ->).
  apply lookup_empty.
Qed.

Lemma scenario_categoricals_again options base S T C :
  dict_wf options → built (categorical_value u base) C options →
  foldM (scenario_categorical u' (mkProfile S T (Some C))) (mkProfile S T (Some []))
        options
  = Ok (mkProfile S T (Some C)).
Proof.
  intros Ho HC. set (sp := mkProfile S T (Some C)).
  assert (∀ kv w, kv ∈ options → categorical_value u base kv = Ok w →
                  categorical_value u' sp kv = Ok w) as Hagree.
  { intros [c ch] w Hin Hw. apply (categorical_value_again base); [|done].
    by apply (built_get _ _ _ _ _ _ HC Ho Hin). }
  destruct (foldM_total (scenario_categorical u' sp) options (mkProfile S T (Some [])))
    as [sp3 H3].
  { intros q kv Hin. rewrite scenario_categorical_eq.
    destruct (built_total _ _ _ _ HC Hin) as [w Hw].
    rewrite (Hagree _ _ Hin Hw). simpl. eauto. }
  rewrite H3. apply scenario_categoricals_built in H3 as (C' & -> & HC'); [|done].
  by rewrite (built_agree _ _ _ _ _ HC HC' Hagree).
Qed.

Lemma scenario_session_again options base sp :
  dict_wf (section (scalars base)) → dict_wf (section (tags base)) →
  dict_wf options → scenario_session u options base = Ok sp →
  scenario_session u' options sp = Ok sp.
Proof.
  intros Hs Ht Ho Hsp.
  destruct (scenario_session_built u options base sp Hs Ht Ho Hsp)
    as (S & T & C & -> & HS & HT & HC).
  assert (dict_wf S) as HwS by (unfold dict_wf; by rewrite (built_keys _ _ _ HS)).
  assert (dict_wf T) as HwT by (unfold dict_wf; by rewrite (built_keys _ _ _ HT)).
  assert (Forall (λ kv, scalar_value u' kv = Ok kv.2) S) as HS'.
  { apply (built_Forall _ _ _ _ HS). intros kv w _. apply scalar_value_again. }
  assert (Forall (λ kv, tag_value u' kv = Ok kv.2) T) as HT'.
  { apply (built_Forall _ _ _ _ HT). intros kv w _. apply tag_value_again. }
  unfold scenario_session. simpl.
  destruct (foldM_total (scenario_scalar u') S empty_profile) as [sp1 H1].
  { intros q kv Hin. rewrite scenario_scalar_eq.
    rewrite (proj1 (Forall_forall _ _) HS' kv Hin). simpl. eauto. }
  rewrite H1. simpl.
  apply scenario_scalars_built in H1 as (S' & -> & HS''); [|done].
  rewrite (built_same _ _ _ HS'' HS').
  destruct (foldM_total (scenario_tag u') T (mkProfile (Some S) (Some []) (Some [])))
    as [sp2 H2]; [intros q [t v] _; by eexists|].
  rewrite H2. simpl.
  apply scenario_tags_built in H2 as (T' & -> & HT''); [|done].
  rewrite (built_same _ _ _ HT'' HT').
  by apply (scenario_categoricals_again options base).
Qed.

End round_trip.

Section scenario.
Context (u : ui) (username : string).

Lemma choose_template_run base w :
  choose_template u base username w
  = let fs1 := makedirs_templates username (files w) in
    match picked u username (files w) with
    | Ok sel =>
        if bool_decide (sel ≠ "None") then
          match read (template_json username sel) fs1 with
          | Some t => (Ok t, mkWorld fs1 (screen w ++ [Info ("Loaded template: " +:+ sel)]))
          | None => (Raise (FileNotFoundError (path (template_json username sel))),
                     mkWorld fs1 (screen w))
          end
        else (Ok base, mkWorld fs1 (screen w))
    | Raise e => (Raise e, mkWorld fs1 (screen w))
    end.
Proof.
  unfold choose_template, picked. io_unfold.
  destruct (selectbox u _ "None" _ 0) as [sel|]; [|done].
  case_bool_decide; [|done]. unfold Helpers.load_json.
  by destruct (read (template_json username sel) _).
Qed.

Lemma save_template_run sp w :
  save_template u username sp w
  = let name := text_input u "Template name" EmptyString in
    if button u "Save Scenario Template" then
      if negb (str_truthy name) then
        (Ok tt, mkWorld (files w) (screen w ++ [Warning "Please enter a name."]))
      else
        match Helpers.save_json (template_json username name) sp (files w) with
        | Ok fs =>
            (Raise RerunException,
             mkWorld fs (screen w ++ [Success ("Template '" +:+ name +:+ "' saved.")]))
        | Raise e => (Raise e, w)
        end
    else (Ok tt, w).
Proof.
  unfold save_template. io_unfold.
  destruct (button u _); [|done]. destruct (negb _); [done|].
  by destruct (Helpers.save_json _ _ _).
Qed.

Lemma save_template_Ok_inv sp w w' :
  save_template u username sp w = (Ok tt, w') → files w' = files w.
Proof.
  rewrite save_template_run. cbv zeta.
  destruct (button u _); [|by intros [= <-]].
  destruct (negb _); [by intros [= <-]|]. by destruct (Helpers.save_json _ _ _).
Qed.

Lemma choose_template_Ok_inv base w base' w' :
  choose_template u base username w = (Ok base', w') →
  files w' = makedirs_templates username (files w)
  ∧ (base' = base ∨ ∃ name, read (template_json username name) (files w') = Some base').
Proof.
  rewrite choose_template_run. cbv zeta.
  destruct (picked u username (files w)) as [sel|]; [|done].
  case_bool_decide; [|intros [= <- <-]; auto].
  destruct (read (template_json username sel) _) as [t|] eqn:E; [|done].
  intros [= <- <-]. cbn [files]. split; [done|]. right. by exists sel.
Qed.

Lemma user_scenario_view_Ok_inv base w sc w' :
  user_scenario_view u base username w = (Ok sc, w') →
  ∃ venues options base',
    read venues_json (files w) = Some venues
    ∧ read categoricals_json (files w) = Some options
    ∧ (base' = base
       ∨ ∃ name, read (template_json username name) (files w') = Some base')
    ∧ scenario_session u options base' = Ok (session_profile sc)
    ∧ match_venues (session_profile sc) venues = Ok (matches sc)
    ∧ files w' = makedirs_templates username (files w).
Proof.
  unfold user_scenario_view.
  intros ([] & w0 & Hshow & K0)%io_bind_Ok_inv. injection Hshow as <-.
  apply io_bind_Ok_inv in K0 as (venues & w1 & Hv & K1).
  injection Hv as Hv <-. apply load_json_Ok_inv in Hv.
  apply io_bind_Ok_inv in K1 as (base' & w2 & [Hw2 Hb]%choose_template_Ok_inv & K2).
  apply io_bind_Ok_inv in K2
    as (sp & w3 & (-> & options & Ho & Hs)%scenario_form_Ok_inv & K3).
  apply io_bind_Ok_inv in K3 as ([] & w4 & Hw4%save_template_Ok_inv & K4).
  apply io_bind_Ok_inv in K4 as (m & w5 & Hm & K5).
  apply io_bind_Ok_inv in K5 as ([] & w6 & [= <-] & [= <- <-]).
  injection Hm as Hm <-. cbn [files session_profile matches] in *.
  exists venues, options, base'. rewrite Hw4. split_and!; try done.
  rewrite Hw2 in Ho. simpl in *.
  by destruct (makedirs_templates_others username (files w)) as (_&_&_&<-&_).
Qed.

(** The run of the view, block by block. *)
Lemma user_scenario_view_run base venues w :
  read venues_json (files w) = Some venues →
  user_scenario_view u base username w
  = match choose_template u base username
            (mkWorld (files w) (screen w ++ [Markdown "### 🎯 Start a Scenario"])) with
    | (Ok base', w2) =>
        match scenario_form u base' w2 with
        | (Ok sp, w3) =>
            match save_template u username sp w3 with
            | (Ok _, w4) =>
                (Ok (mkScenario sp (show_top 3 (qualified sp venues))),
                 mkWorld (files w4) (screen w4 ++ [Subheader "🏪 Venue Match Scores"]))
            | (Raise e, w4) => (Raise e, w4)
            end
        | (Raise e, w3) => (Raise e, w3)
        end
    | (Raise e, w2) => (Raise e, w2)
    end.
Proof.
  intros Hv. unfold user_scenario_view. rewrite io_bind_eq. cbn [show].
  rewrite io_bind_eq. unfold load_json at 1, from_files at 1. cbn [files].
  rewrite (load_json_Some _ _ _ Hv). rewrite io_bind_eq.
  destruct (choose_template u base username _) as [[base'|] w2]; [|done].
  rewrite io_bind_eq. destruct (scenario_form u base' w2) as [[sp|] w3]; [|done].
  rewrite io_bind_eq. destruct (save_template u username sp w3) as [[[]|] w4]; [|done].
  unfold match_venues. by rewrite collect_scores_total.
Qed.

End scenario.

(** ** What the views raise *)

Section expected.
Context (u : ui) (username : string).

Lemma preferences_scalar_expected p item :
  raises_within expected (preferences_scalar u p item).
Proof. destruct item. unfold preferences_scalar. raises. Qed.

Lemma preferences_tag_expected p item :
  raises_within expected (preferences_tag u p item).
Proof. destruct item. apply raises_within_Ok. Qed.

Lemma preferences_categorical_expected p item :
  raises_within expected (preferences_categorical u p item).
Proof. destruct item. unfold preferences_categorical. raises. Qed.

Lemma scenario_scalar_expected sp item :
  raises_within expected (scenario_scalar u sp item).
Proof. destruct item. unfold scenario_scalar. raises. Qed.

Lemma scenario_tag_expected sp item : raises_within expected (scenario_tag u sp item).
Proof. destruct item. apply raises_within_Ok. Qed.

Lemma scenario_categorical_expected base sp item :
  raises_within expected (scenario_categorical u base sp item).
Proof. destruct item. unfold scenario_categorical. raises. Qed.

#[local] Hint Resolve preferences_scalar_expected preferences_tag_expected
  preferences_categorical_expected scenario_scalar_expected scenario_tag_expected
  scenario_categorical_expected : raises.

Lemma user_preferences_view_expected :
  raises_only expected (user_preferences_view u username).
Proof. unfold user_preferences_view. raises. Qed.

Lemma scenario_form_expected base : raises_only expected (scenario_form u base).
Proof. unfold scenario_form. raises. Qed.

Lemma choose_template_expected base :
  raises_only expected (choose_template u base username).
Proof. unfold choose_template. raises. Qed.

Lemma save_template_expected sp : raises_only expected (save_template u username sp).
Proof. unfold save_template. raises. Qed.

Lemma scenario_matches_expected sp (venues : dict Profile) :
  raises_within expected (match_venues sp venues).
Proof. apply match_venues_within. Qed.

#[local] Hint Resolve scenario_form_expected choose_template_expected
  save_template_expected scenario_matches_expected : raises.

Lemma user_scenario_view_expected base :
  raises_only expected (user_scenario_view u base username).
Proof. unfold user_scenario_view. raises. Qed.

Lemma user_templates_view_expected : raises_only expected user_templates_view.
Proof. unfold user_templates_view. raises. Qed.

End expected.

#[export] Hint Resolve user_preferences_view_expected user_scenario_view_expected
  user_templates_view_expected : raises.

(** ** Properties of the scenario view *)

(** When the scenario view returns, the session profile it has
    built is well formed (unique keys, scalars whole tenths in the unit
    interval, flags 0 or 1), and the matches shown are the best three
    of the venues of [venues.json] that the session profile does not
    disqualify. *)
Theorem scenario_view_matches u base username w sc w' :
  user_scenario_view u base username w = (Ok sc, w') →
  profile_wf (session_profile sc)
  ∧ ∃ venues, read venues_json (files w) = Some venues
      ∧ matches sc = show_top 3 (qualified (session_profile sc) venues).
Proof.
  intros (venues & options & base' & Hv & _ & _ & Hs & Hm & _)%user_scenario_view_Ok_inv.
  split; [by eapply scenario_session_wf|]. exists venues. split; [done|].
  unfold match_venues in Hm. rewrite collect_scores_total in Hm. by injection Hm.
Qed.

Lemma scenario_view_matches_witness :
  profile_wf (session_profile night_scenario)
  ∧ ∃ venues, read venues_json (files (ann_world None)) = Some venues
      ∧ matches night_scenario
        = show_top 3 (qualified (session_profile night_scenario) venues).
Proof.
  apply (scenario_view_matches night_out ann_profile "ann" (ann_world None)
           night_scenario
           (world_of (user_scenario_view night_out ann_profile "ann") (ann_world None))).
  vm_compute; reflexivity.
Defined.

(** C13: a session profile saved as a template and opened again with
    the widgets of the form untouched is the session profile that was
    saved. *)
Theorem template_round_trip u u' username options base sp sc name venues stored w w' :
  dict_wf (section (scalars base)) → dict_wf (section (tags base)) →
  dict_wf options → scenario_session u options base = Ok sp →
  read venues_json (files w) = Some venues →
  read categoricals_json (files w) = Some options →
  read (template_json username name) (files w) = Some sp →
  picked u' username (files w) = Ok name → name ≠ "None" →
  untouched_form u' → button u' "Save Scenario Template" = false →
  user_scenario_view u' stored username w = (Ok sc, w') →
  session_profile sc = sp.
Proof.
  intros Hs Ht Ho Hsp Hv Hopt Htpl Hpick Hname Hu' Hsave.
  rewrite (user_scenario_view_run u' username stored venues) by done.
  rewrite choose_template_run. cbv zeta. cbn [files screen]. rewrite Hpick.
  rewrite bool_decide_true, makedirs_templates_read, Htpl by done.
  rewrite scenario_form_run. cbn [files].
  pose proof (scenario_session_again u u' Hu' options base sp Hs Ht Ho Hsp) as Hagain.
  unfold scenario_session in Hagain.
  destruct (foldM (scenario_scalar u') _ _) as [sp1|]; [simpl in *|done].
  destruct (foldM (scenario_tag u') _ _) as [sp2|]; [simpl in *|done].
  unfold Helpers.load_categorical_options, Helpers.load_json.
  destruct (makedirs_templates_others username (files w)) as (_&_&_&Hc&_).
  simpl in Hopt |- *. rewrite Hc, Hopt, Hagain, save_template_run. cbv zeta.
  rewrite Hsave. by intros [= <- _].
Qed.

Lemma template_round_trip_witness : session_profile night_scenario = night_profile.
Proof.
  apply (template_round_trip night_out open_night "ann" music ann_profile
           night_profile night_scenario "night" two_venues ann_profile
           (ann_world (Some [("night", night_profile)]))
           (world_of (user_scenario_view open_night ann_profile "ann")
              (ann_world (Some [("night", night_profile)]))));
    try (vm_compute; reflexivity); try decide_compute; try done.
Defined.

End UserViews.
