(* ===== verification/App.v ===== *)
(** * The application: [src/bu1.py], lines 152-206

    The main script asks for a role and shows the page of that role:
    for a user, the creation of a user or the menu of views of a stored
    user; for a vendor, the venue manager.  [main] is one run of the
    script; its value is the scenario shown, when the scenario view ran
    to its end. *)

From S2P Require Import Prelude PyDict PySort PyStr Profile Ranking Engine.
From S2P Require Import Streamlit Helpers VenueManager Script Users UserViews.

Module App.

#[local] Existing Instance Engine.engine_scorer.
#[local] Existing Instance Engine.engine_total.

(** ** The code *)

(** [venue_management_view()] as a step of the main script: what it
    writes and shows is kept, and its rerun stops the script. *)
Definition vendor_view (u : ui) : io unit :=
  λ w, match VenueManager.venue_management_view u (files w) with
       | Ok r =>
           let w' := mkWorld (VenueManager.files r)
                             (screen w ++ VenueManager.shown r) in
           match VenueManager.ending r with
           | Rerun => (Raise RerunException, w')
           | Done => (Ok tt, w')
           end
       | Raise e => (Raise e, w)
       end.

Definition create_label : string := "Create new user...".

(** The branch [if user_select == "Create new user..."]. *)
Definition create_user_page (u : ui) (user_list : list string) : io unit :=
  let new_username := text_input u "Enter new username" EmptyString in
  if str_truthy new_username then
    if bool_decide (new_username ∈ user_list) then
      show (Error "This user already exists.")
    else
      base_profile ← Users.create_new_user new_username;
      _ ← show (Success ("User '" +:+ new_username +:+ "' created."));
      rerun
  else mret tt.

(** The branch of a stored user: the menu and the view picked. *)
Definition user_menu (u : ui) (user_select : string)
    : io (option UserViews.scenario) :=
  base_profile ← Users.load_user_profile user_select;
  _ ← show (Subheader "📋 User Menu");
  menu_choice ←
    pure (selectbox u "What would you like to do?" "Choose..."
            ["Start a Scenario"; "Update Preferences"; "Manage Templates"] 0);
  if bool_decide (menu_choice = "Start a Scenario") then
    Some <$> UserViews.user_scenario_view u base_profile user_select
  else if bool_decide (menu_choice = "Update Preferences") then
    _ ← UserViews.user_preferences_view u user_select; mret None
  else if bool_decide (menu_choice = "Manage Templates") then
    _ ← UserViews.user_templates_view; mret None
  else
    _ ← show (Warning "Please select a task to begin."); mret None.

(** The script from top to bottom. *)
Definition main (u : ui) : io (option UserViews.scenario) :=
  _ ← show (Title "Affinari Test Engine");
  _ ← show (Header "Who are you today?");
  user_type ← pure (radio u "Choose your role:" "Select..." ["User"; "Vendor"] 0);
  if bool_decide (user_type = "User") then
    _ ← show Divider;
    _ ← show (Subheader "👤 Select or Create User");
    user_list ← Users.get_user_list;
    let default_index := if bool_decide (length user_list = 1) then 1 else 0 in
    user_select ←
      pure (selectbox u "Choose an existing user or create a new one:"
              create_label user_list default_index);
    if bool_decide (user_select = create_label) then
      _ ← create_user_page u user_list; mret None
    else user_menu u user_select
  else if bool_decide (user_type = "Vendor") then
    _ ← show Divider;
    _ ← show (Subheader "🧑‍🍳 Vendor Mode");
    vendor_choice ←
      pure (selectbox u "Vendor options" "Choose..." ["Manage Venues"] 0);
    if bool_decide (vendor_choice = "Manage Venues") then
      _ ← vendor_view u; mret None
    else
      _ ← show (Info "Select an option to begin."); mret None
  else
    _ ← show (Warning "Please select your role to continue."); mret None.

(** ** Reference definitions *)

(** The role and the user the widgets return. *)
Definition role (u : ui) : result string :=
  radio u "Choose your role:" "Select..." ["User"; "Vendor"] 0.

Definition user_selected (u : ui) (user_list : list string) : result string :=
  selectbox u "Choose an existing user or create a new one:" create_label user_list
    (if bool_decide (length user_list = 1) then 1 else 0).

Definition typed_username (u : ui) : string := text_input u "Enter new username" EmptyString.

Definition menu (u : ui) : result string :=
  selectbox u "What would you like to do?" "Choose..."
    ["Start a Scenario"; "Update Preferences"; "Manage Templates"] 0.

(** What every run shows first, and what the user page shows next. *)
Definition top : list element :=
  [Title "Affinari Test Engine"; Header "Who are you today?"].

Definition user_top : list element :=
  top ++ [Divider; Subheader "👤 Select or Create User"].

Definition vendor_top : list element :=
  top ++ [Divider; Subheader "🧑‍🍳 Vendor Mode"].

Definition showing (l : list element) (w : world) : world :=
  mkWorld (files w) (screen w ++ l).

(** The venues file after Save on the vendor page: the venue picked as
    the form leaves it, and the same under the name typed. *)
Definition saved_venues (u : ui) (selected_name : string) (edited : Profile)
    (fs : store) : dict Profile :=
  dict_set (strip (VenueManager.typed_name u selected_name)) edited
    (VenueManager.edited_venues selected_name edited (VenueManager.load_venues fs)).

(** ** Example data *)

(** The user asks for the user page and types the name ann. *)
Definition new_ann : ui :=
  mkUi ∅ {["Enter new username" := "ann"]} ∅ {["Choose your role:" := "User"]} ∅ ∅ ∅.

(** The same, with "Create new user..." picked in the select box. *)
Definition ann_again : ui :=
  mkUi ∅ {["Enter new username" := "ann"]} ∅
       {["Choose your role:" := "User";
         "Choose an existing user or create a new one:" := create_label]} ∅ ∅ ∅.

(** The user asks for the user page and touches nothing else. *)
Definition user_page : ui := mkUi ∅ ∅ ∅ {["Choose your role:" := "User"]} ∅ ∅ ∅.

(** The vendor renames the cafe of [VenueManager.town]. *)
Definition vendor_renames : ui :=
  mkUi {["Noise Level" := 9 # 10]} {["Venue name" := " bistro "]} ∅
       {["Choose your role:" := "Vendor"; "Vendor options" := "Manage Venues";
         VenueManager.select_label := "cafe"]} ∅ {[VenueManager.save_label]} ∅.

(** The town of [VenueManager.town] with the user ann. *)
Definition town_with_ann : world :=
  mkWorld (set_users [("ann", mkUserDir (Some UserViews.ann_profile) None)]
             VenueManager.town)
          [].

(** What ann is shown after the vendor has renamed the cafe: the cafe
    under both names. *)
Definition bistro_scenario : UserViews.scenario :=
  UserViews.mkScenario UserViews.night_profile
    (Matches 2 [("cafe", 1.72%Q); ("bistro", 1.72%Q)]).

(** The user ann starts a scenario and sets its noise level to 8. *)
Definition ann_night_out : ui :=
  mkUi ∅ ∅ ∅
       {["Choose your role:" := "User"; "What would you like to do?" := "Start a Scenario"]}
       ∅ ∅ {["scalar_noise_level" := 8%Z]}.

(** ** The branches of the script *)

Lemma showing_app l l' w : showing l' (showing l w) = showing (l ++ l') w.
Proof. unfold showing. simpl. by rewrite app_assoc. Qed.

Lemma main_no_role u w r :
  role u = Ok r → r ≠ "User" → r ≠ "Vendor" →
  main u w
  = (Ok None, showing (top ++ [Warning "Please select your role to continue."]) w).
Proof.
  unfold main, role. intros -> Hu Hv. io_unfold.
  rewrite !bool_decide_false by done. unfold showing. simpl.
  by rewrite <- ?app_assoc.
Qed.

Lemma main_vendor u w :
  role u = Ok "Vendor" →
  main u w
  = match selectbox u "Vendor options" "Choose..." ["Manage Venues"] 0 with
    | Ok choice =>
        if bool_decide (choice = "Manage Venues") then
          ((λ _, None) <$> vendor_view u) (showing vendor_top w)
        else (Ok None, showing (vendor_top ++ [Info "Select an option to begin."]) w)
    | Raise e => (Raise e, showing vendor_top w)
    end.
Proof.
  unfold main, role. intros ->. io_unfold. cbv beta iota.
  rewrite bool_decide_false, bool_decide_true by done. cbn [files screen].
  unfold showing, vendor_top, top. rewrite <- ?app_assoc. cbn [app].
  destruct (selectbox u _ _ _ _) as [choice|]; [|done].
  case_bool_decide; cbn [files screen]; rewrite <- ?app_assoc; [|done].
  by destruct (vendor_view u _) as [[[]|] ?].
Qed.

Lemma main_user u users w :
  role u = Ok "User" → users_content (files w) = Some users →
  main u w
  = match user_selected u (dict_keys users) with
    | Ok sel =>
        if bool_decide (sel = create_label) then
          ((λ _, None) <$> create_user_page u (dict_keys users)) (showing user_top w)
        else user_menu u sel (showing user_top w)
    | Raise e => (Raise e, showing user_top w)
    end.
Proof.
  unfold main, role, user_selected. intros -> Hus. io_unfold. cbv beta iota.
  rewrite bool_decide_true by done.
  unfold Users.get_user_list. cbn [files screen]. rewrite Hus. cbn [files screen].
  unfold showing, user_top, top. rewrite <- ?app_assoc. cbn [app].
  destruct (selectbox u _ _ _ _) as [sel|]; [|done].
  case_bool_decide; [|done].
  by destruct (create_user_page u _ _) as [[[]|] ?].
Qed.

Lemma create_user_page_run u user_list w :
  create_user_page u user_list w
  = let name := typed_username u in
    if str_truthy name then
      if bool_decide (name ∈ user_list) then
        (Ok tt, showing [Error "This user already exists."] w)
      else
        match Users.create_new_user name w with
        | (Ok _, w') =>
            (Raise RerunException,
             showing [Success ("User '" +:+ name +:+ "' created.")] w')
        | (Raise e, w') => (Raise e, w')
        end
    else (Ok tt, w).
Proof.
  unfold create_user_page, typed_username. cbv zeta.
  destruct (str_truthy _); [|done]. case_bool_decide; [done|].
  rewrite io_bind_eq. by destruct (Users.create_new_user _ w) as [[?|?] ?].
Qed.

(** The value of the script is a scenario only when the scenario view
    of a stored user ran to its end. *)
Lemma user_menu_Some_inv u sel w sc w' :
  user_menu u sel w = (Ok (Some sc), w') →
  ∃ base w1, Users.load_user_profile sel w = (Ok base, w)
    ∧ files w1 = files w
    ∧ UserViews.user_scenario_view u base sel w1 = (Ok sc, w').
Proof.
  unfold user_menu. intros (base & w0 & Hb & K0)%io_bind_Ok_inv.
  assert (w0 = w) as -> by (unfold Users.load_user_profile, load_json, from_files in Hb;
                            by injection Hb).
  apply io_bind_Ok_inv in K0 as ([] & w1 & [= <-] & K1).
  apply io_bind_Ok_inv in K1 as (choice & w2 & [= _ <-] & K2).
  exists base, (showing [Subheader "📋 User Menu"] w). split_and!; [done..|].
  repeat case_bool_decide.
  - by apply io_fmap_Ok_inv in K2 as (sc' & ? & [= ->]).
  - by apply io_bind_Ok_inv in K2 as (? & ? & _ & [=]).
  - by apply io_bind_Ok_inv in K2 as (? & ? & _ & [=]).
  - by apply io_bind_Ok_inv in K2 as (? & ? & _ & [=]).
Qed.

Lemma main_Some_inv u w sc w' :
  main u w = (Ok (Some sc), w') →
  ∃ sel w1, files w1 = files w ∧ user_menu u sel w1 = (Ok (Some sc), w').
Proof.
  unfold main. intros ([] & w0 & [= <-] & K0)%io_bind_Ok_inv.
  apply io_bind_Ok_inv in K0 as ([] & w1 & [= <-] & K1).
  apply io_bind_Ok_inv in K1 as (r & w2 & [= _ <-] & K2).
  repeat case_bool_decide.
  - apply io_bind_Ok_inv in K2 as ([] & w3 & [= <-] & K3).
    apply io_bind_Ok_inv in K3 as ([] & w4 & [= <-] & K4).
    apply io_bind_Ok_inv in K4 as (l & w5 & Hl & K5).
    assert (w5 = showing user_top w) as ->.
    { unfold Users.get_user_list in Hl. cbn [files screen] in Hl.
      destruct (users_content (files w)); [|done]. injection Hl as _ <-.
      unfold showing, user_top, top. by rewrite <- !app_assoc. }
    apply io_bind_Ok_inv in K5 as (sel & w6 & [= _ <-] & K6).
    case_bool_decide; [by apply io_bind_Ok_inv in K6 as (? & ? & _ & [=])|].
    by exists sel, (showing user_top w).
  - apply io_bind_Ok_inv in K2 as ([] & w3 & [= <-] & K3).
    apply io_bind_Ok_inv in K3 as ([] & w4 & [= <-] & K4).
    apply io_bind_Ok_inv in K4 as (c & w5 & [= _ <-] & K5).
    case_bool_decide; by apply io_bind_Ok_inv in K5 as (? & ? & _ & [=]).
  - by apply io_bind_Ok_inv in K2 as (? & ? & _ & [=]).
Qed.

Lemma user_menu_Raise u sel w e :
  Users.load_user_profile sel w = (Raise e, w) → user_menu u sel w = (Raise e, w).
Proof. intros Hl. unfold user_menu. by rewrite (io_bind_Raise _ _ _ _ _ Hl). Qed.

Lemma user_selected_nil u : user_selected u [] = Ok create_label.
Proof.
  unfold user_selected, selectbox. simpl.
  destruct (select_state u !! _) as [c|]; [|done].
  case_bool_decide as Hc; [|done]. by apply list_elem_of_singleton in Hc as ->.
Qed.

Lemma user_selected_only u name :
  select_state u !! "Choose an existing user or create a new one:" = None →
  user_selected u [name] = Ok name.
Proof. intros Hs. by apply selectbox_initial. Qed.

(** ** What a run raises *)

#[local] Hint Resolve Users.get_user_list_expected Users.load_user_profile_expected
  Users.create_new_user_expected UserViews.user_preferences_view_expected
  UserViews.user_scenario_view_expected UserViews.user_templates_view_expected : raises.

Lemma vendor_view_expected u : raises_only expected (vendor_view u).
Proof.
  intros w e w'. unfold vendor_view.
  destruct (VenueManager.venue_management_view u (files w)) as [r|e'] eqn:E.
  - by destruct (VenueManager.ending r); intros [= <- _].
  - intros [= <- _]. by eapply VenueManager.venue_management_view_expected.
Qed.

Lemma create_user_page_expected u user_list :
  raises_only expected (create_user_page u user_list).
Proof. unfold create_user_page. raises. Qed.

Lemma user_menu_expected u sel : raises_only expected (user_menu u sel).
Proof. unfold user_menu. raises. Qed.

#[local] Hint Resolve vendor_view_expected create_user_page_expected
  user_menu_expected : raises.

Lemma main_expected u : raises_only expected (main u).
Proof. unfold main. raises. Qed.

(** ** A scenario shown by the application *)

Lemma main_scenario u w sc w' :
  main u w = (Ok (Some sc), w') →
  profile_wf (UserViews.session_profile sc)
  ∧ ∃ venues, read venues_json (files w) = Some venues
      ∧ UserViews.matches sc
        = show_top 3 (qualified (UserViews.session_profile sc) venues).
Proof.
  intros (sel & w1 & Hf1 & Hmenu)%main_Some_inv.
  apply user_menu_Some_inv in Hmenu as (base & w2 & _ & Hf2 & Hview).
  apply UserViews.user_scenario_view_Ok_inv in Hview
    as (venues & options & base' & Hv & _ & _ & Hs & Hm & _).
  split; [by eapply UserViews.scenario_session_wf|].
  exists venues. rewrite Hf2, Hf1 in Hv. split; [done|].
  unfold match_venues in Hm. rewrite collect_scores_total in Hm. by injection Hm.
Qed.

(** ** The vendor page *)

Section vendor_saves.
Context (u : ui) (w : world) (selected_name : string) (edited : Profile).
Context (Hrole : role u = Ok "Vendor").
Context (Hchoice :
  selectbox u "Vendor options" "Choose..." ["Manage Venues"] 0 = Ok "Manage Venues").
Context (Hselect :
  selectbox u VenueManager.select_label VenueManager.add_new
    (sorted_str (dict_keys (VenueManager.load_venues (files w)))) 0
  = Ok selected_name).
Context (Hform :
  VenueManager.edit_form u (files w)
    (default empty_profile (dict_get selected_name (VenueManager.load_venues (files w))))
  = Ok edited).
Context (Hsave : button u VenueManager.save_label = true).
Context (Hname : str_truthy (strip (VenueManager.typed_name u selected_name)) = true).

(** The run of the vendor page that saves a venue: the venue manager
    writes the file, and its rerun ends the script. *)
Lemma vendor_save_run :
  main u w
  = (Raise RerunException,
     mkWorld (VenueManager.save_venues (saved_venues u selected_name edited (files w))
                (files w))
             (screen w ++ vendor_top ++ VenueManager.heading
              ++ [VenueManager.saved_message (VenueManager.typed_name u selected_name)])).
Proof.
  rewrite main_vendor, Hchoice, bool_decide_true by done.
  unfold fmap, io_fmap, vendor_view, showing. cbn [files screen].
  rewrite (VenueManager.view_Ok u (files w) selected_name edited Hselect Hform).
  rewrite VenueManager.buttons_spec_save by done.
  cbn [VenueManager.ending VenueManager.files VenueManager.shown].
  by rewrite <- !app_assoc.
Qed.

(** C19: a venue saved on the vendor page is what the next scenario is
    matched against: the run of the vendor page ends in a rerun with
    the venues file holding the venue as the form left it under the
    name typed, and a scenario shown by a later run on those files has
    the best three qualifying venues of that file. *)
Theorem saved_venue_is_matched u' sc :
  result_of (main u') (world_of (main u) w) = Ok (Some sc) →
  result_of (main u) w = Raise RerunException
  ∧ VenueManager.load_venues (files (world_of (main u) w))
    = saved_venues u selected_name edited (files w)
  ∧ UserViews.matches sc
    = show_top 3 (qualified (UserViews.session_profile sc)
                    (saved_venues u selected_name edited (files w))).
Proof.
  unfold result_of, world_of. rewrite vendor_save_run. cbn [fst snd files].
  destruct (main u' _) as [r w'] eqn:Hmain. cbn [fst]. intros ->.
  apply main_scenario in Hmain as (_ & venues & Hv & ->). cbn [files] in Hv.
  pose proof (VenueManager.load_save_venues
                (saved_venues u selected_name edited (files w)) (files w)) as Hl.
  split_and!; [done..|]. unfold VenueManager.load_venues in Hl.
  change (read VenueManager.VENUE_FILE) with (read venues_json) in Hl.
  rewrite Hv in Hl. by rewrite Hl.
Qed.

End vendor_saves.

(** ** Properties of the application *)

(** C17: on the user page, a new name typed under "Create new user..."
    with the default profile on disk makes the user: the run ends in a
    rerun after the message, the default profile is the profile of the
    new user, and the user is last in the list of users. *)
Theorem app_creates_user u users d w :
  role u = Ok "User" → users_content (files w) = Some users →
  user_selected u (dict_keys users) = Ok create_label →
  str_truthy (typed_username u) = true → typed_username u ∉ dict_keys users →
  read default_profile_json (files w) = Some d →
  ∃ w', main u w = (Raise RerunException, w')
    ∧ result_of (Users.load_user_profile (typed_username u)) w' = Ok d
    ∧ result_of Users.get_user_list w' = Ok (dict_keys users ++ [typed_username u])
    ∧ last (screen w') = Some (Success ("User '" +:+ typed_username u +:+ "' created.")).
Proof.
  intros Hrole Hus Hsel Hname Hnew Hd. rewrite (main_user u users) by done.
  rewrite Hsel, bool_decide_true by done. unfold fmap, io_fmap.
  rewrite create_user_page_run. cbv zeta. rewrite Hname, bool_decide_false by done.
  rewrite (Users.create_new_user_Ok _ d) by done. eexists. split; [done|].
  unfold showing. cbn [files screen]. split_and!.
  - rewrite Users.load_user_profile_lookup. cbn [files write user_profile_json].
    by rewrite user_lookup_update, user_lookup_makedirs.
  - unfold result_of.
    rewrite Users.get_user_list_names; cbn [files fst write user_profile_json].
    + rewrite Users.user_names_update, Users.user_names_makedirs.
      unfold Users.user_names. rewrite Hus. by rewrite decide_False.
    + apply Users.users_content_update, Users.users_content_makedirs.
  - apply last_snoc.
Qed.

Lemma app_creates_user_witness :
  ∃ w', main new_ann (Users.install (Some Users.default_profile_ex))
        = (Raise RerunException, w')
    ∧ result_of (Users.load_user_profile (typed_username new_ann)) w'
      = Ok Users.default_profile_ex
    ∧ result_of Users.get_user_list w' = Ok ([] ++ [typed_username new_ann])
    ∧ last (screen w')
      = Some (Success ("User '" +:+ typed_username new_ann +:+ "' created.")).
Proof.
  apply (app_creates_user new_ann [] Users.default_profile_ex
           (Users.install (Some Users.default_profile_ex)));
    try (vm_compute; reflexivity).
  intros H. inversion H.
Defined.

(** C29: a name that is already a user is refused: the run shows the
    error and leaves every file as it was. *)
Theorem existing_username_rejected u users w :
  role u = Ok "User" → users_content (files w) = Some users →
  user_selected u (dict_keys users) = Ok create_label →
  str_truthy (typed_username u) = true → typed_username u ∈ dict_keys users →
  main u w = (Ok None, showing (user_top ++ [Error "This user already exists."]) w).
Proof.
  intros Hrole Hus Hsel Hname Hold. rewrite (main_user u users) by done.
  rewrite Hsel, bool_decide_true by done. unfold fmap, io_fmap.
  rewrite create_user_page_run. cbv zeta. rewrite Hname, bool_decide_true by done.
  by rewrite showing_app.
Qed.

Lemma existing_username_rejected_witness :
  main ann_again (UserViews.ann_world None)
  = (Ok None,
     showing (user_top ++ [Error "This user already exists."]) (UserViews.ann_world None)).
Proof.
  apply (existing_username_rejected ann_again
           [("ann", mkUserDir (Some UserViews.ann_profile) None)]);
    try (vm_compute; reflexivity).
  vm_compute. left.
Defined.

(** C18: when the first user is created without a default profile on
    disk, the run raises, and from then on every run of the user page
    with the select box untouched raises too: the one user listed is
    selected and has no profile. *)
Theorem failed_creation_breaks_user_page u u' w :
  role u = Ok "User" → users_content (files w) = Some [] →
  str_truthy (typed_username u) = true → typed_username u ≠ create_label →
  read default_profile_json (files w) = None →
  role u' = Ok "User" →
  select_state u' !! "Choose an existing user or create a new one:" = None →
  result_of (main u) w = Raise (FileNotFoundError "defaults/base_profile.json")
  ∧ result_of (main u') (world_of (main u) w)
    = Raise (FileNotFoundError ("users/" +:+ typed_username u +:+ "/base_profile.json")).
Proof.
  intros Hrole Hus Hname Hne Hd Hrole' Hsel'. unfold result_of, world_of.
  rewrite (main_user u []) by done. cbn [dict_keys fmap list_fmap].
  rewrite user_selected_nil, bool_decide_true by done. unfold fmap, io_fmap.
  rewrite create_user_page_run. cbv zeta.
  rewrite Hname, bool_decide_false by apply not_elem_of_nil.
  rewrite Users.create_new_user_Raise by done. split; [done|]. cbn [snd].
  erewrite main_user; [|done|by apply Users.makedirs_first_user].
  cbn [dict_keys fmap list_fmap fst].
  rewrite user_selected_only, bool_decide_false by done.
  erewrite user_menu_Raise; [done|]. apply Users.load_user_profile_Raise.
  unfold showing. cbn [files]. rewrite user_lookup_makedirs.
  unfold user_lookup. by rewrite Hus.
Qed.

Lemma failed_creation_breaks_user_page_witness :
  result_of (main new_ann) (Users.install None)
  = Raise (FileNotFoundError "defaults/base_profile.json")
  ∧ result_of (main user_page) (world_of (main new_ann) (Users.install None))
    = Raise (FileNotFoundError
               ("users/" +:+ typed_username new_ann +:+ "/base_profile.json")).
Proof.
  apply (failed_creation_breaks_user_page new_ann user_page (Users.install None));
    try (vm_compute; reflexivity).
  vm_compute. discriminate.
Defined.

Lemma saved_venue_is_matched_witness :
  result_of (main vendor_renames) town_with_ann = Raise RerunException
  ∧ VenueManager.load_venues (files (world_of (main vendor_renames) town_with_ann))
    = saved_venues vendor_renames "cafe" VenueManager.cafe_edited (files town_with_ann)
  ∧ UserViews.matches bistro_scenario
    = show_top 3 (qualified (UserViews.session_profile bistro_scenario)
                    (saved_venues vendor_renames "cafe" VenueManager.cafe_edited
                       (files town_with_ann))).
Proof.
  apply (saved_venue_is_matched vendor_renames town_with_ann "cafe"
           VenueManager.cafe_edited) with (u' := ann_night_out);
    vm_compute; reflexivity.
Defined.

(** C14: whenever a run of the application shows a scenario, its
    session profile is well formed and its matches are the best three
    of the venues of [venues.json] that the session profile does not
    disqualify. *)
Theorem app_scenario_matches u w sc :
  result_of (main u) w = Ok (Some sc) →
  profile_wf (UserViews.session_profile sc)
  ∧ ∃ venues, read venues_json (files w) = Some venues
      ∧ UserViews.matches sc
        = show_top 3 (qualified (UserViews.session_profile sc) venues).
Proof.
  unfold result_of. destruct (main u w) as [r w'] eqn:Hmain. cbn [fst]. intros ->.
  by eapply main_scenario.
Qed.

Lemma app_scenario_matches_witness :
  profile_wf (UserViews.session_profile UserViews.night_scenario)
  ∧ ∃ venues, read venues_json (files (UserViews.ann_world None)) = Some venues
      ∧ UserViews.matches UserViews.night_scenario
        = show_top 3 (qualified (UserViews.session_profile UserViews.night_scenario)
                        venues).
Proof.
  apply (app_scenario_matches ann_night_out (UserViews.ann_world None)).
  vm_compute; reflexivity.
Defined.

(** C20: a run of the application raises nothing but a missing file,
    a widget that refuses the default it is given, and the rerun: no
    lookup of a key and no division fails, whatever the files hold and
    whatever the user does. *)
Theorem app_raises_only u w e :
  result_of (main u) w = Raise e →
  (∃ path, e = FileNotFoundError path) ∨ (∃ label, e = StreamlitAPIException label)
  ∨ e = RerunException.
Proof.
  unfold result_of. destruct (main u w) as [r w'] eqn:Hmain. cbn [fst]. intros ->.
  apply main_expected in Hmain. destruct e; try done; eauto.
Qed.

Lemma app_raises_only_witness :
  (∃ path, FileNotFoundError "defaults/base_profile.json" = FileNotFoundError path)
  ∨ (∃ label, FileNotFoundError "defaults/base_profile.json" = StreamlitAPIException label)
  ∨ FileNotFoundError "defaults/base_profile.json" = RerunException.
Proof.
  apply (app_raises_only new_ann (Users.install None)). vm_compute. reflexivity.
Defined.

(** A first visit, with no widget touched, asks for the role and
    touches no file. *)
Theorem first_visit_asks_role w :
  main no_input w
  = (Ok None, showing (top ++ [Warning "Please select your role to continue."]) w).
Proof. by apply (main_no_role no_input w "Select..."). Qed.

End App.
